(** * Royal Mail label client: a shallow embedding of [royalmail-client.ts]

    Definitions, in the order of the source file:

    - [JsString]: JavaScript strings as sequences of UTF-16 code units;
    - [Regex]: the fragment of ECMAScript regular expressions used by the
      confirmation extractor, with the backtracking semantics of
      [String.prototype.match] (leftmost match, greedy quantifiers);
    - [Extract]: the body of [extractConfirmation] (the function handed to
      [page.evaluate]), a pure function of the page text;
    - [World]: the session file, the fields of the client object, and the
      calls the client makes on Playwright and on the clock, which an
      environment answers;
    - [Monad], [Fs]: the state-and-exception monad in which the methods are
      written, and the four uses of [fs] on the session file;
    - [Client]: the methods of [class RoyalMailClient];
    - [Session], [Scenario]: the vocabulary of the statements, and concrete
      environments and worlds.

    - [Language], [Effects]: what a pattern matches and the shapes of the
      extracted values; the vocabulary of further statements.

    Properties: [ExtractFacts] (the extractor), [Stepwise] (relations kept
    by every method) and [ClientFacts] (session manager, guards of [submit]
    and [downloadLabel], element resolver, [reset], flags); then
    [RegexFacts] and [ShapeFacts] (soundness of the matcher, shapes of what
    is extracted), [TableFacts] (the table of services), [EffectFacts] and
    [ResolverFacts] (element and service resolvers), [SessionFacts],
    [OperationFacts] and [WorkflowFacts] (session manager, operations and
    their composition). *)

From Stdlib Require Import ZArith List String Ascii Bool Lia DecimalString.
Import ListNotations.

Set Implicit Arguments.

(* ===================================================================== *)
(** ** JavaScript strings *)
(* ===================================================================== *)

Module JsString.

(** A JavaScript string is a finite sequence of 16-bit code units. *)
Definition jsstring := list Z.

(** An ASCII literal of the source, as code units. *)
Definition lit (s : string) : jsstring :=
  map (fun a => Z.of_N (N_of_ascii a)) (list_ascii_of_string s).

(** U+00A3 POUND SIGN, one code unit. *)
Definition pound : Z := 163.

Definition zrange (lo hi : Z) : list Z :=
  map (fun k => (lo + Z.of_nat k)%Z) (seq 0 (Z.to_nat (hi - lo + 1))).

Fixpoint jseqb (a b : jsstring) : bool :=
  match a, b with
  | [], [] => true
  | x :: a', y :: b' => (x =? y)%Z && jseqb a' b'
  | _, _ => false
  end.

Fixpoint starts_with (s sub : jsstring) : bool :=
  match sub, s with
  | [], _ => true
  | a :: sub', c :: s' => (a =? c)%Z && starts_with s' sub'
  | _ :: _, [] => false
  end.

(** [s.includes(sub)] *)
Fixpoint includes (s sub : jsstring) : bool :=
  starts_with s sub ||
  match s with
  | [] => false
  | _ :: s' => includes s' sub
  end.

(** A value read from a property of a plain object: a string the object
    holds itself, or what it inherits from [Object.prototype], which is a
    built-in function, known by its [name], or [Object.prototype] itself
    (the property [__proto__]). *)
Inductive jsvalue : Type :=
| VString (s : jsstring)
| VFunction (name : jsstring)
| VObjectPrototype.

(** Truthiness: every function and object, and every string but the empty
    one. *)
Definition value_truthy (v : jsvalue) : bool :=
  match v with
  | VString [] => false
  | _ => true
  end.

(** The text of a value in a template literal, [`${v}`]; a built-in
    function as Node prints it. *)
Definition to_string (v : jsvalue) : jsstring :=
  match v with
  | VString s => s
  | VFunction name => lit "function " ++ name ++ lit "() { [native code] }"
  | VObjectPrototype => lit "[object Object]"
  end.

End JsString.
Import JsString.

(* ===================================================================== *)
(** ** Regular expressions *)
(* ===================================================================== *)

Module Regex.

Local Open Scope Z_scope.

(** Members of a character class [[...]]. *)
Inductive catom : Type :=
| CChar (c : Z)            (* a single character, e.g. [:] *)
| CRange (lo hi : Z)       (* [A-Z] *)
| CDigit                   (* \d *)
| CSpace.                  (* \s *)

Definition cclass := list catom.

(** The patterns of the source quantify character classes and escapes
    only, so quantifiers take a class. *)
Inductive regex : Type :=
| RLit (s : jsstring)            (* a run of literal characters *)
| RClass (cs : cclass)           (* [...] *)
| RStar (cs : cclass)            (* [...]* , greedy *)
| RPlus (cs : cclass)            (* [...]+ , greedy *)
| ROpt (cs : cclass)             (* [...]? , greedy *)
| RRep (n : nat) (cs : cclass)   (* [...]{n} *)
| RSeq (r1 r2 : regex)
| RGroup (r : regex).            (* ( ... ), capture group 1 *)

(** A pattern with its [i] flag. *)
Record pattern : Type := Pattern { body : regex; ignoreCase : bool }.

(** WhiteSpace and LineTerminator code points of ECMAScript ([\s]). *)
Definition whitespace : list Z :=
  [9; 10; 11; 12; 13; 32; 160; 5760] ++ zrange 8192 8202 ++
  [8232; 8233; 8239; 8287; 12288; 65279].

Definition members (a : catom) : list Z :=
  match a with
  | CChar c => [c]
  | CRange lo hi => zrange lo hi
  | CDigit => zrange 48 57
  | CSpace => whitespace
  end.

(** Canonicalize of ECMAScript without the [u] flag: upper-casing, except
    that a non-ASCII unit is never mapped to an ASCII one.  On ASCII this is
    the folding of [a-z] to [A-Z].  Non-ASCII units are left alone here: the
    only non-ASCII members of the classes below are the pound sign and the
    Unicode spaces, which have no case and are no character's upper case,
    so the case mapping of other non-ASCII units cannot change a match. *)
Definition canonicalize (i : bool) (c : Z) : Z :=
  if i && (97 <=? c) && (c <=? 122) then c - 32 else c.

Definition char_matches (i : bool) (a c : Z) : bool :=
  canonicalize i a =? canonicalize i c.

(** CharacterSetMatcher: some member of the set has the canonical form of
    the input character. *)
Definition class_matches (i : bool) (cs : cclass) (c : Z) : bool :=
  existsb (fun a => char_matches i a c) (flat_map members cs).

Section Matcher.

Variable i : bool.
(** The answer type of continuations. *)
Variable X : Type.

(** A continuation receives the characters consumed by the node just
    matched, the rest of the input and the capture so far. *)
Definition cont := jsstring -> jsstring -> option jsstring -> option X.

Fixpoint match_lit (l s : jsstring) (k : jsstring -> jsstring -> option X)
  : option X :=
  match l with
  | [] => k [] s
  | a :: l' =>
      match s with
      | c :: s' =>
          if char_matches i a c
          then match_lit l' s' (fun m r => k (c :: m) r)
          else None
      | [] => None
      end
  end.

(** Greedy star: take as many characters as possible, give characters
    back one at a time when the continuation fails. *)
Fixpoint match_star (cs : cclass) (s : jsstring)
  (k : jsstring -> jsstring -> option X) : option X :=
  match s with
  | c :: s' =>
      if class_matches i cs c
      then match match_star cs s' (fun m r => k (c :: m) r) with
           | Some x => Some x
           | None => k [] s
           end
      else k [] s
  | [] => k [] s
  end.

Fixpoint match_rep (n : nat) (cs : cclass) (s : jsstring)
  (k : jsstring -> jsstring -> option X) : option X :=
  match n with
  | O => k [] s
  | S n' =>
      match s with
      | c :: s' =>
          if class_matches i cs c
          then match_rep n' cs s' (fun m r => k (c :: m) r)
          else None
      | [] => None
      end
  end.

Definition match_class (cs : cclass) (s : jsstring)
  (k : jsstring -> jsstring -> option X) : option X :=
  match s with
  | c :: s' => if class_matches i cs c then k [c] s' else None
  | [] => None
  end.

Definition match_opt (cs : cclass) (s : jsstring)
  (k : jsstring -> jsstring -> option X) : option X :=
  match s with
  | c :: s' =>
      if class_matches i cs c
      then match k [c] s' with
           | Some x => Some x
           | None => k [] s
           end
      else k [] s
  | [] => k [] s
  end.

Fixpoint rmatch (r : regex) (s : jsstring) (cap : option jsstring)
  (k : cont) : option X :=
  match r with
  | RLit l => match_lit l s (fun m s' => k m s' cap)
  | RClass cs => match_class cs s (fun m s' => k m s' cap)
  | RStar cs => match_star cs s (fun m s' => k m s' cap)
  | RPlus cs =>
      match_class cs s
        (fun m1 s1 => match_star cs s1 (fun m2 s2 => k (m1 ++ m2) s2 cap))
  | ROpt cs => match_opt cs s (fun m s' => k m s' cap)
  | RRep n cs => match_rep n cs s (fun m s' => k m s' cap)
  | RSeq r1 r2 =>
      rmatch r1 s cap
        (fun m1 s1 cap1 =>
           rmatch r2 s1 cap1 (fun m2 s2 cap2 => k (m1 ++ m2) s2 cap2))
  | RGroup r1 =>
      rmatch r1 s cap (fun m1 s1 _ => k m1 s1 (Some m1))
  end.

End Matcher.

(** The array returned by [match]: element 0 is the matched text, element 1
    the capture of group 1 ([undefined] when the group took no part). *)
Record match_array : Type := MatchArray { m0 : jsstring; m1 : option jsstring }.

(** One attempt of the pattern at the start of [s]. *)
Definition match_here (p : pattern) (s : jsstring) : option match_array :=
  rmatch (ignoreCase p) (body p) s None
    (fun m _ cap => Some (MatchArray m cap)).

(** [text.match(pattern)] for a pattern without the [g] flag: the attempts
    start at index 0 and move right one code unit at a time, up to and
    including the end of the text; [null] is [None]. *)
Fixpoint js_match (p : pattern) (s : jsstring) : option match_array :=
  match match_here p s with
  | Some m => Some m
  | None =>
      match s with
      | [] => None
      | _ :: s' => js_match p s'
      end
  end.

(** No attempt of [p] succeeds at a position inside [pre], in the text
    [pre ++ rest]. *)
Fixpoint no_match_in (p : pattern) (pre rest : jsstring) : bool :=
  match pre with
  | [] => true
  | _ :: pre' =>
      match match_here p (pre ++ rest) with
      | Some _ => false
      | None => no_match_in p pre' rest
      end
  end.

End Regex.
Import Regex.

(* ===================================================================== *)
(** ** The confirmation extractor *)
(* ===================================================================== *)

Module Extract.

Definition AZ : cclass := [CRange 65 90].
Definition colon_space_hash : cclass := [CChar 58; CSpace; CChar 35].
Definition colon_space : cclass := [CChar 58; CSpace].
Definition pound_dollar : cclass := [CChar pound; CChar 36].
Definition digit_dot_comma : cclass := [CDigit; CChar 46; CChar 44].

(** [([A-Z]{2}\d{9}GB)] *)
Definition tracking_code : regex :=
  RGroup (RSeq (RRep 2 AZ) (RSeq (RRep 9 [CDigit]) (RLit (lit "GB")))).

(** [/Tracking[:\s#]*([A-Z]{2}\d{9}GB)/i] *)
Definition pat_tracking : pattern :=
  Pattern (RSeq (RLit (lit "Tracking")) (RSeq (RStar colon_space_hash) tracking_code)) true.
(** [/Reference[:\s#]*([A-Z]{2}\d{9}GB)/i] *)
Definition pat_reference : pattern :=
  Pattern (RSeq (RLit (lit "Reference")) (RSeq (RStar colon_space_hash) tracking_code)) true.
(** [/([A-Z]{2}\d{9}GB)/] *)
Definition pat_bare_tracking : pattern :=
  Pattern tracking_code false.
(** [/Barcode[:\s#]*(\d+)/i] *)
Definition pat_barcode : pattern :=
  Pattern (RSeq (RLit (lit "Barcode"))
             (RSeq (RStar colon_space_hash) (RGroup (RPlus [CDigit])))) true.

Definition trackingPatterns : list pattern :=
  [pat_tracking; pat_reference; pat_bare_tracking; pat_barcode].

(** [label[:\s]*[£\$]?([\d.,]+)] *)
Definition labelled_amount (label : string) : regex :=
  RSeq (RLit (lit label))
    (RSeq (RStar colon_space)
       (RSeq (ROpt pound_dollar) (RGroup (RPlus digit_dot_comma)))).

(** [/Total[:\s]*[£\$]?([\d.,]+)/i] *)
Definition pat_total : pattern := Pattern (labelled_amount "Total") true.
(** [/Cost[:\s]*[£\$]?([\d.,]+)/i] *)
Definition pat_cost : pattern := Pattern (labelled_amount "Cost") true.
(** [/Price[:\s]*[£\$]?([\d.,]+)/i] *)
Definition pat_price : pattern := Pattern (labelled_amount "Price") true.
(** [/[£]([\d.,]+)/] *)
Definition pat_bare_amount : pattern :=
  Pattern (RSeq (RClass [CChar pound]) (RGroup (RPlus digit_dot_comma))) false.

Definition costPatterns : list pattern :=
  [pat_total; pat_cost; pat_price; pat_bare_amount].

(** [for (const pattern of patterns) { const match = text.match(pattern);
    if (match) { ... match[1] ...; break; } }]: the match array of the first
    pattern that matches. *)
Fixpoint first_match (patterns : list pattern) (text : jsstring)
  : option match_array :=
  match patterns with
  | [] => None
  | p :: rest =>
      match js_match p text with
      | Some m => Some m
      | None => first_match rest text
      end
  end.

(** A template literal prints [undefined] as the word. *)
Definition template_value (v : option jsstring) : jsstring :=
  match v with
  | Some s => s
  | None => lit "undefined"
  end.

(** The object returned to the caller; an absent field is [None]. *)
Record Confirmation : Type :=
  { trackingNumber : option jsstring; cost : option jsstring }.

(** The function evaluated in the page, applied to
    [document.body.innerText]. *)
Definition extractText (text : jsstring) : Confirmation :=
  {| trackingNumber :=
       match first_match trackingPatterns text with
       | Some m => m1 m
       | None => None
       end;
     cost :=
       match first_match costPatterns text with
       | Some m => Some (pound :: template_value (m1 m))
       | None => None
       end |}.

(** The texts of the examples of the specification. *)
Definition tracking_line : jsstring := lit "Tracking: AB123456789GB".
Definition total_line : jsstring := lit "Total: " ++ pound :: lit "12.34".
Definition cost_line : jsstring := lit "Cost: $5.00".

(** The character that follows an amount does not extend it: the text
    ends there, or goes on with something else than a digit, a dot or a
    comma. *)
Definition ends_amount (post : jsstring) : bool :=
  match post with
  | [] => true
  | c :: _ => negb (class_matches true digit_dot_comma c)
  end.

End Extract.

(* ===================================================================== *)
(** ** The world of the client: session file, fields, browser *)
(* ===================================================================== *)

Module World.

(** [interface SessionInfo] *)
Record SessionInfo : Type :=
  { wsEndpoint : jsstring;
    createdAt : jsstring;
    loggedIn : bool;
    formFilled : bool;
    labelGenerated : bool }.

(** [Partial<SessionInfo>]: every field optional. *)
Record SessionUpdate : Type :=
  { set_wsEndpoint : option jsstring;
    set_createdAt : option jsstring;
    set_loggedIn : option bool;
    set_formFilled : option bool;
    set_labelGenerated : option bool }.

Definition override {A} (old : A) (new : option A) : A :=
  match new with Some v => v | None => old end.

(** [Object.assign(session, updates)] *)
Definition assign (session : SessionInfo) (updates : SessionUpdate) : SessionInfo :=
  {| wsEndpoint := override (wsEndpoint session) (set_wsEndpoint updates);
     createdAt := override (createdAt session) (set_createdAt updates);
     loggedIn := override (loggedIn session) (set_loggedIn updates);
     formFilled := override (formFilled session) (set_formFilled updates);
     labelGenerated := override (labelGenerated session) (set_labelGenerated updates) |}.

(** What [/tmp/royalmail-session.json] holds: the JSON text of a session
    (as [JSON.stringify] writes it and [JSON.parse] reads it back), or a
    text on which [JSON.parse] throws. *)
Inductive FileContent : Type :=
| Json (session : SessionInfo)
| NotJson.

(** Handles of Playwright objects. *)
Definition Browser := nat.
Definition BrowserContext := nat.
Definition Page := nat.
Definition Element := nat.
Definition Download := nat.

(** The result of a call that may throw. *)
Inductive outcome (A : Type) : Type :=
| Returned (a : A)
| Thrown (message : jsstring).
Arguments Thrown {A} message.

(** The calls the client makes on Playwright and on the clock, indexed by
    what they answer.  An awaited call answers an [outcome]. *)
Inductive Call : Type -> Type :=
| ConnectOverCDP (endpoint : jsstring) : Call (outcome Browser)
| Contexts (b : Browser) : Call (outcome (list BrowserContext))
| Pages (c : BrowserContext) : Call (outcome (list Page))
| Launch : Call (outcome Browser)
| NewContext (b : Browser) : Call (outcome BrowserContext)
| NewPage (c : BrowserContext) : Call (outcome Page)
| WsEndpoint (b : Browser) : Call (option jsstring)
| BrowserClose (b : Browser) : Call (outcome unit)
| Goto (p : Page) (url : jsstring) : Call (outcome unit)
| WaitForTimeout (p : Page) (ms : Z) : Call (outcome unit)
| WaitForLoadState (p : Page) (state : jsstring) : Call (outcome unit)
| WaitForLoggedIn (p : Page) : Call (outcome unit)
| Screenshot (p : Page) (path : jsstring) (fullPage : bool) : Call (outcome unit)
| Url (p : Page) : Call jsstring
| Query (p : Page) (selector : jsstring) : Call (outcome (option Element))
| QueryIn (e : Element) (selector : jsstring) : Call (outcome (option Element))
| GetAttribute (e : Element) (name : jsstring) : Call (outcome (option jsstring))
| Fill (e : Element) (value : jsstring) : Call (outcome unit)
| Click (e : Element) : Call (outcome unit)
| SelectOptionValue (e : Element) (value : jsstring) : Call (outcome unit)
| SelectOptionLabel (e : Element) (label : jsvalue) : Call (outcome unit)
| InnerText (p : Page) : Call (outcome jsstring)
| WaitForEventDownload (p : Page) : Call unit
| AwaitDownload (p : Page) : Call (outcome Download)
| SuggestedFilename (d : Download) : Call jsstring
| SaveAs (d : Download) (path : jsstring) : Call (outcome unit)
| DateNow : Call Z
| DateToISOString : Call jsstring.

Inductive AnyCall : Type :=
| Any : forall X : Type, Call X -> AnyCall.

(** The environment answers a call knowing the calls made before it. *)
Definition Env : Type := forall X : Type, list AnyCall -> Call X -> X.

(** The session file, the fields of the client object, and the calls made
    so far (oldest first). *)
Record World : Type :=
  { file : option FileContent;
    browser : option Browser;
    context : option BrowserContext;
    page : option Page;
    trace : list AnyCall }.

(** A client freshly constructed in a new process. *)
Definition fresh_process (f : option FileContent) : World :=
  {| file := f; browser := None; context := None; page := None; trace := [] |}.

Definition is_launch (c : AnyCall) : bool :=
  match c with
  | Any Launch => true
  | _ => false
  end.

Definition is_fill (c : AnyCall) : bool :=
  match c with
  | Any (Fill _ _) => true
  | _ => false
  end.

Definition is_query (c : AnyCall) : bool :=
  match c with
  | Any (Query _ _) => true
  | _ => false
  end.

(** The calls that act on a page or on an element of it, as opposed to
    those that obtain the browser, its contexts and its pages. *)
Definition is_page_interaction (c : AnyCall) : bool :=
  match c with
  | Any (ConnectOverCDP _) | Any (Contexts _) | Any (Pages _)
  | Any Launch | Any (NewContext _) | Any (NewPage _) | Any (WsEndpoint _)
  | Any (BrowserClose _) | Any DateNow | Any DateToISOString => false
  | _ => true
  end.

End World.
Import World.

(* ===================================================================== *)
(** ** The monad of client methods: state, exceptions, environment *)
(* ===================================================================== *)

Module Monad.

(** A method runs against an environment, from a world, and returns or
    throws, leaving a world. *)
Definition M (A : Type) : Type := Env -> World -> outcome A * World.

Definition ret {A} (a : A) : M A := fun _ w => (Returned a, w).

Definition throw {A} (message : jsstring) : M A := fun _ w => (Thrown message, w).

Definition bind {A B} (m : M A) (k : A -> M B) : M B :=
  fun env w =>
    match m env w with
    | (Returned a, w') => k a env w'
    | (Thrown e, w') => (Thrown e, w')
    end.

(** [try { m } catch (error) { handler(error.message) }] *)
Definition try_catch {A} (m : M A) (handler : jsstring -> M A) : M A :=
  fun env w =>
    match m env w with
    | (Returned a, w') => (Returned a, w')
    | (Thrown e, w') => handler e env w'
    end.

(** Updates of one component of the world. *)
Definition log (c : AnyCall) (w : World) : World :=
  {| file := file w; browser := browser w; context := context w;
     page := page w; trace := trace w ++ [c] |}.

Definition with_file (f : option FileContent) (w : World) : World :=
  {| file := f; browser := browser w; context := context w;
     page := page w; trace := trace w |}.

Definition with_browser (b : option Browser) (w : World) : World :=
  {| file := file w; browser := b; context := context w;
     page := page w; trace := trace w |}.

Definition with_context (c : option BrowserContext) (w : World) : World :=
  {| file := file w; browser := browser w; context := c;
     page := page w; trace := trace w |}.

Definition with_page (p : option Page) (w : World) : World :=
  {| file := file w; browser := browser w; context := context w;
     page := p; trace := trace w |}.

(** A call that cannot throw. *)
Definition ask {X} (c : Call X) : M X :=
  fun env w => (Returned (env X (trace w) c), log (Any c) w).

(** A call that returns or throws. *)
Definition call {X} (c : Call (outcome X)) : M X :=
  fun env w => (env (outcome X) (trace w) c, log (Any c) w).

Definition get_file : M (option FileContent) := fun _ w => (Returned (file w), w).

Definition set_file (f : option FileContent) : M unit :=
  fun _ w => (Returned tt, with_file f w).

Definition get_browser : M (option Browser) := fun _ w => (Returned (browser w), w).

Definition set_browser (b : option Browser) : M unit :=
  fun _ w => (Returned tt, with_browser b w).

Definition set_context (c : option BrowserContext) : M unit :=
  fun _ w => (Returned tt, with_context c w).

Definition set_page (p : option Page) : M unit :=
  fun _ w => (Returned tt, with_page p w).

Declare Scope js_scope.
Delimit Scope js_scope with js.
Notation "x <- m ;; k" := (bind m (fun x => k))
  (at level 61, m at next level, right associativity) : js_scope.
Notation "m ;; k" := (bind m (fun _ => k))
  (at level 61, right associativity) : js_scope.

End Monad.
Import Monad.
Local Open Scope js_scope.

(* ===================================================================== *)
(** ** Node's [fs] on the session file *)
(* ===================================================================== *)

Module Fs.

(** The file system is taken to be reliable: the session file is read back
    as it was written, and the only failures are those of reading or
    deleting a file that is not there and of parsing a text that is not
    JSON. *)

(** [existsSync(SESSION_PATH)] *)
Definition existsSync : M bool :=
  f <- get_file ;;
  ret (match f with Some _ => true | None => false end).

(** [JSON.parse(readFileSync(SESSION_PATH, "utf-8"))] *)
Definition readSession : M SessionInfo :=
  f <- get_file ;;
  match f with
  | Some (Json session) => ret session
  | Some NotJson => throw (lit "Unexpected token in JSON")
  | None => throw (lit "ENOENT: no such file or directory")
  end.

(** [writeFileSync(SESSION_PATH, JSON.stringify(session))] *)
Definition writeSession (session : SessionInfo) : M unit :=
  set_file (Some (Json session)).

(** [unlinkSync(SESSION_PATH)] *)
Definition unlinkSync : M unit :=
  f <- get_file ;;
  match f with
  | Some _ => set_file None
  | None => throw (lit "ENOENT: no such file or directory")
  end.

End Fs.
Import Fs.

(* ===================================================================== *)
(** ** [class RoyalMailClient] *)
(* ===================================================================== *)

Module Client.

Local Open Scope Z_scope.

(** A string literal of the source.  Where the source literal contains
    double quotes, the literal here has a backquote in their place. *)
Definition js (s : string) : jsstring :=
  map (fun c => if c =? 96 then 34 else c) (lit s).

Definition SCREENSHOT_DIR : jsstring := js "/home/USER/biz/.playwright-mcp".
Definition LABEL_DIR : jsstring := js "/home/USER/biz/shipping-labels".
Definition ROYALMAIL_LOGIN_URL : jsstring := js "https://business.parcel.royalmail.com/".
Definition ROYALMAIL_CREATE_ORDER_URL : jsstring :=
  js "https://business.parcel.royalmail.com/orders/single/create".

Definition SERVICE_CODES : list (jsstring * jsstring) :=
  [ (js "TRACKED24", js "Royal Mail Tracked 24");
    (js "TRACKED48", js "Royal Mail Tracked 48");
    (js "SPECIALDELIVERY9", js "Special Delivery Guaranteed by 9am");
    (js "SPECIALDELIVERY1", js "Special Delivery Guaranteed by 1pm");
    (js "SIGNED", js "Royal Mail Signed For 1st Class");
    (js "SIGNED2", js "Royal Mail Signed For 2nd Class") ].

(** What every plain object inherits from [Object.prototype] (the
    command line is run by Node): eleven built-in functions and the
    accessor [__proto__], which answers [Object.prototype]. *)
Definition Object_prototype : list (jsstring * jsvalue) :=
  [ (js "constructor", VFunction (js "Object"));
    (js "__defineGetter__", VFunction (js "__defineGetter__"));
    (js "__defineSetter__", VFunction (js "__defineSetter__"));
    (js "hasOwnProperty", VFunction (js "hasOwnProperty"));
    (js "__lookupGetter__", VFunction (js "__lookupGetter__"));
    (js "__lookupSetter__", VFunction (js "__lookupSetter__"));
    (js "isPrototypeOf", VFunction (js "isPrototypeOf"));
    (js "propertyIsEnumerable", VFunction (js "propertyIsEnumerable"));
    (js "toString", VFunction (js "toString"));
    (js "valueOf", VFunction (js "valueOf"));
    (js "__proto__", VObjectPrototype);
    (js "toLocaleString", VFunction (js "toLocaleString")) ].

Fixpoint lookup (V : Type) (table : list (jsstring * V)) (key : jsstring)
  : option V :=
  match table with
  | [] => None
  | (k, v) :: rest => if jseqb k key then Some v else lookup rest key
  end.

(** [SERVICE_CODES[code]]: [SERVICE_CODES] is a plain object, so a key it
    does not hold itself is looked up in [Object.prototype]. *)
Definition service_entry (code : jsstring) : option jsvalue :=
  match lookup SERVICE_CODES code with
  | Some name => Some (VString name)
  | None => lookup Object_prototype code
  end.

(** [SERVICE_CODES[code] || code] *)
Definition service_name (code : jsstring) : jsvalue :=
  match service_entry code with
  | Some v => if value_truthy v then v else VString code
  | None => VString code
  end.

(** [this.config.royalmail] *)
Record Config : Type := { username : jsstring; password : jsstring }.

(** Truthiness of an optional string: present and not empty. *)
Definition truthy (s : option jsstring) : bool :=
  match s with
  | Some (_ :: _) => true
  | _ => false
  end.

(** [String(n)] of an integral number, e.g. of [Date.now()]. *)
Definition decimal (n : Z) : jsstring := lit (NilZero.string_of_int (Z.to_int n)).

(** [label.toLowerCase()], for the ASCII labels of the source. *)
Definition toLowerCase (s : jsstring) : jsstring :=
  map (fun c => if (65 <=? c) && (c <=? 90) then c + 32 else c) s.

(** [s.replace(/\s+/g, empty)]: every run of white space is removed. *)
Definition remove_whitespace (s : jsstring) : jsstring :=
  filter (fun c => negb (existsb (Z.eqb c) whitespace)) s.

(** A JavaScript number of the label request, seen through the two uses
    the client makes of it: [String(n)] and its truthiness. *)
Record jsnumber : Type := { number_string : jsstring; number_truthy : bool }.

(** [interface CreateLabelOptions] *)
Record CreateLabelOptions : Type :=
  { o_name : jsstring;
    o_company : option jsstring;
    o_address1 : jsstring;
    o_address2 : option jsstring;
    o_city : jsstring;
    o_postcode : jsstring;
    o_email : option jsstring;
    o_phone : option jsstring;
    o_weight : jsnumber;
    o_length : option jsnumber;
    o_width : option jsnumber;
    o_height : option jsnumber;
    o_service : jsstring;
    o_reference : option jsstring;
    o_contents : option jsstring }.

(** [interface ScreenshotOptions] *)
Record ScreenshotOptions : Type :=
  { o_filename : option jsstring; o_fullPage : option bool }.

(** [interface FormState] and [interface Result]; an absent field is [None]. *)
Record FormState : Type :=
  { fs_name : jsstring;
    fs_company : option jsstring;
    fs_address1 : jsstring;
    fs_address2 : option jsstring;
    fs_city : jsstring;
    fs_postcode : jsstring;
    fs_weight : jsnumber;
    fs_service : jsvalue;
    fs_reference : option jsstring }.

Record Result : Type :=
  { success : option bool;
    error : option bool;
    message : option jsstring;
    screenshot : option jsstring;
    formState : option FormState;
    labelPath : option jsstring;
    trackingNumber : option jsstring;
    cost : option jsstring }.

(** [{ error: true, message }] *)
Definition error_result (msg : jsstring) : Result :=
  {| success := None; error := Some true; message := Some msg; screenshot := None;
     formState := None; labelPath := None; trackingNumber := None; cost := None |}.

(** [{ error: true, message, screenshot }] *)
Definition error_result_with (msg shot : jsstring) : Result :=
  {| success := None; error := Some true; message := Some msg;
     screenshot := Some shot;
     formState := None; labelPath := None; trackingNumber := None; cost := None |}.

(** [`${SCREENSHOT_DIR}/${stem}${Date.now()}.png`] *)
Definition screenshot_path (stem : string) (now : Z) : jsstring :=
  SCREENSHOT_DIR ++ js "/" ++ js stem ++ decimal now ++ js ".png".

(** ** INTERNAL *)

(** The [try] block of [ensureBrowser]: the page of the recorded session,
    when there is one. *)
Definition reconnect : M (option Page) :=
  session <- readSession ;;
  b <- call (ConnectOverCDP (wsEndpoint session)) ;;
  set_browser (Some b) ;;
  contexts <- call (Contexts b) ;;
  match contexts with
  | c :: _ =>
      set_context (Some c) ;;
      pages <- call (Pages c) ;;
      match pages with
      | p :: _ => set_page (Some p) ;; ret (Some p)
      | [] => ret None
      end
  | [] => ret None
  end.

(** The session written after a launch. *)
Definition fresh_session (endpoint now : jsstring) : SessionInfo :=
  {| wsEndpoint := endpoint; createdAt := now;
     loggedIn := false; formFilled := false; labelGenerated := false |}.

(** The second half of [ensureBrowser]: launch, and save the session when
    the browser gives an endpoint. *)
Definition launch : M Page :=
  b <- call Launch ;;
  set_browser (Some b) ;;
  c <- call (NewContext b) ;;
  set_context (Some c) ;;
  p <- call (NewPage c) ;;
  set_page (Some p) ;;
  endpoint <- ask (WsEndpoint b) ;;
  match endpoint with
  | Some (c0 :: e) =>
      now <- ask DateToISOString ;;
      writeSession (fresh_session (c0 :: e) now)
  | _ => ret tt
  end ;;
  ret p.

(** The first half of [ensureBrowser]: the page of the existing session;
    [None] when the method falls through to the launch. *)
Definition acquire_existing : M (option Page) :=
  ex <- existsSync ;;
  if ex
  then try_catch reconnect
         (fun _ =>
            try_catch unlinkSync (fun _ => ret tt) ;;
            ret None)
  else ret None.

Definition ensureBrowser : M Page :=
  found <- acquire_existing ;;
  match found with
  | Some p => ret p
  | None => launch
  end.

Definition updateSession (updates : SessionUpdate) : M unit :=
  ex <- existsSync ;;
  if ex
  then session <- readSession ;;
       writeSession (assign session updates)
  else ret tt.

(** One round of the selector loops of the source:
    [try { const el = await page.$(selector); if (el) { action(el); ... } }
    catch { ... }].  The answer tells whether the action was done. *)
Definition attempt (p : Page) (selector : jsstring)
  (action : Element -> M unit) : M bool :=
  try_catch
    (el <- call (Query p selector) ;;
     match el with
     | Some e => action e ;; ret true
     | None => ret false
     end)
    (fun _ => ret false).

(** [for (const selector of selectors) { try { ...; if (el) { action(el);
    break; } } catch { continue; } }].  The answer tells whether the loop
    ended by [break]. *)
Fixpoint first_found (p : Page) (selectors : list jsstring)
  (action : Element -> M unit) : M bool :=
  match selectors with
  | [] => ret false
  | selector :: rest =>
      hit <- attempt p selector action ;;
      if hit then ret true else first_found p rest action
  end.

Definition emailSelectors : list jsstring :=
  [ js "input[type=`email`]";
    js "input[name=`email`]";
    js "input[id*=`email`]";
    js "input[placeholder*=`email` i]";
    js "input[name=`username`]";
    js "#username";
    js "#email" ].

Definition passwordSelectors : list jsstring :=
  [ js "input[type=`password`]";
    js "input[name=`password`]";
    js "#password" ].

Definition loginButtonSelectors : list jsstring :=
  [ js "button[type=`submit`]";
    js "input[type=`submit`]";
    js "button:has-text(`Log in`)";
    js "button:has-text(`Sign in`)";
    js "button:has-text(`Login`)";
    js "button:has-text(`Continue`)";
    js "[data-testid=`login-button`]" ].

(** [page.url().includes("login") || page.url().includes("signin")] *)
Definition on_login_page (p : Page) : M bool :=
  u1 <- ask (Url p) ;;
  if includes u1 (js "login") then ret true
  else u2 <- ask (Url p) ;;
       ret (includes u2 (js "signin")).

(** ** LABEL OPERATIONS: the element and service resolvers *)

(** [`input[attr*="${v}" i], textarea[attr*="${v}" i]`] *)
Definition input_or_textarea (attr : string) (v : jsstring) : jsstring :=
  js "input[" ++ js attr ++ js "*=`" ++ v ++ js "` i], textarea["
     ++ js attr ++ js "*=`" ++ v ++ js "` i]".

Definition sibling_xpath : jsstring :=
  js "xpath=following-sibling::input | following-sibling::textarea | ../input | ../textarea | .//input | .//textarea".

(** [field = await q; if (field) { await field.fill(value); return; }]:
    the answer tells whether the function returned. *)
Definition fill_if_found (q : M (option Element)) (value : jsstring) : M bool :=
  field <- q ;;
  match field with
  | Some f => call (Fill f value) ;; ret true
  | None => ret false
  end.

(** Sequencing of two steps the first of which may return from the
    function. *)
Definition or_else (m1 m2 : M bool) : M bool :=
  returned <- m1 ;;
  if returned then ret true else m2.

(** The [try] block of [fillField] for one label variant. *)
Definition fill_by_label (p : Page) (label value : jsstring) : M bool :=
  let nameVariant := remove_whitespace (toLowerCase label) in
  or_else (fill_if_found (call (Query p (input_or_textarea "aria-label" label))) value)
 (or_else (fill_if_found (call (Query p (input_or_textarea "placeholder" label))) value)
 (or_else (labelEl <- call (Query p (js "label:has-text(`" ++ label ++ js "`)")) ;;
           match labelEl with
           | Some l =>
               or_else
                 (forAttr <- call (GetAttribute l (js "for")) ;;
                  match forAttr with
                  | Some (c :: a) =>
                      fill_if_found (call (Query p (js "#" ++ c :: a))) value
                  | _ => ret false
                  end)
                 (fill_if_found (call (QueryIn l sibling_xpath)) value)
           | None => ret false
           end)
 (or_else (fill_if_found (call (Query p (input_or_textarea "name" nameVariant))) value)
 (or_else (fill_if_found (call (Query p (input_or_textarea "id" nameVariant))) value)
          (fill_if_found (call (Query p (input_or_textarea "data-testid" nameVariant))) value))))).

Fixpoint fillField (p : Page) (labelVariants : list jsstring) (value : jsstring)
  : M unit :=
  match labelVariants with
  | [] => ret tt
  | label :: rest =>
      returned <- try_catch (fill_by_label p label value) (fun _ => ret false) ;;
      if returned then ret tt else fillField p rest value
  end.

Definition selectSelectors : list jsstring :=
  [ js "select[name*=`service` i]";
    js "select[id*=`service` i]";
    js "select[aria-label*=`service` i]";
    js "#serviceType";
    js "#service" ].

(** Method 1 of [selectService]: the loop over the dropdown selectors. *)
Fixpoint select_dropdown (p : Page) (selectors : list jsstring)
  (serviceCode : jsstring) (serviceName : jsvalue) : M bool :=
  match selectors with
  | [] => ret false
  | selector :: rest =>
      returned <-
        try_catch
          (sel <- call (Query p selector) ;;
           match sel with
           | Some e =>
               try_catch
                 (call (SelectOptionValue e serviceCode) ;; ret true)
                 (fun _ => call (SelectOptionLabel e serviceName) ;; ret true)
           | None => ret false
           end)
          (fun _ => ret false) ;;
      if returned then ret true
      else select_dropdown p rest serviceCode serviceName
  end.

Definition selectService (p : Page) (serviceCode : jsstring) : M unit :=
  let serviceName := service_name serviceCode in
  returned <- select_dropdown p selectSelectors serviceCode serviceName ;;
  if returned then ret tt else
  returned <- attempt p
                (js "input[type=`radio`][value*=`" ++ serviceCode
                   ++ js "` i], input[type=`radio`][value*=`"
                   ++ to_string serviceName
                   ++ js "` i]")
                (fun radio => call (Click radio)) ;;
  if returned then ret tt else
  returned <- attempt p
                (js "[data-service=`" ++ serviceCode ++ js "`], [data-value=`"
                   ++ serviceCode ++ js "`], .service-tile:has-text(`"
                   ++ to_string serviceName ++ js "`)")
                (fun tile => call (Click tile)) ;;
  if returned then ret tt else
  attempt p
    (js "label:has-text(`" ++ to_string serviceName ++ js "`), div:has-text(`"
       ++ to_string serviceName ++ js "`):not(:has(div))")
    (fun label => call (Click label)) ;;
  ret tt.

(** [if (v) { await this.fillField(page, labels, v); }] *)
Definition fill_optional (p : Page) (labels : list string)
  (v : option jsstring) : M unit :=
  match v with
  | Some (c :: rest) => fillField p (map js labels) (c :: rest)
  | _ => ret tt
  end.

(** [if (n) { await this.fillField(page, labels, String(n)); }] *)
Definition fill_optional_number (p : Page) (labels : list string)
  (n : option jsnumber) : M unit :=
  match n with
  | Some x =>
      if number_truthy x then fillField p (map js labels) (number_string x)
      else ret tt
  | None => ret tt
  end.

Definition only_formFilled : SessionUpdate :=
  {| set_wsEndpoint := None; set_createdAt := None; set_loggedIn := None;
     set_formFilled := Some true; set_labelGenerated := None |}.

Definition only_labelGenerated : SessionUpdate :=
  {| set_wsEndpoint := None; set_createdAt := None; set_loggedIn := None;
     set_formFilled := None; set_labelGenerated := Some true |}.

Definition only_loggedIn : SessionUpdate :=
  {| set_wsEndpoint := None; set_createdAt := None; set_loggedIn := Some true;
     set_formFilled := None; set_labelGenerated := None |}.

Section WithConfig.

Variable config : Config.

Definition login : M bool :=
  p <- ensureBrowser ;;
  ex <- existsSync ;;
  still <- (if ex
            then session <- readSession ;;
                 if loggedIn session
                 then try_catch
                        (call (Goto p ROYALMAIL_CREATE_ORDER_URL) ;;
                         away <- on_login_page p ;;
                         ret (negb away))
                        (fun _ => ret false)
                 else ret false
            else ret false) ;;
  if still then ret true
  else
    call (Goto p ROYALMAIL_LOGIN_URL) ;;
    call (WaitForTimeout p 2000) ;;
    now <- ask DateNow ;;
    call (Screenshot p (screenshot_path "royalmail-login-" now) true) ;;
    emailFilled <- first_found p emailSelectors
                     (fun field => call (Fill field (username config))) ;;
    passwordFilled <- first_found p passwordSelectors
                        (fun field => call (Fill field (password config))) ;;
    if negb emailFilled || negb passwordFilled
    then
      now <- ask DateNow ;;
      call (Screenshot p (screenshot_path "royalmail-login-error-" now) true) ;;
      throw (js "Could not find login fields. See screenshot: "
               ++ screenshot_path "royalmail-login-error-" now)
    else
      first_found p loginButtonSelectors (fun button => call (Click button)) ;;
      try_catch (call (WaitForLoggedIn p))
        (fun _ =>
           stuck <- on_login_page p ;;
           if stuck
           then
             now <- ask DateNow ;;
             call (Screenshot p (screenshot_path "royalmail-login-failed-" now) true) ;;
             throw (js "Login failed. Check credentials. See screenshot: "
                      ++ screenshot_path "royalmail-login-failed-" now)
           else ret tt) ;;
      call (WaitForTimeout p 2000) ;;
      updateSession only_loggedIn ;;
      ret true.

Definition createLabel (options : CreateLabelOptions) : M Result :=
  p <- ensureBrowser ;;
  try_catch
    (login ;;
     call (Goto p ROYALMAIL_CREATE_ORDER_URL) ;;
     call (WaitForTimeout p 2000) ;;
     now <- ask DateNow ;;
     call (Screenshot p (screenshot_path "royalmail-form-initial-" now) true) ;;
     fillField p (map js ["Full name"; "Name"; "Recipient name"; "fullName"]%string)
       (o_name options) ;;
     fill_optional p ["Company"; "Company name"; "Business name"; "companyName"]%string
       (o_company options) ;;
     fillField p
       (map js ["Address line 1"; "Address 1"; "Street address"; "addressLine1"; "address1"]%string)
       (o_address1 options) ;;
     fill_optional p ["Address line 2"; "Address 2"; "addressLine2"; "address2"]%string
       (o_address2 options) ;;
     fillField p (map js ["City"; "Town"; "Town/City"; "city"]%string) (o_city options) ;;
     fillField p (map js ["Postcode"; "Post code"; "ZIP"; "Postal code"; "postcode"]%string)
       (o_postcode options) ;;
     fill_optional p ["Email"; "Email address"; "email"]%string (o_email options) ;;
     fill_optional p ["Phone"; "Telephone"; "Mobile"; "Contact number"; "phone"]%string
       (o_phone options) ;;
     fillField p (map js ["Weight"; "Package weight"; "weight"]%string)
       (number_string (o_weight options)) ;;
     fill_optional_number p ["Length"; "length"]%string (o_length options) ;;
     fill_optional_number p ["Width"; "width"]%string (o_width options) ;;
     fill_optional_number p ["Height"; "height"]%string (o_height options) ;;
     selectService p (o_service options) ;;
     fill_optional p
       ["Reference"; "Order reference"; "Customer reference"; "Your reference"; "reference"]%string
       (o_reference options) ;;
     fill_optional p
       ["Contents"; "Package contents"; "Description"; "Item description"; "contents"]%string
       (o_contents options) ;;
     now <- ask DateNow ;;
     call (Screenshot p (screenshot_path "royalmail-form-preview-" now) true) ;;
     updateSession only_formFilled ;;
     ret {| success := Some true;
            error := None;
            message := Some (js "Form filled successfully. Please review the screenshot before calling submit.");
            screenshot := Some (screenshot_path "royalmail-form-preview-" now);
            formState :=
              Some {| fs_name := o_name options;
                      fs_company := o_company options;
                      fs_address1 := o_address1 options;
                      fs_address2 := o_address2 options;
                      fs_city := o_city options;
                      fs_postcode := o_postcode options;
                      fs_weight := o_weight options;
                      fs_service := service_name (o_service options);
                      fs_reference := o_reference options |};
            labelPath := None; trackingNumber := None; cost := None |})
    (fun message =>
       now <- ask DateNow ;;
       call (Screenshot p (screenshot_path "royalmail-form-error-" now) true) ;;
       ret (error_result_with (js "Form fill error: " ++ message)
              (screenshot_path "royalmail-form-error-" now))).

End WithConfig.

Definition submitButtonSelectors : list jsstring :=
  [ js "button:has-text(`Buy postage`)";
    js "button:has-text(`Apply postage`)";
    js "button:has-text(`Create label`)";
    js "button:has-text(`Continue`)";
    js "button:has-text(`Next`)";
    js "button:has-text(`Submit`)";
    js "button[type=`submit`]";
    js "[data-testid=`submit-button`]";
    js "[data-testid=`create-label-button`]" ].

Definition confirmButtons : list jsstring :=
  [ js "button:has-text(`Confirm`)";
    js "button:has-text(`Pay`)";
    js "button:has-text(`Complete`)";
    js "button:has-text(`Finish`)" ].

Definition form_not_filled : Result :=
  error_result (js "Form has not been filled yet. Call create-label first.").

Definition label_not_generated : Result :=
  error_result (js "Label has not been generated yet. Call submit first.").

Definition extractConfirmation (p : Page) : M Extract.Confirmation :=
  try_catch
    (text <- call (InnerText p) ;;
     ret (Extract.extractText text))
    (fun _ => ret {| Extract.trackingNumber := None; Extract.cost := None |}).

(** The [try]/[catch] of [submit], after the check of the form flag. *)
Definition submit_form (p : Page) : M Result :=
  try_catch
    (first_found p submitButtonSelectors (fun button => call (Click button)) ;;
     call (WaitForLoadState p (js "networkidle")) ;;
     call (WaitForTimeout p 3000) ;;
     now <- ask DateNow ;;
     call (Screenshot p (screenshot_path "royalmail-review-" now) true) ;;
     first_found p confirmButtons
       (fun button =>
          call (Click button) ;;
          call (WaitForLoadState p (js "networkidle")) ;;
          call (WaitForTimeout p 3000)) ;;
     now <- ask DateNow ;;
     call (Screenshot p (screenshot_path "royalmail-confirmation-" now) true) ;;
     extractedData <- extractConfirmation p ;;
     updateSession only_labelGenerated ;;
     ret {| success := Some true;
            error := None;
            message := Some (js "Label created successfully. Call download-label to save the PDF.");
            screenshot := Some (screenshot_path "royalmail-confirmation-" now);
            formState := None;
            labelPath := None;
            trackingNumber := Extract.trackingNumber extractedData;
            cost := Extract.cost extractedData |})
    (fun message =>
       now <- ask DateNow ;;
       call (Screenshot p (screenshot_path "royalmail-submit-error-" now) true) ;;
       ret (error_result_with (js "Submit failed: " ++ message)
              (screenshot_path "royalmail-submit-error-" now))).

Definition submit : M Result :=
  p <- ensureBrowser ;;
  ex <- existsSync ;;
  refused <- (if ex
              then session <- readSession ;;
                   ret (negb (formFilled session))
              else ret false) ;;
  if refused then ret form_not_filled else submit_form p.

(** ** DOWNLOAD OPERATIONS *)

Definition downloadSelectors : list jsstring :=
  [ js "button:has-text(`Download`)";
    js "button:has-text(`Print`)";
    js "button:has-text(`Get label`)";
    js "a:has-text(`Download`)";
    js "a:has-text(`Print label`)";
    js "[data-testid=`download-label`]";
    js ".download-label" ].

(** The [try]/[catch] of [downloadLabel], after the check of the label
    flag. *)
Definition download_file (p : Page) : M Result :=
  try_catch
    (ask (WaitForEventDownload p) ;;
     first_found p downloadSelectors (fun button => call (Click button)) ;;
     download <- call (AwaitDownload p) ;;
     suggestedFilename <- ask (SuggestedFilename download) ;;
     tracking <-
       match js_match Extract.pat_bare_tracking suggestedFilename with
       | Some {| m1 := Some (c :: t) |} => ret (c :: t)
       | _ => now <- ask DateNow ;; ret (js "label-" ++ decimal now)
       end ;;
     call (SaveAs download (LABEL_DIR ++ js "/" ++ tracking ++ js ".pdf")) ;;
     ret {| success := Some true;
            error := None;
            message := Some (js "Label downloaded successfully to "
                               ++ LABEL_DIR ++ js "/" ++ tracking ++ js ".pdf");
            screenshot := None;
            formState := None;
            labelPath := Some (LABEL_DIR ++ js "/" ++ tracking ++ js ".pdf");
            trackingNumber := Some tracking;
            cost := None |})
    (fun message =>
       now <- ask DateNow ;;
       call (Screenshot p (screenshot_path "royalmail-download-error-" now) true) ;;
       ret (error_result_with (js "Download failed: " ++ message)
              (screenshot_path "royalmail-download-error-" now))).

Definition downloadLabel : M Result :=
  p <- ensureBrowser ;;
  ex <- existsSync ;;
  refused <- (if ex
              then session <- readSession ;;
                   ret (negb (labelGenerated session))
              else ret false) ;;
  if refused then ret label_not_generated else download_file p.

(** ** SCREENSHOT OPERATIONS *)

Definition takeScreenshot (options : option ScreenshotOptions) : M Result :=
  p <- ensureBrowser ;;
  filename <-
    match options with
    | Some {| o_filename := Some (c :: f) |} => ret (c :: f)
    | _ => now <- ask DateNow ;; ret (js "royalmail-" ++ decimal now ++ js ".png")
    end ;;
  call (Screenshot p (SCREENSHOT_DIR ++ js "/" ++ filename)
          match options with
          | Some {| o_fullPage := Some b |} => b
          | _ => false
          end) ;;
  ret {| success := Some true; error := None; message := None;
         screenshot := Some (SCREENSHOT_DIR ++ js "/" ++ filename);
         formState := None; labelPath := None; trackingNumber := None;
         cost := None |}.

(** ** SESSION MANAGEMENT *)

(** [{ success: true, message: "Browser session closed and cleared." }] *)
Definition reset_ok : Result :=
  {| success := Some true; error := None;
     message := Some (js "Browser session closed and cleared.");
     screenshot := None; formState := None; labelPath := None;
     trackingNumber := None; cost := None |}.

Definition reset : M Result :=
  try_catch
    (b <- get_browser ;;
     match b with
     | Some br =>
         call (BrowserClose br) ;;
         set_browser None ;;
         set_context None ;;
         set_page None
     | None => ret tt
     end ;;
     ex <- existsSync ;;
     (if ex then unlinkSync else ret tt) ;;
     ret reset_ok)
    (fun message => ret (error_result (js "Reset failed: " ++ message))).

(** ** SERVICE INFORMATION *)

Record ServiceInfo : Type :=
  { code : jsstring; name : jsstring; description : jsstring }.

Definition listServices : M (list ServiceInfo) :=
  ret
    [ {| code := js "TRACKED24"; name := js "Royal Mail Tracked 24";
         description := js "Next working day delivery with tracking" |};
      {| code := js "TRACKED48"; name := js "Royal Mail Tracked 48";
         description := js "2-3 working day delivery with tracking" |};
      {| code := js "SPECIALDELIVERY9"; name := js "Special Delivery Guaranteed by 9am";
         description := js "Next day by 9am, compensation up to " ++ pound :: js "2,500" |};
      {| code := js "SPECIALDELIVERY1"; name := js "Special Delivery Guaranteed by 1pm";
         description := js "Next day by 1pm, compensation up to " ++ pound :: js "500" |};
      {| code := js "SIGNED"; name := js "Royal Mail Signed For 1st Class";
         description := js "1st class with signature on delivery" |};
      {| code := js "SIGNED2"; name := js "Royal Mail Signed For 2nd Class";
         description := js "2nd class with signature on delivery" |} ].

(** The operations of the client that the command line exposes, [reset]
    apart. *)
Inductive operation : Type :=
| OpCreateLabel (options : CreateLabelOptions)
| OpSubmit
| OpDownloadLabel
| OpListServices
| OpTakeScreenshot (options : option ScreenshotOptions).

Definition perform (config : Config) (op : operation)
  : M (Result + list ServiceInfo) :=
  match op with
  | OpCreateLabel options => r <- createLabel config options ;; ret (inl r)
  | OpSubmit => r <- submit ;; ret (inl r)
  | OpDownloadLabel => r <- downloadLabel ;; ret (inl r)
  | OpListServices => l <- listServices ;; ret (inr l)
  | OpTakeScreenshot options => r <- takeScreenshot options ;; ret (inl r)
  end.

End Client.
Import Client.

(* ===================================================================== *)
(** ** Vocabulary of the statements about sessions *)
(* ===================================================================== *)

Module Session.

(** The calls of a reconnection that recovers a page. *)
Definition reconnect_calls (d : SessionInfo) (b : Browser) (c : BrowserContext)
  : list AnyCall :=
  [Any (ConnectOverCDP (wsEndpoint d)); Any (Contexts b); Any (Pages c)].

(** The session file holds [d], the browser it names accepts the
    connection and has a context with a page: [b], [c] and [p] are the
    browser, its first context and the first page of it. *)
Definition reconnects (env : Env) (w : World) (d : SessionInfo)
  (b : Browser) (c : BrowserContext) (p : Page) : Prop :=
  file w = Some (Json d)
  /\ env _ (trace w) (ConnectOverCDP (wsEndpoint d)) = Returned b
  /\ (exists cs,
         env _ (trace w ++ [Any (ConnectOverCDP (wsEndpoint d))]) (Contexts b)
         = Returned (c :: cs))
  /\ (exists ps,
         env _ (trace w ++ [Any (ConnectOverCDP (wsEndpoint d)); Any (Contexts b)])
           (Pages c)
         = Returned (p :: ps)).

(** The calls of a launch. *)
Definition launch_calls (b : Browser) (c : BrowserContext) : list AnyCall :=
  [Any Launch; Any (NewContext b); Any (NewPage c); Any (WsEndpoint b)].

(** After the calls [h], the launch succeeds with browser [b], context [c]
    and page [p], and the browser answers [endpoint] when asked for its
    endpoint. *)
Definition launches (env : Env) (h : list AnyCall)
  (b : Browser) (c : BrowserContext) (p : Page) (endpoint : option jsstring)
  : Prop :=
  env _ h Launch = Returned b
  /\ env _ (h ++ [Any Launch]) (NewContext b) = Returned c
  /\ env _ (h ++ [Any Launch; Any (NewContext b)]) (NewPage c) = Returned p
  /\ env _ (h ++ [Any Launch; Any (NewContext b); Any (NewPage c)]) (WsEndpoint b)
     = endpoint.

(** The cold starts: [cold_start env w w1] when, from [w], the session
    manager finds no page to reuse, and [w1] is the world in which it turns
    to the launch.  There is no session file; or the file does not parse;
    or the browser it names does not answer (the connection, or the listing
    of its contexts or pages, throws); or the browser has no context or no
    page. *)
Inductive cold_start (env : Env) (w : World) : World -> Prop :=
| cold_no_file :
    file w = None ->
    cold_start env w w
| cold_not_json :
    file w = Some NotJson ->
    cold_start env w (with_file None w)
| cold_connect_throws d msg :
    file w = Some (Json d) ->
    env _ (trace w) (ConnectOverCDP (wsEndpoint d)) = Thrown msg ->
    cold_start env w
      (with_file None (log (Any (ConnectOverCDP (wsEndpoint d))) w))
| cold_contexts_throw d b msg :
    file w = Some (Json d) ->
    env _ (trace w) (ConnectOverCDP (wsEndpoint d)) = Returned b ->
    env _ (trace w ++ [Any (ConnectOverCDP (wsEndpoint d))]) (Contexts b)
    = Thrown msg ->
    cold_start env w
      (with_file None
         (log (Any (Contexts b))
            (with_browser (Some b)
               (log (Any (ConnectOverCDP (wsEndpoint d))) w))))
| cold_no_context d b :
    file w = Some (Json d) ->
    env _ (trace w) (ConnectOverCDP (wsEndpoint d)) = Returned b ->
    env _ (trace w ++ [Any (ConnectOverCDP (wsEndpoint d))]) (Contexts b)
    = Returned [] ->
    cold_start env w
      (log (Any (Contexts b))
         (with_browser (Some b)
            (log (Any (ConnectOverCDP (wsEndpoint d))) w)))
| cold_pages_throw d b c cs msg :
    file w = Some (Json d) ->
    env _ (trace w) (ConnectOverCDP (wsEndpoint d)) = Returned b ->
    env _ (trace w ++ [Any (ConnectOverCDP (wsEndpoint d))]) (Contexts b)
    = Returned (c :: cs) ->
    env _ (trace w ++ [Any (ConnectOverCDP (wsEndpoint d)); Any (Contexts b)])
      (Pages c)
    = Thrown msg ->
    cold_start env w
      (with_file None
         (log (Any (Pages c))
            (with_context (Some c)
               (log (Any (Contexts b))
                  (with_browser (Some b)
                     (log (Any (ConnectOverCDP (wsEndpoint d))) w))))))
| cold_no_page d b c cs :
    file w = Some (Json d) ->
    env _ (trace w) (ConnectOverCDP (wsEndpoint d)) = Returned b ->
    env _ (trace w ++ [Any (ConnectOverCDP (wsEndpoint d))]) (Contexts b)
    = Returned (c :: cs) ->
    env _ (trace w ++ [Any (ConnectOverCDP (wsEndpoint d)); Any (Contexts b)])
      (Pages c)
    = Returned [] ->
    cold_start env w
      (log (Any (Pages c))
         (with_context (Some c)
            (log (Any (Contexts b))
               (with_browser (Some b)
                  (log (Any (ConnectOverCDP (wsEndpoint d))) w))))).

(** No flag goes from [true] back to [false]. *)
Definition flags_le (d d' : SessionInfo) : Prop :=
  (loggedIn d = true -> loggedIn d' = true)
  /\ (formFilled d = true -> formFilled d' = true)
  /\ (labelGenerated d = true -> labelGenerated d' = true).

(** The session file is kept: the same session, with flags that have not
    gone back; or no change at all. *)
Definition kept (f f' : option FileContent) : Prop :=
  match f, f' with
  | Some (Json d), Some (Json d') =>
      wsEndpoint d = wsEndpoint d' /\ createdAt d = createdAt d' /\ flags_le d d'
  | _, _ => f = f'
  end.

(** The session file after a launch that has not kept it: there is none,
    or it holds the session of a launched browser, which is a fresh session
    (its endpoint, the time of the launch, all flags false) or one kept from
    it. *)
Definition restarted (f' : option FileContent) : Prop :=
  f' = None
  \/ exists e now, e <> [] /\ kept (Some (Json (fresh_session e now))) f'.

(** From [w] to [w'] calls were made, and the session file is kept; or one
    of the calls is a launch (the session manager did not recover a page)
    and the session file is [restarted]. *)
Definition advances (w w' : World) : Prop :=
  exists calls,
    trace w' = trace w ++ calls
    /\ (kept (file w) (file w')
        \/ (existsb is_launch calls = true /\ restarted (file w'))).

(** From [w] to [w'] calls were made. *)
Definition extends (w w' : World) : Prop :=
  exists calls, trace w' = trace w ++ calls.

(** The queries of [fillField] for one label variant on a page where no
    query finds an element. *)
Definition probes (p : Page) (label : jsstring) : list AnyCall :=
  [ Any (Query p (input_or_textarea "aria-label" label));
    Any (Query p (input_or_textarea "placeholder" label));
    Any (Query p (js "label:has-text(`" ++ label ++ js "`)"));
    Any (Query p (input_or_textarea "name" (remove_whitespace (toLowerCase label))));
    Any (Query p (input_or_textarea "id" (remove_whitespace (toLowerCase label))));
    Any (Query p (input_or_textarea "data-testid" (remove_whitespace (toLowerCase label)))) ].

Definition log_all (calls : list AnyCall) (w : World) : World :=
  {| file := file w; browser := browser w; context := context w;
     page := page w; trace := trace w ++ calls |}.

(** The command line runs every command in a process of its own: the
    client object is new, the session file and the browser are what the
    earlier commands left. *)
Definition new_process (w : World) : World :=
  {| file := file w; browser := None; context := None; page := None;
     trace := trace w |}.

Fixpoint run_commands (config : Config) (env : Env) (ops : list operation)
  (w : World) : World :=
  match ops with
  | [] => w
  | op :: rest =>
      run_commands config env rest (snd (perform config op env (new_process w)))
  end.


(** Every value a method returns satisfies [P]. *)
Definition ensures {A} (P : A -> Prop) (m : M A) : Prop :=
  forall env w a, fst (m env w) = Returned a -> P a.

(** The results of the two guarded operations, past the guard, are a
    success or an error with a screenshot: never the refusal. *)
Definition past_guard (r : Result) : Prop :=
  success r = Some true \/ screenshot r <> None.

(** A method begins with the calls [cs]. *)
Definition begins_with (cs : list AnyCall) {A} (m : M A) : Prop :=
  forall env w, extends (log_all cs w) (snd (m env w)).

(** A method is [stable] for a relation between worlds when every run of
    it relates the world it starts from to the world it leaves. *)
Definition stable (R : World -> World -> Prop) {A} (m : M A) : Prop :=
  forall env w, R w (snd (m env w)).

(** What a relation needs to be kept by every method of the client: it is
    a preorder, kept by a call and by the assignment of a field, and kept
    by the two methods that write the session file. *)
Record stepwise (R : World -> World -> Prop) : Prop :=
  { sw_refl : forall w, R w w;
    sw_trans : forall w1 w2 w3, R w1 w2 -> R w2 w3 -> R w1 w3;
    sw_log : forall c w, R w (log c w);
    sw_update_loggedIn : stable R (updateSession only_loggedIn);
    sw_update_formFilled : stable R (updateSession only_formFilled);
    sw_update_labelGenerated : stable R (updateSession only_labelGenerated);
    sw_ensure : stable R ensureBrowser }.

End Session.
Import Session.

(* ===================================================================== *)
(** ** Concrete environments and worlds *)
(* ===================================================================== *)

Module Scenario.

(** How an environment answers, whatever was called before. *)
Record Behaviour : Type :=
  { on_connect : outcome Browser;
    on_contexts : outcome (list BrowserContext);
    on_pages : outcome (list Page);
    on_endpoint : option jsstring;
    on_close : outcome unit;
    on_query : option Element;
    on_text : jsstring }.

Definition env_of (bhv : Behaviour) : Env :=
  fun X _ c =>
    match c in Call T return T with
    | ConnectOverCDP _ => on_connect bhv
    | Contexts _ => on_contexts bhv
    | Pages _ => on_pages bhv
    | Launch => Returned 7%nat
    | NewContext _ => Returned 8%nat
    | NewPage _ => Returned 9%nat
    | WsEndpoint _ => on_endpoint bhv
    | BrowserClose _ => on_close bhv
    | Goto _ _ => Returned tt
    | WaitForTimeout _ _ => Returned tt
    | WaitForLoadState _ _ => Returned tt
    | WaitForLoggedIn _ => Returned tt
    | Screenshot _ _ _ => Returned tt
    | Url _ => js "https://business.parcel.royalmail.com/orders"
    | Query _ _ => Returned (on_query bhv)
    | QueryIn _ _ => Returned None
    | GetAttribute _ _ => Returned None
    | Fill _ _ => Returned tt
    | Click _ => Returned tt
    | SelectOptionValue _ _ => Returned tt
    | SelectOptionLabel _ _ => Returned tt
    | InnerText _ => Returned (on_text bhv)
    | WaitForEventDownload _ => tt
    | AwaitDownload _ => Thrown (js "Timeout 30000ms exceeded")
    | SuggestedFilename _ => js "label.pdf"
    | SaveAs _ _ => Returned tt
    | DateNow => 1700000000000%Z
    | DateToISOString => js "2023-11-14T22:13:20.000Z"
    end.

(** The browser of the session is live, with one page, and no button or
    field is found on it. *)
Definition live : Behaviour :=
  {| on_connect := Returned 1%nat;
     on_contexts := Returned [2%nat];
     on_pages := Returned [3%nat];
     on_endpoint := Some (js "ws://127.0.0.1:9222/devtools/browser/new");
     on_close := Returned tt;
     on_query := None;
     on_text := js "Order confirmed" |}.

(** The browser of the session is gone, and a launched browser gives an
    endpoint. *)
Definition dead : Behaviour :=
  {| on_connect := Thrown (js "connect ECONNREFUSED");
     on_contexts := Returned [];
     on_pages := Returned [];
     on_endpoint := Some (js "ws://127.0.0.1:9222/devtools/browser/new");
     on_close := Returned tt;
     on_query := None;
     on_text := js "Order confirmed" |}.

(** The browser of the session is gone, and a launched browser gives no
    endpoint. *)
Definition dead_no_endpoint : Behaviour :=
  {| on_connect := Thrown (js "connect ECONNREFUSED");
     on_contexts := Returned [];
     on_pages := Returned [];
     on_endpoint := None;
     on_close := Returned tt;
     on_query := None;
     on_text := js "Order confirmed" |}.


(** The browser does not close. *)
Definition stuck : Behaviour :=
  {| on_connect := Returned 1%nat;
     on_contexts := Returned [2%nat];
     on_pages := Returned [3%nat];
     on_endpoint := None;
     on_close := Thrown (js "Target closed");
     on_query := None;
     on_text := js "Order confirmed" |}.

(** A session of which the given flags are set. *)
Definition session (filled generated : bool) : SessionInfo :=
  {| wsEndpoint := js "ws://127.0.0.1:9222/devtools/browser/old";
     createdAt := js "2023-11-14T20:00:00.000Z";
     loggedIn := true;
     formFilled := filled;
     labelGenerated := generated |}.

(** A new process that finds the session file of an earlier one. *)
Definition resumed (filled generated : bool) : World :=
  fresh_process (Some (Json (session filled generated))).

(** A process that holds browser 1 and has the session file. *)
Definition holding (filled generated : bool) : World :=
  {| file := Some (Json (session filled generated));
     browser := Some 1%nat; context := Some 2%nat; page := Some 3%nat;
     trace := [] |}.

Definition config : Config :=
  {| username := js "user@example.com"; password := js "secret" |}.

(** A minimal label request. *)
Definition request : CreateLabelOptions :=
  {| o_name := js "John Smith";
     o_company := None;
     o_address1 := js "123 High Street";
     o_address2 := None;
     o_city := js "London";
     o_postcode := js "SW1A 1AA";
     o_email := None;
     o_phone := None;
     o_weight := {| number_string := js "5"; number_truthy := true |};
     o_length := None;
     o_width := None;
     o_height := None;
     o_service := js "TRACKED48";
     o_reference := Some (js "ORD-12345");
     o_contents := None |}.

End Scenario.

(* ===================================================================== *)
(** ** What a pattern matches, and the shapes of the extracted values *)
(* ===================================================================== *)

Module Language.

Local Open Scope Z_scope.

(** The text [m] is the literal [l], character by character, up to case
    when the flag is set. *)
Fixpoint lit_matches (i : bool) (l m : jsstring) : bool :=
  match l, m with
  | [], [] => true
  | a :: l', c :: m' => char_matches i a c && lit_matches i l' m'
  | _, _ => false
  end.

(** The text [m] is matched by the expression [r], which turns the capture
    [cap] into [cap']. *)
Fixpoint denotes (i : bool) (r : regex) (m : jsstring)
  (cap cap' : option jsstring) : Prop :=
  match r with
  | RLit l => lit_matches i l m = true /\ cap' = cap
  | RClass cs =>
      (exists c, m = [c] /\ class_matches i cs c = true) /\ cap' = cap
  | RStar cs => forallb (class_matches i cs) m = true /\ cap' = cap
  | RPlus cs =>
      m <> [] /\ forallb (class_matches i cs) m = true /\ cap' = cap
  | ROpt cs =>
      (m = [] \/ exists c, m = [c] /\ class_matches i cs c = true)
      /\ cap' = cap
  | RRep n cs =>
      List.length m = n /\ forallb (class_matches i cs) m = true /\ cap' = cap
  | RSeq r1 r2 =>
      exists m1 m2 cap1,
        m = m1 ++ m2 /\ denotes i r1 m1 cap cap1 /\ denotes i r2 m2 cap1 cap'
  | RGroup r1 => (exists cap1, denotes i r1 m cap cap1) /\ cap' = Some m
  end.

Definition is_digit (c : Z) : bool := (48 <=? c) && (c <=? 57).
Definition is_upper (c : Z) : bool := (65 <=? c) && (c <=? 90).
Definition is_lower (c : Z) : bool := (97 <=? c) && (c <=? 122).

(** A digit, a dot or a comma. *)
Definition is_amount_char (c : Z) : bool :=
  is_digit c || (c =? 46) || (c =? 44).

(** Two letters, nine digits and [GB]; with [any_case], the letters and
    [GB] may be in lower case. *)
Definition tracking_shape (any_case : bool) (tn : jsstring) : bool :=
  match tn with
  | [l1; l2; d1; d2; d3; d4; d5; d6; d7; d8; d9; g; b] =>
      forallb (fun c => is_upper c || (any_case && is_lower c)) [l1; l2]
      && forallb is_digit [d1; d2; d3; d4; d5; d6; d7; d8; d9]
      && ((g =? 71) || (any_case && (g =? 103)))
      && ((b =? 66) || (any_case && (b =? 98)))
  | _ => false
  end.

(** A run of digits, not empty. *)
Definition barcode_shape (tn : jsstring) : bool :=
  match tn with
  | [] => false
  | _ => forallb is_digit tn
  end.

(** A run of digits, dots and commas, not empty. *)
Definition amount_shape (a : jsstring) : bool :=
  match a with
  | [] => false
  | _ => forallb is_amount_char a
  end.

(** [sub] occurs in [s]. *)
Definition occurs_in (sub s : jsstring) : Prop :=
  exists pre post, s = pre ++ sub ++ post.

End Language.
Import Language.

(* ===================================================================== *)
(** ** Vocabulary of the further statements about the client *)
(* ===================================================================== *)

Module Effects.

Definition is_clock (c : AnyCall) : bool :=
  match c with
  | Any DateNow | Any DateToISOString => true
  | _ => false
  end.

(** A call on a page, on an element or on a download, or a reading of the
    clock: not one that obtains or closes a browser. *)
Definition on_page_or_clock (c : AnyCall) : bool :=
  is_page_interaction c || is_clock c.

(** Every run of the method only makes calls, all of them accepted by [ok]:
    it leaves the session file and the fields of the client as they were. *)
Definition only_calls (ok : AnyCall -> bool) {A} (m : M A) : Prop :=
  forall env w,
    exists calls, snd (m env w) = log_all calls w /\ forallb ok calls = true.

(** Whenever the method returns, [P] holds of what it returns and of the
    world it leaves. *)
Definition leaves {A} (P : A -> World -> Prop) (m : M A) : Prop :=
  forall env w a w', m env w = (Returned a, w') -> P a w'.

(** The session file after [updateSession(updates)]. *)
Definition updated (updates : SessionUpdate) (f : option FileContent)
  : option FileContent :=
  match f with
  | Some (Json d) => Some (Json (assign d updates))
  | _ => f
  end.

(** When the method throws, the session file is as it was; when it returns
    [a], [Q a] holds of the session file it started from and of the world it
    leaves. *)
Definition guarded {A} (Q : A -> option FileContent -> World -> Prop)
  (m : M A) : Prop :=
  forall env w,
    match m env w with
    | (Returned a, w') => Q a (file w) w'
    | (Thrown _, w') => file w' = file w
    end.

(** The method returns in every environment, from every world. *)
Definition never_throws {A} (m : M A) : Prop :=
  forall env w, exists a, fst (m env w) = Returned a.

(** The session file is absent or holds a session for which [flag] is set. *)
Definition flag_set (flag : SessionInfo -> bool) (w : World) : Prop :=
  file w = None \/ exists d, file w = Some (Json d) /\ flag d = true.

(** The name variant of a label, as [fillField] computes it. *)
Definition nameVariant (label : jsstring) : jsstring :=
  remove_whitespace (toLowerCase label).

Definition is_space (c : Z) : bool := existsb (Z.eqb c) whitespace.

(** The eight queries of [selectService] on a page where no query finds an
    element; they name the service by its code and by the text [shown] for
    it. *)
Definition service_probes (p : Page) (serviceCode shown : jsstring)
  : list AnyCall :=
  map (fun selector => Any (Query p selector)) selectSelectors
  ++ [ Any (Query p
              (js "input[type=`radio`][value*=`" ++ serviceCode
                 ++ js "` i], input[type=`radio`][value*=`"
                 ++ shown ++ js "` i]"));
       Any (Query p
              (js "[data-service=`" ++ serviceCode ++ js "`], [data-value=`"
                 ++ serviceCode ++ js "`], .service-tile:has-text(`"
                 ++ shown ++ js "`)"));
       Any (Query p
              (js "label:has-text(`" ++ shown
                 ++ js "`), div:has-text(`"
                 ++ shown
                 ++ js "`):not(:has(div))")) ].

Definition is_query_or_click (c : AnyCall) : bool :=
  match c with
  | Any (Query _ _) | Any (Click _) => true
  | _ => false
  end.

(** A download that saved the label: [download_file] went from [w] to [w']
    and returned [r].  After the calls [clicks] that look for the button and
    click it, the download [d] arrived and suggested a file name.  The last
    call of the run saved it as [LABEL_DIR/<tn>.pdf], where [tn], the
    tracking number returned, is the tracking code found in the suggested
    name, or else [label-] and the time read then. *)
Definition saved_label (env : Env) (p : Page) (w : World) (r : Result)
  (w' : World) : Prop :=
  exists clicks d tn,
    let arrived := trace w ++ Any (WaitForEventDownload p) :: clicks in
    let suggested :=
      env _ (arrived ++ [Any (AwaitDownload p)]) (SuggestedFilename d) in
    let named := arrived ++ [Any (AwaitDownload p); Any (SuggestedFilename d)] in
    let path := LABEL_DIR ++ js "/" ++ tn ++ js ".pdf" in
    forallb is_query_or_click clicks = true
    /\ env _ arrived (AwaitDownload p) = Returned d
    /\ trackingNumber r = Some tn
    /\ labelPath r = Some path
    /\ file w' = file w
    /\ ((tracking_shape false tn = true
         /\ occurs_in tn suggested
         /\ env _ named (SaveAs d path) = Returned tt
         /\ trace w' = named ++ [Any (SaveAs d path)])
        \/ (js_match Extract.pat_bare_tracking suggested = None
            /\ tn = js "label-" ++ decimal (env _ named DateNow)
            /\ env _ (named ++ [Any DateNow]) (SaveAs d path) = Returned tt
            /\ trace w' = named ++ [Any DateNow; Any (SaveAs d path)])).

(** The preview of a request: its reviewable fields, with [service] for
    the service. *)
Definition preview_of (options : CreateLabelOptions) (service : jsvalue)
  : FormState :=
  {| fs_name := o_name options;
     fs_company := o_company options;
     fs_address1 := o_address1 options;
     fs_address2 := o_address2 options;
     fs_city := o_city options;
     fs_postcode := o_postcode options;
     fs_weight := o_weight options;
     fs_service := service;
     fs_reference := o_reference options |}.

(** A label request whose service code is the name of a property of
    [Object.prototype]. *)
Definition inherited_request : CreateLabelOptions :=
  {| o_name := js "John Smith";
     o_company := None;
     o_address1 := js "123 High Street";
     o_address2 := None;
     o_city := js "London";
     o_postcode := js "SW1A 1AA";
     o_email := None;
     o_phone := None;
     o_weight := {| number_string := js "5"; number_truthy := true |};
     o_length := None;
     o_width := None;
     o_height := None;
     o_service := js "constructor";
     o_reference := None;
     o_contents := None |}.

(** Every full-page screenshot succeeds. *)
Definition shots (env : Env) : Prop :=
  forall (h : list AnyCall) (p : Page) (path : jsstring),
    env (outcome unit) h (Screenshot p path true) = Returned tt.

(** A session that is not logged in, and a new process that finds it. *)
Definition logged_out : SessionInfo :=
  {| wsEndpoint := js "ws://127.0.0.1:9222/devtools/browser/old";
     createdAt := js "2023-11-14T20:00:00.000Z";
     loggedIn := false;
     formFilled := false;
     labelGenerated := false |}.

(** A page on which a field is found at once. *)
Definition found : Scenario.Behaviour :=
  {| Scenario.on_connect := Returned 1%nat;
     Scenario.on_contexts := Returned [2%nat];
     Scenario.on_pages := Returned [3%nat];
     Scenario.on_endpoint := Some (js "ws://127.0.0.1:9222/devtools/browser/new");
     Scenario.on_close := Returned tt;
     Scenario.on_query := Some 5%nat;
     Scenario.on_text := js "Tracking: AB123456789GB Total: " ++ pound :: js "12.34" |}.

(** A live session on whose page the download succeeds and suggests a name
    with a tracking number. *)
Definition downloading : Env :=
  fun X h c =>
    match c in Call T return T -> T with
    | AwaitDownload _ => fun _ => Returned 4%nat
    | SuggestedFilename _ => fun _ => js "label-AB123456789GB.pdf"
    | _ => fun answer => answer
    end (Scenario.env_of Scenario.live h c).

End Effects.
Import Effects.

(* ===================================================================== *)
(** ** Proof tools *)
(* ===================================================================== *)

#[local] Arguments js : simpl never.
#[local] Arguments lit : simpl never.
#[local] Arguments decimal : simpl never.
#[local] Arguments screenshot_path : simpl never.

(** Traces are kept in the form [t ++ [c1; ...; cn]]. *)
Ltac norm_trace := repeat rewrite <- app_assoc; cbn [app].

(** Use what is known of an answer of the environment. *)
Ltac answer :=
  match goal with
  | H : ?env _ _ _ = _ |- context [?env _ _ _] => rewrite H
  end.

(** Evaluate a method as far as the known answers allow. *)
Ltac expose :=
  cbn;
  cbv [log with_file with_browser with_context with_page set_file set_browser
       set_context set_page ret writeSession];
  cbn [trace file browser context page fst snd];
  norm_trace.

Ltac run := expose; repeat (answer; expose).


(* ===================================================================== *)
(** * Properties of the confirmation extractor *)
(* ===================================================================== *)

Module ExtractFacts.

Import Extract.

Lemma js_match_cons (p : pattern) (c : Z) (s : jsstring) :
  js_match p (c :: s) =
  match match_here p (c :: s) with
  | Some m => Some m
  | None => js_match p s
  end.
Proof. reflexivity. Qed.

(** The search skips a prefix in which no attempt succeeds. *)
Lemma js_match_skip (p : pattern) (pre rest : jsstring) :
  no_match_in p pre rest = true ->
  js_match p (pre ++ rest) = js_match p rest.
Proof.
  induction pre as [|c pre IH]; intros H; [reflexivity|].
  simpl in H.
  change ((c :: pre) ++ rest) with (c :: (pre ++ rest)).
  rewrite js_match_cons.
  destruct (match_here p (c :: pre ++ rest)) eqn:E; [discriminate|].
  auto.
Qed.

(** An attempt that succeeds where the search starts is the answer. *)
Lemma js_match_here (p : pattern) (s : jsstring) (m : match_array) :
  match_here p s = Some m -> js_match p s = Some m.
Proof.
  intros H. destruct s; simpl; rewrite H; reflexivity.
Qed.

(** The loop over the patterns stops at the first one that matches. *)
Lemma first_match_wins (before : list pattern) (p : pattern)
  (after : list pattern) (text : jsstring) (m : match_array) :
  (forall q, In q before -> js_match q text = None) ->
  js_match p text = Some m ->
  first_match (before ++ p :: after) text = Some m.
Proof.
  induction before as [|q before IH]; intros Hnone Hp; simpl.
  - rewrite Hp. reflexivity.
  - rewrite (Hnone q (or_introl eq_refl)).
    apply IH; [|exact Hp].
    intros q' Hq'. apply Hnone. right. exact Hq'.
Qed.

(** The loop finds nothing exactly when no pattern matches. *)
Lemma first_match_none (patterns : list pattern) (text : jsstring) :
  first_match patterns text = None <->
  (forall q, In q patterns -> js_match q text = None).
Proof.
  induction patterns as [|q patterns IH]; simpl.
  - split; [intros _ q []|reflexivity].
  - destruct (js_match q text) eqn:E.
    + split; [discriminate|].
      intros H. rewrite <- E. apply H. left. reflexivity.
    + rewrite IH. split.
      * intros H q' [<-|Hq']; auto.
      * intros H q' Hq'. apply H. right. exact Hq'.
Qed.

Lemma tracking_line_here (post : jsstring) :
  match_here pat_tracking (tracking_line ++ post) =
  Some (MatchArray tracking_line (Some (lit "AB123456789GB"))).
Proof. vm_compute. reflexivity. Qed.

Lemma total_line_here (post : jsstring) :
  ends_amount post = true ->
  match_here pat_total (total_line ++ post) =
  Some (MatchArray total_line (Some (lit "12.34"))).
Proof.
  destruct post as [|c post]; intros H.
  - vm_compute. reflexivity.
  - unfold ends_amount in H. apply negb_true_iff in H.
    vm_compute in H. vm_compute. rewrite H. reflexivity.
Qed.

Lemma cost_line_here (post : jsstring) :
  ends_amount post = true ->
  match_here pat_cost (cost_line ++ post) =
  Some (MatchArray cost_line (Some (lit "5.00"))).
Proof.
  destruct post as [|c post]; intros H.
  - vm_compute. reflexivity.
  - unfold ends_amount in H. apply negb_true_iff in H.
    vm_compute in H. vm_compute. rewrite H. reflexivity.
Qed.

Lemma tracking_of_first_match (text : jsstring) :
  Extract.trackingNumber (extractText text) =
  match first_match trackingPatterns text with
  | Some m => m1 m
  | None => None
  end.
Proof. reflexivity. Qed.

Lemma cost_of_first_match (text : jsstring) :
  Extract.cost (extractText text) =
  match first_match costPatterns text with
  | Some m => Some (pound :: template_value (m1 m))
  | None => None
  end.
Proof. reflexivity. Qed.

(** C5, as amended.  The extractor is a function of the page text alone.
    (1) When the text contains ["Tracking: AB123456789GB"] and the
    Tracking-labelled pattern matches nowhere before that occurrence, the
    tracking number is ["AB123456789GB"], whatever follows.  (2) When none
    of the four patterns matches, the tracking number is absent.  (3) The
    patterns are tried in the order Tracking-labelled, Reference-labelled,
    bare, Barcode-labelled, and the first that matches gives the result.
    (4) The method [extractConfirmation] returns what this function gives on
    the text of the page, and a record with both fields absent when the text
    cannot be read; it never throws. *)
Theorem tracking_number_extraction :
  (forall pre post : jsstring,
      no_match_in pat_tracking pre (tracking_line ++ post) = true ->
      Extract.trackingNumber (extractText (pre ++ tracking_line ++ post))
      = Some (lit "AB123456789GB"))
  /\ (forall text : jsstring,
         (forall q, In q trackingPatterns -> js_match q text = None) ->
         Extract.trackingNumber (extractText text) = None)
  /\ trackingPatterns = [pat_tracking; pat_reference; pat_bare_tracking; pat_barcode]
  /\ (forall before p after text m,
         trackingPatterns = before ++ p :: after ->
         (forall q, In q before -> js_match q text = None) ->
         js_match p text = Some m ->
         Extract.trackingNumber (extractText text) = m1 m)
  /\ (forall (env : Env) (p : Page) (w : World),
         extractConfirmation p env w =
         (Returned
            match env _ (trace w) (InnerText p) with
            | Returned text => extractText text
            | Thrown _ => {| Extract.trackingNumber := None; Extract.cost := None |}
            end,
          log (Any (InnerText p)) w)).
Proof.
  split; [|split; [|split; [|split]]].
  - intros pre post H.
    rewrite tracking_of_first_match.
    change trackingPatterns
      with ([] ++ pat_tracking :: [pat_reference; pat_bare_tracking; pat_barcode]).
    rewrite (@first_match_wins [] pat_tracking _ _
               (MatchArray tracking_line (Some (lit "AB123456789GB")))).
    + reflexivity.
    + intros q [].
    + rewrite js_match_skip by exact H.
      apply js_match_here, tracking_line_here.
  - intros text H.
    rewrite tracking_of_first_match.
    apply first_match_none in H. rewrite H. reflexivity.
  - reflexivity.
  - intros before p after text m Hsplit Hnone Hp.
    rewrite tracking_of_first_match, Hsplit.
    rewrite (first_match_wins before p after text Hnone Hp). reflexivity.
  - intros env p w.
    unfold extractConfirmation, try_catch, bind, call.
    destruct (env _ (trace w) (InnerText p)); reflexivity.
Qed.

Lemma tracking_number_extraction_witness :
  Extract.trackingNumber
    (extractText (lit "Thank you. " ++ tracking_line ++ lit " is on its way"))
  = Some (lit "AB123456789GB")
  /\ Extract.trackingNumber (extractText (lit "Your order is confirmed")) = None
  /\ Extract.trackingNumber (extractText (lit "Barcode: 12345 for parcel"))
     = Some (lit "12345").
Proof.
  split; [|split].
  - apply (proj1 tracking_number_extraction). vm_compute. reflexivity.
  - apply (proj1 (proj2 tracking_number_extraction)).
    intros q Hq. simpl in Hq.
    repeat (destruct Hq as [<-|Hq]; [vm_compute; reflexivity|]).
    destruct Hq.
  - apply (proj1 (proj2 (proj2 (proj2 tracking_number_extraction)))
             [pat_tracking; pat_reference; pat_bare_tracking] pat_barcode []
             (lit "Barcode: 12345 for parcel")
             (MatchArray (lit "Barcode: 12345") (Some (lit "12345")))).
    + reflexivity.
    + intros q Hq. simpl in Hq.
      repeat (destruct Hq as [<-|Hq]; [vm_compute; reflexivity|]).
      destruct Hq.
    + vm_compute. reflexivity.
Defined.

(** C5 as stated fails: this text contains ["Tracking: AB123456789GB"],
    and the tracking number extracted is the earlier ["XY987654321GB"]. *)
Lemma tracking_number_counterexample :
  includes (lit "Tracking: XY987654321GB Tracking: AB123456789GB")
    (lit "Tracking: AB123456789GB") = true
  /\ Extract.trackingNumber
       (extractText (lit "Tracking: XY987654321GB Tracking: AB123456789GB"))
     = Some (lit "XY987654321GB")
  /\ Extract.trackingNumber
       (extractText (lit "Tracking: XY987654321GB Tracking: AB123456789GB"))
     <> Some (lit "AB123456789GB").
Proof.
  split; [vm_compute; reflexivity|].
  split; [vm_compute; reflexivity|].
  intros H. vm_compute in H. discriminate H.
Qed.

(** C6, as amended.  (1) When the text contains ["Total: £12.34"], the
    Total-labelled pattern matches nowhere before that occurrence and the
    amount is not continued by a digit, a dot or a comma, the cost is
    ["£12.34"].  (2) When none of the four patterns matches, the cost is
    absent.  (3) The patterns are tried in the order Total, Cost, Price,
    bare pound amount, and the first that matches gives the result. *)
Theorem cost_extraction :
  (forall pre post : jsstring,
      no_match_in pat_total pre (total_line ++ post) = true ->
      ends_amount post = true ->
      Extract.cost (extractText (pre ++ total_line ++ post))
      = Some (pound :: lit "12.34"))
  /\ (forall text : jsstring,
         (forall q, In q costPatterns -> js_match q text = None) ->
         Extract.cost (extractText text) = None)
  /\ costPatterns = [pat_total; pat_cost; pat_price; pat_bare_amount]
  /\ (forall before p after text m,
         costPatterns = before ++ p :: after ->
         (forall q, In q before -> js_match q text = None) ->
         js_match p text = Some m ->
         Extract.cost (extractText text) = Some (pound :: template_value (m1 m))).
Proof.
  split; [|split; [|split]].
  - intros pre post H Hend.
    rewrite cost_of_first_match.
    change costPatterns
      with ([] ++ pat_total :: [pat_cost; pat_price; pat_bare_amount]).
    rewrite (@first_match_wins [] pat_total _ _
               (MatchArray total_line (Some (lit "12.34")))).
    + reflexivity.
    + intros q [].
    + rewrite js_match_skip by exact H.
      apply js_match_here, total_line_here, Hend.
  - intros text H.
    rewrite cost_of_first_match.
    apply first_match_none in H. rewrite H. reflexivity.
  - reflexivity.
  - intros before p after text m Hsplit Hnone Hp.
    rewrite cost_of_first_match, Hsplit.
    rewrite (first_match_wins before p after text Hnone Hp). reflexivity.
Qed.

Lemma cost_extraction_witness :
  Extract.cost
    (extractText (lit "Postage paid. " ++ total_line ++ lit " inc. VAT"))
  = Some (pound :: lit "12.34")
  /\ Extract.cost (extractText (lit "Your order is confirmed")) = None
  /\ Extract.cost (extractText (lit "Price 3,50 each"))
     = Some (pound :: lit "3,50").
Proof.
  split; [|split].
  - apply (proj1 cost_extraction); vm_compute; reflexivity.
  - apply (proj1 (proj2 cost_extraction)).
    intros q Hq. simpl in Hq.
    repeat (destruct Hq as [<-|Hq]; [vm_compute; reflexivity|]).
    destruct Hq.
  - apply (proj2 (proj2 (proj2 cost_extraction))
             [pat_total; pat_cost] pat_price [pat_bare_amount]
             (lit "Price 3,50 each")
             (MatchArray (lit "Price 3,50") (Some (lit "3,50")))).
    + reflexivity.
    + intros q Hq. simpl in Hq.
      repeat (destruct Hq as [<-|Hq]; [vm_compute; reflexivity|]).
      destruct Hq.
    + vm_compute. reflexivity.
Defined.

(** C6 as stated fails: the text ["Total: £12.345"] contains
    ["Total: £12.34"], and the cost extracted is ["£12.345"]. *)
Lemma cost_counterexample :
  includes (total_line ++ lit "5") total_line = true
  /\ Extract.cost (extractText (total_line ++ lit "5"))
     = Some (pound :: lit "12.345")
  /\ Extract.cost (extractText (total_line ++ lit "5"))
     <> Some (pound :: lit "12.34").
Proof.
  split; [vm_compute; reflexivity|].
  split; [vm_compute; reflexivity|].
  intros H. vm_compute in H. discriminate H.
Qed.

(** C10.  Every cost the extractor returns begins with the pound sign,
    whatever currency symbol the text has: the text ["Cost: $5.00"], alone
    or in a text where no labelled amount comes before it, gives
    ["£5.00"]. *)
Theorem cost_always_in_pounds :
  (forall text c,
      Extract.cost (extractText text) = Some c ->
      exists amount, c = pound :: amount)
  /\ Extract.cost (extractText cost_line) = Some (pound :: lit "5.00")
  /\ (forall pre post : jsstring,
         js_match pat_total (pre ++ cost_line ++ post) = None ->
         no_match_in pat_cost pre (cost_line ++ post) = true ->
         ends_amount post = true ->
         Extract.cost (extractText (pre ++ cost_line ++ post))
         = Some (pound :: lit "5.00")).
Proof.
  split; [|split].
  - intros text c. rewrite cost_of_first_match.
    destruct (first_match costPatterns text) as [m|]; [|discriminate].
    intros H. injection H as <-. eexists. reflexivity.
  - vm_compute. reflexivity.
  - intros pre post Htotal H Hend.
    rewrite cost_of_first_match.
    change costPatterns
      with ([pat_total] ++ pat_cost :: [pat_price; pat_bare_amount]).
    rewrite (@first_match_wins [pat_total] pat_cost _ _
               (MatchArray cost_line (Some (lit "5.00")))).
    + reflexivity.
    + intros q [<-|[]]. exact Htotal.
    + rewrite js_match_skip by exact H.
      apply js_match_here, cost_line_here, Hend.
Qed.

Lemma cost_always_in_pounds_witness :
  (exists amount, pound :: lit "7.20" = pound :: amount)
  /\ Extract.cost (extractText (lit "Paid. " ++ cost_line ++ lit " USD"))
     = Some (pound :: lit "5.00").
Proof.
  split.
  - apply (proj1 cost_always_in_pounds (lit "Price: $7.20")).
    vm_compute. reflexivity.
  - apply (proj2 (proj2 cost_always_in_pounds)); vm_compute; reflexivity.
Defined.

End ExtractFacts.

(* ===================================================================== *)
(** * Relations kept by every method *)
(* ===================================================================== *)

Module Stepwise.

Create HintDb stable.

Section Stable.

Variable R : World -> World -> Prop.
Hypothesis HR : stepwise R.

Lemma stable_ret A (a : A) : stable R (ret a).
Proof. intros env w. apply (sw_refl HR). Qed.

Lemma stable_throw A msg : stable R (@throw A msg).
Proof. intros env w. apply (sw_refl HR). Qed.

Lemma stable_bind A B (m : M A) (k : A -> M B) :
  stable R m -> (forall a, stable R (k a)) -> stable R (bind m k).
Proof.
  intros Hm Hk env w. unfold bind.
  specialize (Hm env w).
  destruct (m env w) as [[a|e] w1]; simpl in *.
  - eapply (sw_trans HR); [exact Hm|apply Hk].
  - exact Hm.
Qed.

Lemma stable_try A (m : M A) (h : jsstring -> M A) :
  stable R m -> (forall e, stable R (h e)) -> stable R (try_catch m h).
Proof.
  intros Hm Hh env w. unfold try_catch.
  specialize (Hm env w).
  destruct (m env w) as [[a|e] w1]; simpl in *.
  - exact Hm.
  - eapply (sw_trans HR); [exact Hm|apply Hh].
Qed.

Lemma stable_call X (c : Call (outcome X)) : stable R (call c).
Proof. intros env w. apply (sw_log HR). Qed.

Lemma stable_ask X (c : Call X) : stable R (ask c).
Proof. intros env w. apply (sw_log HR). Qed.

Lemma stable_existsSync : stable R existsSync.
Proof. intros env w. apply (sw_refl HR). Qed.

Lemma stable_readSession : stable R readSession.
Proof.
  intros env w. unfold readSession, bind, get_file.
  destruct (file w) as [[d|]|]; apply (sw_refl HR).
Qed.

Lemma stable_update_loggedIn : stable R (updateSession only_loggedIn).
Proof. exact (sw_update_loggedIn HR). Qed.

Lemma stable_update_formFilled : stable R (updateSession only_formFilled).
Proof. exact (sw_update_formFilled HR). Qed.

Lemma stable_update_labelGenerated : stable R (updateSession only_labelGenerated).
Proof. exact (sw_update_labelGenerated HR). Qed.

Lemma stable_ensureBrowser : stable R ensureBrowser.
Proof. exact (sw_ensure HR). Qed.

#[local] Hint Resolve stable_ret stable_throw stable_call stable_ask
  stable_existsSync stable_readSession
  stable_update_loggedIn stable_update_formFilled
  stable_update_labelGenerated stable_ensureBrowser : stable.

(** Decompose a method along its binds, handlers and case analyses. *)
Ltac stab :=
  repeat first
    [ solve [auto with stable]
    | apply stable_bind; [|intros]
    | apply stable_try; [|intros]
    | match goal with
      | |- stable _ (match ?x with _ => _ end) => destruct x
      end ].

Lemma stable_attempt p selector (action : Element -> M unit) :
  (forall e, stable R (action e)) -> stable R (attempt p selector action).
Proof. intros H. unfold attempt. stab. Qed.

Lemma stable_first_found p selectors (action : Element -> M unit) :
  (forall e, stable R (action e)) ->
  stable R (first_found p selectors action).
Proof.
  intros H. induction selectors as [|s rest IH]; simpl.
  - stab.
  - apply stable_bind; [apply stable_attempt; exact H|].
    intros []; stab.
Qed.

#[local] Hint Resolve stable_attempt stable_first_found : stable.

Lemma stable_fill_if_found (q : M (option Element)) value :
  stable R q -> stable R (fill_if_found q value).
Proof. intros H. unfold fill_if_found. stab. Qed.

Lemma stable_or_else (m1 m2 : M bool) :
  stable R m1 -> stable R m2 -> stable R (or_else m1 m2).
Proof. intros H1 H2. unfold or_else. stab. Qed.

#[local] Hint Resolve stable_fill_if_found stable_or_else : stable.

Lemma stable_fill_by_label p label value :
  stable R (fill_by_label p label value).
Proof.
  unfold fill_by_label.
  repeat (apply stable_or_else; [stab|]); stab.
Qed.

#[local] Hint Resolve stable_fill_by_label : stable.

Lemma stable_fillField p labels value : stable R (fillField p labels value).
Proof.
  induction labels as [|l rest IH]; simpl; stab.
Qed.

#[local] Hint Resolve stable_fillField : stable.

Lemma stable_fill_optional p labels v : stable R (fill_optional p labels v).
Proof. unfold fill_optional. stab. Qed.

Lemma stable_fill_optional_number p labels n :
  stable R (fill_optional_number p labels n).
Proof. unfold fill_optional_number. stab. Qed.

Lemma stable_select_dropdown p selectors serviceCode serviceName :
  stable R (select_dropdown p selectors serviceCode serviceName).
Proof.
  induction selectors as [|s rest IH]; simpl; stab.
Qed.

#[local] Hint Resolve stable_fill_optional stable_fill_optional_number
  stable_select_dropdown : stable.

Lemma stable_selectService p serviceCode : stable R (selectService p serviceCode).
Proof. unfold selectService. stab. Qed.

Lemma stable_on_login_page p : stable R (on_login_page p).
Proof. unfold on_login_page. stab. Qed.

Lemma stable_extractConfirmation p : stable R (extractConfirmation p).
Proof. unfold extractConfirmation. stab. Qed.

#[local] Hint Resolve stable_selectService stable_on_login_page
  stable_extractConfirmation : stable.

Lemma stable_login config : stable R (login config).
Proof. unfold login. stab. Qed.

#[local] Hint Resolve stable_login : stable.

Lemma stable_createLabel config options : stable R (createLabel config options).
Proof. unfold createLabel. stab. Qed.

Lemma stable_submit_form p : stable R (submit_form p).
Proof. unfold submit_form. stab. Qed.

Lemma stable_download_file p : stable R (download_file p).
Proof. unfold download_file. stab. Qed.

#[local] Hint Resolve stable_createLabel stable_submit_form
  stable_download_file : stable.

Lemma stable_submit : stable R submit.
Proof. unfold submit. stab. Qed.

Lemma stable_downloadLabel : stable R downloadLabel.
Proof. unfold downloadLabel. stab. Qed.

Lemma stable_takeScreenshot options : stable R (takeScreenshot options).
Proof. unfold takeScreenshot. stab. Qed.

#[local] Hint Resolve stable_submit stable_downloadLabel
  stable_takeScreenshot : stable.


End Stable.

(** The same decomposition, for use with a given relation. *)
Ltac stable_with HR :=
  repeat first
    [ apply (stable_ret HR)
    | apply (stable_throw HR)
    | apply (stable_call HR)
    | apply (stable_ask HR)
    | apply (stable_existsSync HR)
    | apply (stable_readSession HR)
    | apply (stable_update_loggedIn HR)
    | apply (stable_update_formFilled HR)
    | apply (stable_update_labelGenerated HR)
    | apply (stable_ensureBrowser HR)
    | apply (stable_extractConfirmation HR)
    | apply (stable_first_found HR); intros
    | apply (stable_attempt HR); intros
    | apply (stable_bind HR); [|intros]
    | apply (stable_try HR); [|intros]
    | match goal with
      | |- stable _ (match ?x with _ => _ end) => destruct x
      end ].

End Stepwise.


(* ===================================================================== *)
(** * Properties of the client *)
(* ===================================================================== *)

Module ClientFacts.

Lemma reset_never_throws (env : Env) (w : World) :
  exists r w', reset env w = (Returned r, w').
Proof.
  destruct w as [f [b|] c p t]; unfold reset, try_catch, bind; cbn.
  - destruct (env (outcome unit) t (BrowserClose b)) as [[]|msg]; cbn.
    + destruct f; cbn; do 2 eexists; reflexivity.
    + do 2 eexists; reflexivity.
  - destruct f; cbn; do 2 eexists; reflexivity.
Qed.

Lemma reset_closes_held_browser (env : Env) (w : World) b :
  browser w = Some b ->
  env _ (trace w) (BrowserClose b) = Returned tt ->
  reset env w =
  (Returned reset_ok,
   {| file := None; browser := None; context := None; page := None;
      trace := trace w ++ [Any (BrowserClose b)] |}).
Proof.
  destruct w as [f b' c p t]; cbn. intros -> H.
  unfold reset, try_catch, bind; cbn. rewrite H; cbn.
  destruct f; reflexivity.
Qed.

Lemma reset_without_browser (env : Env) (w : World) :
  browser w = None ->
  reset env w =
  (Returned reset_ok,
   {| file := None; browser := None; context := context w; page := page w;
      trace := trace w |}).
Proof.
  destruct w as [f b' c p t]; cbn. intros ->.
  unfold reset, try_catch, bind; cbn.
  destruct f; reflexivity.
Qed.

Lemma reset_close_fault (env : Env) (w : World) b msg :
  browser w = Some b ->
  env _ (trace w) (BrowserClose b) = Thrown msg ->
  reset env w =
  (Returned (error_result (js "Reset failed: " ++ msg)),
   log (Any (BrowserClose b)) w).
Proof.
  destruct w as [f b' c p t]; cbn. intros -> H.
  unfold reset, try_catch, bind; cbn. rewrite H; cbn.
  reflexivity.
Qed.

Lemma reset_success_state (env : Env) (w : World) r w' :
  reset env w = (Returned r, w') ->
  success r = Some true ->
  file w' = None /\ browser w' = None.
Proof.
  destruct w as [f [b|] c p t]; unfold reset, try_catch, bind; cbn.
  - destruct (env (outcome unit) t (BrowserClose b)) as [[]|msg]; cbn.
    + destruct f; cbn; intros H; injection H as <- <-; auto.
    + intros H; injection H as <- <-. discriminate.
  - destruct f; cbn; intros H; injection H as <- <-; auto.
Qed.

(** C8, as amended.  [reset] never throws.  It closes the browser that the
    client object holds, when it holds one, and then deletes the session
    file, when there is one: if the close does not fault, it returns
    success and leaves no session file and no held browser.  When the
    client holds no browser it makes no call at all.  A fault of the close
    is returned as an error result and the session file is left as it was.
    A reset that follows a successful reset changes nothing and returns
    the same success. *)
Theorem reset_clears_session :
  (forall (env : Env) (w : World), exists r w', reset env w = (Returned r, w'))
  /\ (forall (env : Env) (w : World) b,
         browser w = Some b ->
         env _ (trace w) (BrowserClose b) = Returned tt ->
         reset env w =
         (Returned reset_ok,
          {| file := None; browser := None; context := None; page := None;
             trace := trace w ++ [Any (BrowserClose b)] |}))
  /\ (forall (env : Env) (w : World),
         browser w = None ->
         reset env w =
         (Returned reset_ok,
          {| file := None; browser := None; context := context w;
             page := page w; trace := trace w |}))
  /\ (forall (env : Env) (w : World) b msg,
         browser w = Some b ->
         env _ (trace w) (BrowserClose b) = Thrown msg ->
         reset env w =
         (Returned (error_result (js "Reset failed: " ++ msg)),
          log (Any (BrowserClose b)) w))
  /\ (forall (env : Env) (w : World) r w',
         reset env w = (Returned r, w') ->
         success r = Some true ->
         reset env w' = (Returned r, w')).
Proof.
  split; [exact reset_never_throws|].
  split; [exact reset_closes_held_browser|].
  split; [exact reset_without_browser|].
  split; [exact reset_close_fault|].
  intros env w r w' Hrun Hok.
  destruct (reset_success_state env w Hrun Hok) as [Hf Hb].
  rewrite (reset_without_browser env w' Hb).
  destruct w' as [f' b' c' p' t']; cbn in *; subst.
  destruct w as [f [b|] c p t]; unfold reset, try_catch, bind in Hrun; cbn in Hrun.
  - destruct (env (outcome unit) t (BrowserClose b)) as [[]|msg]; cbn in Hrun.
    + destruct f; cbn in Hrun; injection Hrun as <- <- <- <-; reflexivity.
    + injection Hrun as <- <- <- <- <-. discriminate.
  - destruct f; cbn in Hrun; injection Hrun as <- <- <- <-; reflexivity.
Qed.

Lemma reset_clears_session_witness :
  reset (Scenario.env_of Scenario.live) (Scenario.holding true true) =
  (Returned reset_ok,
   {| file := None; browser := None; context := None; page := None;
      trace := [Any (BrowserClose 1%nat)] |})
  /\ reset (Scenario.env_of Scenario.live) (fresh_process None) =
     (Returned reset_ok, fresh_process None)
  /\ reset (Scenario.env_of Scenario.stuck) (Scenario.holding true true) =
     (Returned (error_result (js "Reset failed: " ++ js "Target closed")),
      log (Any (BrowserClose 1%nat)) (Scenario.holding true true))
  /\ reset (Scenario.env_of Scenario.live)
       {| file := None; browser := None; context := None; page := None;
          trace := [Any (BrowserClose 1%nat)] |} =
     (Returned reset_ok,
      {| file := None; browser := None; context := None; page := None;
         trace := [Any (BrowserClose 1%nat)] |}).
Proof.
  split; [|split; [|split]].
  - apply (proj1 (proj2 reset_clears_session)
             (Scenario.env_of Scenario.live) (Scenario.holding true true) 1%nat);
      reflexivity.
  - apply (proj1 (proj2 (proj2 reset_clears_session))
             (Scenario.env_of Scenario.live) (fresh_process None)).
    reflexivity.
  - apply (proj1 (proj2 (proj2 (proj2 reset_clears_session)))
             (Scenario.env_of Scenario.stuck) (Scenario.holding true true) 1%nat);
      reflexivity.
  - apply (proj2 (proj2 (proj2 (proj2 reset_clears_session)))
             (Scenario.env_of Scenario.live) (Scenario.holding true true)).
    + apply (proj1 (proj2 reset_clears_session)
               (Scenario.env_of Scenario.live) (Scenario.holding true true) 1%nat);
        reflexivity.
    + reflexivity.
Defined.

(** C8 as stated fails: when the close of the browser throws, [reset]
    returns an error result and the session file is still there. *)
Lemma reset_counterexample :
  fst (reset (Scenario.env_of Scenario.stuck) (Scenario.holding true true))
  = Returned (error_result (js "Reset failed: " ++ js "Target closed"))
  /\ file (snd (reset (Scenario.env_of Scenario.stuck) (Scenario.holding true true)))
     = Some (Json (Scenario.session true true)).
Proof. split; reflexivity. Qed.


Lemma acquire_existing_cold (env : Env) (w w1 : World) :
  cold_start env w w1 -> acquire_existing env w = (Returned None, w1).
Proof.
  intros H; destruct H; destruct w as [f b0 c0 p0 t]; cbn in *; subst;
    unfold acquire_existing, reconnect, try_catch, bind; run; reflexivity.
Qed.

Lemma acquire_existing_never_throws (env : Env) (w : World) :
  exists found w1, acquire_existing env w = (Returned found, w1).
Proof.
  destruct w as [[[d|]|] b0 c0 p0 t];
    unfold acquire_existing, reconnect, try_catch, bind; cbn;
    try (do 2 eexists; reflexivity).
  destruct (env _ t (ConnectOverCDP (wsEndpoint d))) as [b|msg]; cbn;
    try (do 2 eexists; reflexivity).
  destruct (env _ (t ++ [Any (ConnectOverCDP (wsEndpoint d))]) (Contexts b))
    as [[|c cs]|msg]; cbn; try (do 2 eexists; reflexivity).
  destruct (env _ ((t ++ [Any (ConnectOverCDP (wsEndpoint d))]) ++ [Any (Contexts b)]) (Pages c))
    as [[|p ps]|msg]; cbn; try (do 2 eexists; reflexivity).
Qed.

Lemma acquire_existing_falls_through (env : Env) (w w1 : World) :
  acquire_existing env w = (Returned None, w1) -> cold_start env w w1.
Proof.
  destruct w as [[[d|]|] b0 c0 p0 t];
    unfold acquire_existing, reconnect, try_catch, bind; cbn.
  - destruct (env _ t (ConnectOverCDP (wsEndpoint d))) as [b|msg] eqn:E1; cbn.
    + destruct (env _ (t ++ [Any (ConnectOverCDP (wsEndpoint d))]) (Contexts b))
        as [[|c cs]|msg] eqn:E2; cbn.
      * intros H; injection H as <-.
        eapply (@cold_no_context env _ d b); cbn; eauto.
      * destruct (env _ ((t ++ [Any (ConnectOverCDP (wsEndpoint d))]) ++ [Any (Contexts b)]) (Pages c))
          as [[|p ps]|msg] eqn:E3; cbn.
        -- intros H; injection H as <-.
           eapply (@cold_no_page env _ d b c cs); cbn; eauto.
           rewrite <- app_assoc in E3. exact E3.
        -- discriminate.
        -- intros H; injection H as <-.
           eapply (@cold_pages_throw env _ d b c cs msg); cbn; eauto.
           rewrite <- app_assoc in E3. exact E3.
      * intros H; injection H as <-.
        eapply (@cold_contexts_throw env _ d b msg); cbn; eauto.
    + intros H; injection H as <-.
      eapply (@cold_connect_throws env _ d msg); cbn; eauto.
  - intros H; injection H as <-.
    apply (@cold_not_json env _); reflexivity.
  - intros H; injection H as <-.
    apply (@cold_no_file env _); reflexivity.
Qed.
Lemma launch_with_endpoint (env : Env) (w : World) b c p e :
  launches env (trace w) b c p (Some e) ->
  e <> [] ->
  launch env w =
  (Returned p,
   {| file := Some (Json (fresh_session e
                            (env _ (trace w ++ launch_calls b c) DateToISOString)));
      browser := Some b; context := Some c; page := Some p;
      trace := trace w ++ launch_calls b c ++ [Any DateToISOString] |}).
Proof.
  intros (H1 & H2 & H3 & H4) He.
  destruct w as [f b0 c0 p0 t]; cbn in *.
  destruct e as [|c1 e]; [contradiction|].
  unfold launch, bind; run. reflexivity.
Qed.

Lemma launch_without_endpoint (env : Env) (w : World) b c p endpoint :
  launches env (trace w) b c p endpoint ->
  truthy endpoint = false ->
  launch env w =
  (Returned p,
   {| file := file w; browser := Some b; context := Some c; page := Some p;
      trace := trace w ++ launch_calls b c |}).
Proof.
  intros (H1 & H2 & H3 & H4) He.
  destruct w as [f b0 c0 p0 t]; cbn in *.
  destruct endpoint as [[|c1 e]|]; try discriminate;
    unfold launch, bind; run; reflexivity.
Qed.

(** Whatever the launch does, it begins with the call of the launch, and
    it leaves the session file as it was or writes a fresh session. *)
Lemma launch_effect (env : Env) (w : World) :
  (exists rest, trace (snd (launch env w)) = trace w ++ Any Launch :: rest)
  /\ (file (snd (launch env w)) = file w
      \/ exists e now,
           file (snd (launch env w)) = Some (Json (fresh_session e now))).
Proof.
  destruct w as [f b0 c0 p0 t]. unfold launch, bind; cbn.
  destruct (env _ t Launch) as [b|msg]; cbn;
    [|split; [eexists; reflexivity|left; reflexivity]].
  destruct (env _ (t ++ [Any Launch]) (NewContext b)) as [c|msg]; cbn; norm_trace;
    [|split; [eexists; reflexivity|left; reflexivity]].
  destruct (env _ (t ++ [Any Launch; Any (NewContext b)]) (NewPage c))
    as [p|msg]; cbn; norm_trace;
    [|split; [eexists; reflexivity|left; reflexivity]].
  destruct (env _ (t ++ [Any Launch; Any (NewContext b); Any (NewPage c)]) (WsEndpoint b))
    as [[|c1 e]|]; cbn; norm_trace;
    (split; [eexists; reflexivity|]); eauto.
Qed.

Lemma ensureBrowser_cold (env : Env) (w w1 : World) :
  cold_start env w w1 -> ensureBrowser env w = launch env w1.
Proof.
  intros H. unfold ensureBrowser, bind.
  rewrite (acquire_existing_cold H). reflexivity.
Qed.

Lemma ensureBrowser_reconnects (env : Env) (w : World) d b c p :
  reconnects env w d b c p ->
  ensureBrowser env w =
  (Returned p,
   {| file := file w; browser := Some b; context := Some c; page := Some p;
      trace := trace w ++ reconnect_calls d b c |}).
Proof.
  intros (Hf & H1 & (cs & H2) & (ps & H3)).
  destruct w as [f b0 c0 p0 t]; cbn in *; subst.
  unfold ensureBrowser, acquire_existing, reconnect, try_catch, bind; run.
  reflexivity.
Qed.

(** The worlds in which the session manager turns to the launch are
    exactly the cold starts. *)
Lemma cold_start_iff (env : Env) (w w1 : World) :
  cold_start env w w1 <-> acquire_existing env w = (Returned None, w1).
Proof.
  split; [apply acquire_existing_cold|apply acquire_existing_falls_through].
Qed.




Lemma ensureBrowser_fresh (env : Env) (w w1 : World) b c p e :
  cold_start env w w1 ->
  launches env (trace w1) b c p (Some e) ->
  e <> [] ->
  ensureBrowser env w =
  (Returned p,
   {| file := Some (Json (fresh_session e
                            (env _ (trace w1 ++ launch_calls b c) DateToISOString)));
      browser := Some b; context := Some c; page := Some p;
      trace := trace w1 ++ launch_calls b c ++ [Any DateToISOString] |}).
Proof.
  intros Hcold Hlaunch He.
  rewrite (ensureBrowser_cold Hcold).
  apply launch_with_endpoint; assumption.
Qed.

Lemma ensureBrowser_no_session (env : Env) (w : World) b c p endpoint :
  file w = None ->
  launches env (trace w) b c p endpoint ->
  truthy endpoint = false ->
  ensureBrowser env w =
  (Returned p,
   {| file := None; browser := Some b; context := Some c; page := Some p;
      trace := trace w ++ launch_calls b c |}).
Proof.
  intros Hf Hlaunch He.
  rewrite (ensureBrowser_cold (@cold_no_file env w Hf)).
  rewrite (launch_without_endpoint w Hlaunch He), Hf. reflexivity.
Qed.

(** C1, as amended.  The persisted session shows [formFilled = false].
    (1) When the browser of the session is live and has a page, [submit]
    returns the precondition failure; the only calls made are the three of
    the reconnection, none of which acts on a page, and the session file is
    unchanged.  (2) On a cold start where the launch succeeds and the new
    browser gives an endpoint, [submit] returns the precondition failure as
    well, after the launch and the writing of the fresh session. *)
Theorem submit_refuses_unfilled_form :
  (forall (env : Env) (w : World) d b c p,
      reconnects env w d b c p ->
      formFilled d = false ->
      submit env w =
      (Returned form_not_filled,
       {| file := Some (Json d); browser := Some b; context := Some c;
          page := Some p; trace := trace w ++ reconnect_calls d b c |})
      /\ existsb is_page_interaction (reconnect_calls d b c) = false)
  /\ (forall (env : Env) (w w1 : World) b c p e,
         cold_start env w w1 ->
         launches env (trace w1) b c p (Some e) ->
         e <> [] ->
         submit env w =
         (Returned form_not_filled,
          {| file := Some (Json (fresh_session e
                                   (env _ (trace w1 ++ launch_calls b c)
                                      DateToISOString)));
             browser := Some b; context := Some c; page := Some p;
             trace := trace w1 ++ launch_calls b c ++ [Any DateToISOString] |})).
Proof.
  split.
  - intros env w d b c p Hre Hflag. split; [|reflexivity].
    unfold submit, bind. rewrite (ensureBrowser_reconnects Hre).
    destruct Hre as (Hf & _). rewrite Hf. cbn. rewrite Hflag. reflexivity.
  - intros env w w1 b c p e Hcold Hlaunch He.
    unfold submit, bind.
    rewrite (ensureBrowser_fresh Hcold Hlaunch He).
    reflexivity.
Qed.

Lemma submit_refuses_unfilled_form_witness :
  submit (Scenario.env_of Scenario.live) (Scenario.resumed false false) =
  (Returned form_not_filled,
   {| file := Some (Json (Scenario.session false false));
      browser := Some 1%nat; context := Some 2%nat; page := Some 3%nat;
      trace := reconnect_calls (Scenario.session false false) 1%nat 2%nat |})
  /\ submit (Scenario.env_of Scenario.dead) (Scenario.resumed false false) =
     (Returned form_not_filled,
      {| file := Some (Json (fresh_session
                               (js "ws://127.0.0.1:9222/devtools/browser/new")
                               (js "2023-11-14T22:13:20.000Z")));
         browser := Some 7%nat; context := Some 8%nat; page := Some 9%nat;
         trace :=
           [Any (ConnectOverCDP (js "ws://127.0.0.1:9222/devtools/browser/old"))]
             ++ launch_calls 7%nat 8%nat ++ [Any DateToISOString] |}).
Proof.
  split.
  - apply (proj1 submit_refuses_unfilled_form
             (Scenario.env_of Scenario.live) (Scenario.resumed false false)
             (Scenario.session false false) 1%nat 2%nat 3%nat).
    + repeat split; try reflexivity; eexists; reflexivity.
    + reflexivity.
  - apply (proj2 submit_refuses_unfilled_form
             (Scenario.env_of Scenario.dead) (Scenario.resumed false false)
             (with_file None
                (log (Any (ConnectOverCDP
                             (js "ws://127.0.0.1:9222/devtools/browser/old")))
                   (Scenario.resumed false false)))
             7%nat 8%nat 9%nat
             (js "ws://127.0.0.1:9222/devtools/browser/new")).
    + apply (@cold_connect_throws (Scenario.env_of Scenario.dead)
               (Scenario.resumed false false) (Scenario.session false false)
               (js "connect ECONNREFUSED")); reflexivity.
    + repeat split; reflexivity.
    + intros H. vm_compute in H. discriminate H.
Defined.

(** C1 as stated fails.  With a live session whose form flag is false,
    [submit] has connected to the browser and listed its contexts and pages
    before it refuses.  With a session whose browser is gone and a launched
    browser that gives no endpoint, the session file is deleted, no check is
    made, and [submit] goes through the submission and returns success. *)
Lemma submit_counterexample :
  formFilled (Scenario.session false false) = false
  /\ trace (snd (submit (Scenario.env_of Scenario.live)
                   (Scenario.resumed false false)))
     = [Any (ConnectOverCDP (js "ws://127.0.0.1:9222/devtools/browser/old"));
        Any (Contexts 1%nat); Any (Pages 2%nat)]
  /\ (exists r,
         fst (submit (Scenario.env_of Scenario.dead_no_endpoint)
                (Scenario.resumed false false)) = Returned r
         /\ success r = Some true
         /\ r <> form_not_filled)
  /\ file (snd (submit (Scenario.env_of Scenario.dead_no_endpoint)
                  (Scenario.resumed false false))) = None.
Proof.
  split; [reflexivity|].
  split; [reflexivity|].
  split; [|vm_compute; reflexivity].
  eexists. split; [vm_compute; reflexivity|].
  split; [reflexivity|discriminate].
Qed.

(** C2, as amended.  The persisted session shows [labelGenerated = false].
    (1) When the browser of the session is live and has a page, [downloadLabel] returns the precondition failure; the only calls made are the three of
    the reconnection, none of which acts on a page, and the session file is
    unchanged.  (2) On a cold start where the launch succeeds and the new
    browser gives an endpoint, [downloadLabel] returns the precondition
    failure as well, after the launch and the writing of the fresh session. *)
Theorem download_refuses_missing_label :
  (forall (env : Env) (w : World) d b c p,
      reconnects env w d b c p ->
      labelGenerated d = false ->
      downloadLabel env w =
      (Returned label_not_generated,
       {| file := Some (Json d); browser := Some b; context := Some c;
          page := Some p; trace := trace w ++ reconnect_calls d b c |})
      /\ existsb is_page_interaction (reconnect_calls d b c) = false)
  /\ (forall (env : Env) (w w1 : World) b c p e,
         cold_start env w w1 ->
         launches env (trace w1) b c p (Some e) ->
         e <> [] ->
         downloadLabel env w =
         (Returned label_not_generated,
          {| file := Some (Json (fresh_session e
                                   (env _ (trace w1 ++ launch_calls b c)
                                      DateToISOString)));
             browser := Some b; context := Some c; page := Some p;
             trace := trace w1 ++ launch_calls b c ++ [Any DateToISOString] |})).
Proof.
  split.
  - intros env w d b c p Hre Hflag. split; [|reflexivity].
    unfold downloadLabel, bind. rewrite (ensureBrowser_reconnects Hre).
    destruct Hre as (Hf & _). rewrite Hf. cbn. rewrite Hflag. reflexivity.
  - intros env w w1 b c p e Hcold Hlaunch He.
    unfold downloadLabel, bind.
    rewrite (ensureBrowser_fresh Hcold Hlaunch He).
    reflexivity.
Qed.

Lemma download_refuses_missing_label_witness :
  downloadLabel (Scenario.env_of Scenario.live) (Scenario.resumed true false) =
  (Returned label_not_generated,
   {| file := Some (Json (Scenario.session true false));
      browser := Some 1%nat; context := Some 2%nat; page := Some 3%nat;
      trace := reconnect_calls (Scenario.session true false) 1%nat 2%nat |})
  /\ downloadLabel (Scenario.env_of Scenario.dead) (Scenario.resumed true false) =
     (Returned label_not_generated,
      {| file := Some (Json (fresh_session
                               (js "ws://127.0.0.1:9222/devtools/browser/new")
                               (js "2023-11-14T22:13:20.000Z")));
         browser := Some 7%nat; context := Some 8%nat; page := Some 9%nat;
         trace :=
           [Any (ConnectOverCDP (js "ws://127.0.0.1:9222/devtools/browser/old"))]
             ++ launch_calls 7%nat 8%nat ++ [Any DateToISOString] |}).
Proof.
  split.
  - apply (proj1 download_refuses_missing_label
             (Scenario.env_of Scenario.live) (Scenario.resumed true false)
             (Scenario.session true false) 1%nat 2%nat 3%nat).
    + repeat split; try reflexivity; eexists; reflexivity.
    + reflexivity.
  - apply (proj2 download_refuses_missing_label
             (Scenario.env_of Scenario.dead) (Scenario.resumed true false)
             (with_file None
                (log (Any (ConnectOverCDP
                             (js "ws://127.0.0.1:9222/devtools/browser/old")))
                   (Scenario.resumed true false)))
             7%nat 8%nat 9%nat
             (js "ws://127.0.0.1:9222/devtools/browser/new")).
    + apply (@cold_connect_throws (Scenario.env_of Scenario.dead)
               (Scenario.resumed true false) (Scenario.session true false)
               (js "connect ECONNREFUSED")); reflexivity.
    + repeat split; reflexivity.
    + intros H. vm_compute in H. discriminate H.
Defined.

(** C2 as stated fails.  With a live session whose label flag is false,
    [downloadLabel] has connected to the browser and listed its contexts and pages
    before it refuses.  With a session whose browser is gone and a launched
    browser that gives no endpoint, the session file is deleted, no check is
    made, and [downloadLabel] goes on to arm the download, to look for the
    buttons and to wait for the download. *)
Lemma download_counterexample :
  labelGenerated (Scenario.session true false) = false
  /\ trace (snd (downloadLabel (Scenario.env_of Scenario.live)
                   (Scenario.resumed true false)))
     = [Any (ConnectOverCDP (js "ws://127.0.0.1:9222/devtools/browser/old"));
        Any (Contexts 1%nat); Any (Pages 2%nat)]
  /\ fst (downloadLabel (Scenario.env_of Scenario.dead_no_endpoint)
            (Scenario.resumed true false))
     = Returned (error_result_with
                   (js "Download failed: " ++ js "Timeout 30000ms exceeded")
                   (screenshot_path "royalmail-download-error-" 1700000000000))
  /\ existsb is_page_interaction
       (trace (snd (downloadLabel (Scenario.env_of Scenario.dead_no_endpoint)
                      (Scenario.resumed true false)))) = true
  /\ file (snd (downloadLabel (Scenario.env_of Scenario.dead_no_endpoint)
                  (Scenario.resumed true false))) = None.
Proof.
  split; [reflexivity|].
  split; [reflexivity|].
  split; [vm_compute; reflexivity|].
  split; vm_compute; reflexivity.
Qed.

Lemma kept_refl f : kept f f.
Proof.
  destruct f as [[d|]|]; simpl; auto. repeat split; auto.
Qed.

Lemma kept_trans f1 f2 f3 : kept f1 f2 -> kept f2 f3 -> kept f1 f3.
Proof.
  unfold kept, flags_le.
  destruct f1 as [[d1|]|], f2 as [[d2|]|], f3 as [[d3|]|];
    try congruence; try tauto.
  intros (E1 & E2 & L1 & L2 & L3) (E1' & E2' & L1' & L2' & L3').
  repeat split; try congruence; auto.
Qed.

Lemma restarted_kept f f' : restarted f -> kept f f' -> restarted f'.
Proof.
  intros [->|(e & now & He & K)] H.
  - left. destruct f' as [[d|]|]; cbn in H; congruence.
  - right. exists e, now. split; [exact He|]. eapply kept_trans; eassumption.
Qed.

Lemma advances_refl w : advances w w.
Proof.
  exists []. rewrite app_nil_r. split; [reflexivity|left; apply kept_refl].
Qed.

Lemma advances_trans w1 w2 w3 : advances w1 w2 -> advances w2 w3 -> advances w1 w3.
Proof.
  intros (l1 & T1 & H1) (l2 & T2 & H2).
  exists (l1 ++ l2). split.
  - rewrite T2, T1, app_assoc. reflexivity.
  - rewrite existsb_app.
    destruct H2 as [K2|[L2 R2]].
    + destruct H1 as [K1|[L1 R1]].
      * left. eapply kept_trans; eassumption.
      * right. rewrite L1. split; [reflexivity|].
        eapply restarted_kept; eassumption.
    + right. rewrite L2. split; [apply orb_true_r|exact R2].
Qed.

Lemma advances_log c w : advances w (log c w).
Proof.
  exists [c]. split; [reflexivity|left; apply kept_refl].
Qed.

(** An update that only sets flags to [true] keeps the session. *)
Lemma advances_update (u : SessionUpdate) :
  set_wsEndpoint u = None ->
  set_createdAt u = None ->
  set_loggedIn u <> Some false ->
  set_formFilled u <> Some false ->
  set_labelGenerated u <> Some false ->
  stable advances (updateSession u).
Proof.
  intros E1 E2 N1 N2 N3 env w.
  exists []. rewrite app_nil_r.
  destruct w as [[[d|]|] b0 c0 p0 t]; unfold updateSession, bind; cbn;
    (split; [reflexivity|left]); auto.
  unfold assign. rewrite E1, E2. cbn. repeat split.
  - destruct (set_loggedIn u) as [[|]|]; cbn; congruence.
  - destruct (set_formFilled u) as [[|]|]; cbn; congruence.
  - destruct (set_labelGenerated u) as [[|]|]; cbn; congruence.
Qed.

(** The first half of [ensureBrowser] only adds calls, and when it finds a
    page it has left the session file alone. *)
Lemma acquire_existing_effect (env : Env) (w : World) :
  extends w (snd (acquire_existing env w))
  /\ (forall p, fst (acquire_existing env w) = Returned (Some p) ->
                file (snd (acquire_existing env w)) = file w).
Proof.
  destruct w as [[[d|]|] b0 c0 p0 t];
    unfold acquire_existing, reconnect, try_catch, bind, extends; cbn;
    try (split; [exists []; rewrite app_nil_r; reflexivity|discriminate]).
  destruct (env _ t (ConnectOverCDP (wsEndpoint d))) as [b|msg]; cbn;
    [|split; [eexists; reflexivity|discriminate]].
  destruct (env _ (t ++ [Any (ConnectOverCDP (wsEndpoint d))]) (Contexts b))
    as [[|c cs]|msg]; cbn; norm_trace;
    try (split; [eexists; reflexivity|discriminate]).
  destruct (env _ (t ++ [Any (ConnectOverCDP (wsEndpoint d)); Any (Contexts b)]) (Pages c))
    as [[|p ps]|msg]; cbn; norm_trace;
    try (split; [eexists; reflexivity|discriminate]).
  split; [eexists; reflexivity|reflexivity].
Qed.

(** After the launch the session file is as it was, or the launched
    browser gave an endpoint that is not empty and the file holds the fresh
    session with that endpoint and the time read then. *)
Lemma launch_file (env : Env) (w : World) :
  file (snd (launch env w)) = file w
  \/ exists b c e,
       env _ (trace w ++ [Any Launch; Any (NewContext b); Any (NewPage c)])
         (WsEndpoint b) = Some e
       /\ e <> []
       /\ file (snd (launch env w))
          = Some (Json (fresh_session e
                          (env _ (trace w ++ launch_calls b c) DateToISOString))).
Proof.
  destruct w as [f b0 c0 p0 t]. unfold launch, bind; cbn.
  destruct (env _ t Launch) as [b|msg]; cbn; [|left; reflexivity].
  destruct (env _ (t ++ [Any Launch]) (NewContext b)) as [c|msg]; cbn; norm_trace;
    [|left; reflexivity].
  destruct (env _ (t ++ [Any Launch; Any (NewContext b)]) (NewPage c))
    as [p|msg]; cbn; norm_trace; [|left; reflexivity].
  destruct (env _ (t ++ [Any Launch; Any (NewContext b); Any (NewPage c)]) (WsEndpoint b))
    as [[|c1 e]|] eqn:E; cbn; norm_trace; [left; reflexivity| |left; reflexivity].
  right. exists b, c, (c1 :: e). split; [exact E|]. split; [discriminate|].
  reflexivity.
Qed.

(** A cold start deletes the session file or leaves it as it was. *)
Lemma cold_start_file (env : Env) (w w1 : World) :
  cold_start env w w1 -> file w1 = None \/ file w1 = file w.
Proof. intros H; destruct H; cbn; auto. Qed.

Lemma acquire_existing_found (env : Env) (w w1 : World) p :
  acquire_existing env w = (Returned (Some p), w1) ->
  exists d b c, reconnects env w d b c p.
Proof.
  destruct w as [[[d|]|] b0 c0 p0 t];
    unfold acquire_existing, reconnect, try_catch, bind, reconnects; cbn;
    try discriminate.
  destruct (env _ t (ConnectOverCDP (wsEndpoint d))) as [b|msg] eqn:E1; cbn;
    [|discriminate].
  destruct (env _ (t ++ [Any (ConnectOverCDP (wsEndpoint d))]) (Contexts b))
    as [[|c cs]|msg] eqn:E2; cbn; try discriminate.
  destruct (env _ ((t ++ [Any (ConnectOverCDP (wsEndpoint d))]) ++ [Any (Contexts b)]) (Pages c))
    as [[|p' ps]|msg] eqn:E3; cbn; try discriminate.
  intros H. injection H as <- _. rewrite <- app_assoc in E3.
  exists d, b, c. repeat split; eauto.
Qed.

(** The two ways of the session manager.  Either it reconnects, and then
    it makes the three calls of the reconnection and leaves the session file
    alone; or it is a cold start, which deletes the file or leaves it alone
    and then calls the launch, after which the file is as the cold start left
    it or holds the fresh session of a launched browser. *)
Lemma ensureBrowser_cases (env : Env) (w : World) :
  (exists d b c p,
      reconnects env w d b c p
      /\ file (snd (ensureBrowser env w)) = file w
      /\ trace (snd (ensureBrowser env w)) = trace w ++ reconnect_calls d b c)
  \/ (exists w1,
         cold_start env w w1
         /\ (file w1 = None \/ file w1 = file w)
         /\ (file (snd (ensureBrowser env w)) = file w1
             \/ exists b c e,
                  env _ (trace w1
                           ++ [Any Launch; Any (NewContext b); Any (NewPage c)])
                    (WsEndpoint b) = Some e
                  /\ e <> []
                  /\ file (snd (ensureBrowser env w))
                     = Some (Json (fresh_session e
                                     (env _ (trace w1 ++ launch_calls b c)
                                        DateToISOString))))
         /\ exists before rest,
              trace w1 = trace w ++ before
              /\ existsb is_launch before = false
              /\ trace (snd (ensureBrowser env w))
                 = trace w1 ++ Any Launch :: rest).
Proof.
  destruct (acquire_existing_never_throws env w) as ([p|] & w1 & E).
  - left. destruct (@acquire_existing_found env w w1 p E) as (d & b & c & R).
    exists d, b, c, p. split; [exact R|].
    rewrite (ensureBrowser_reconnects R). cbn. auto.
  - right. exists w1. apply acquire_existing_falls_through in E.
    split; [exact E|]. split; [exact (@cold_start_file env w w1 E)|].
    rewrite (ensureBrowser_cold E). split; [apply launch_file|].
    destruct (launch_effect env w1) as [(rest & Hrest) _].
    assert (exists before,
               trace w1 = trace w ++ before /\ existsb is_launch before = false)
      as (before & Hb & Hn).
    { destruct E; cbn; norm_trace;
        try (exists []; rewrite app_nil_r; split; reflexivity);
        eexists; split; reflexivity. }
    exists before, rest. auto.
Qed.

Lemma advances_ensureBrowser : stable advances ensureBrowser.
Proof.
  intros env w.
  destruct (ensureBrowser_cases env w)
    as [(d & b & c & p & _ & F & T)
       |(w1 & _ & F1 & F2 & before & rest & T1 & _ & T2)].
  - exists (reconnect_calls d b c). split; [exact T|].
    left. rewrite F. apply kept_refl.
  - exists (before ++ Any Launch :: rest). split.
    + rewrite T2, T1, app_assoc. reflexivity.
    + assert (existsb is_launch (before ++ Any Launch :: rest) = true) as L.
      { rewrite existsb_app. cbn. apply orb_true_r. }
      destruct F2 as [F2|(b & c & e & _ & He & F2)]; rewrite F2.
      * destruct F1 as [F1|F1]; rewrite F1.
        -- right. split; [exact L|left; reflexivity].
        -- left. apply kept_refl.
      * right. split; [exact L|]. right. do 2 eexists.
        split; [exact He|apply kept_refl].
Qed.

Lemma advances_stepwise : stepwise advances.
Proof.
  constructor.
  - exact advances_refl.
  - exact advances_trans.
  - exact advances_log.
  - apply advances_update; cbn; congruence.
  - apply advances_update; cbn; congruence.
  - apply advances_update; cbn; congruence.
  - exact advances_ensureBrowser.
Qed.

Lemma advances_extends w w' : advances w w' -> extends w w'.
Proof. intros (l & H & _). exists l. exact H. Qed.




(** The workflow on a live session: filling the form and submitting it, each
    in a process of its own, sets the two flags. *)
Example workflow_sets_flags :
  file (run_commands Scenario.config (Scenario.env_of Scenario.live)
          [OpCreateLabel Scenario.request; OpSubmit]
          (Scenario.resumed false false))
  = Some (Json (Scenario.session true true)).
Proof. vm_compute. reflexivity. Qed.

(** A cold start after a failed connection: the browser of a session with
    all flags set is gone; [takeScreenshot] deletes the session file, launches
    a browser, and the session file holds the fresh session of the new
    browser. *)
Example cold_start_starts_over :
  file (snd (takeScreenshot None (Scenario.env_of Scenario.dead)
               (Scenario.resumed true true)))
  = Some (Json (fresh_session (js "ws://127.0.0.1:9222/devtools/browser/new")
                  (js "2023-11-14T22:13:20.000Z")))
  /\ existsb is_launch
       (trace (snd (takeScreenshot None (Scenario.env_of Scenario.dead)
                      (Scenario.resumed true true)))) = true.
Proof. split; vm_compute; reflexivity. Qed.

Lemma ensures_ret A (P : A -> Prop) (a : A) : P a -> ensures P (ret a).
Proof. intros H env w a' E. injection E as <-. exact H. Qed.

Lemma ensures_bind A B (P : B -> Prop) (m : M A) (k : A -> M B) :
  (forall a, ensures P (k a)) -> ensures P (bind m k).
Proof.
  intros H env w b. unfold bind.
  destruct (m env w) as [[a|e] w1]; [apply H|discriminate].
Qed.

Lemma ensures_try A (P : A -> Prop) (m : M A) (h : jsstring -> M A) :
  ensures P m -> (forall e, ensures P (h e)) -> ensures P (try_catch m h).
Proof.
  intros Hm Hh env w a. unfold try_catch.
  specialize (Hm env w).
  destruct (m env w) as [[a'|e] w1]; [exact (Hm a)|apply Hh].
Qed.


Lemma submit_form_past_guard p : ensures past_guard (submit_form p).
Proof.
  unfold submit_form.
  apply ensures_try; intros;
    repeat (apply ensures_bind; intros);
    apply ensures_ret; [left|right]; cbn; congruence.
Qed.

Lemma download_file_past_guard p : ensures past_guard (download_file p).
Proof.
  unfold download_file.
  apply ensures_try; intros;
    repeat (apply ensures_bind; intros);
    apply ensures_ret; [left|right]; cbn; congruence.
Qed.

Lemma extends_refl w : extends w w.
Proof. exists []. rewrite app_nil_r. reflexivity. Qed.

Lemma extends_trans w1 w2 w3 : extends w1 w2 -> extends w2 w3 -> extends w1 w3.
Proof.
  intros (l1 & H1) (l2 & H2). exists (l1 ++ l2).
  rewrite H2, H1, app_assoc. reflexivity.
Qed.

Lemma grows A (m : M A) : stable advances m -> stable extends m.
Proof. intros H env w. apply advances_extends, H. Qed.

Lemma begins_call X (c : Call (outcome X)) : begins_with [Any c] (call c).
Proof. intros env w. apply extends_refl. Qed.

Lemma begins_after_ask X (c : Call X) cs A (k : X -> M A) :
  (forall x, begins_with cs (k x)) -> begins_with (Any c :: cs) (bind (ask c) k).
Proof.
  intros Hk env w. unfold bind, ask.
  destruct (Hk (env X (trace w) c) env (log (Any c) w)) as (l & Hl).
  exists l. rewrite Hl. cbn. rewrite <- !app_assoc. reflexivity.
Qed.

Lemma begins_bind cs A B (m : M A) (k : A -> M B) :
  begins_with cs m -> (forall a, stable advances (k a)) ->
  begins_with cs (bind m k).
Proof.
  intros Hm Hk env w. unfold bind.
  specialize (Hm env w).
  destruct (m env w) as [[a|e] w1]; cbn in *; [|exact Hm].
  eapply extends_trans; [exact Hm|apply (grows (Hk a))].
Qed.

Lemma begins_try cs A (m : M A) (h : jsstring -> M A) :
  begins_with cs m -> (forall e, stable advances (h e)) ->
  begins_with cs (try_catch m h).
Proof.
  intros Hm Hh env w. unfold try_catch.
  specialize (Hm env w).
  destruct (m env w) as [[a|e] w1]; cbn in *; [exact Hm|].
  eapply extends_trans; [exact Hm|apply (grows (Hh e))].
Qed.

Lemma begins_first_found p selector rest (action : Element -> M unit) :
  (forall e, stable advances (action e)) ->
  begins_with [Any (Query p selector)] (first_found p (selector :: rest) action).
Proof.
  intros H. cbn [first_found]. unfold attempt.
  apply begins_bind.
  - apply begins_try.
    + apply begins_bind; [apply begins_call|].
      intros [e|]; Stepwise.stable_with advances_stepwise. apply H.
    + intros. Stepwise.stable_with advances_stepwise.
  - intros [|]; Stepwise.stable_with advances_stepwise. apply H.
Qed.

Lemma submit_form_begins p :
  begins_with [Any (Query p (js "button:has-text(`Buy postage`)"))] (submit_form p).
Proof.
  unfold submit_form. apply begins_try.
  - apply begins_bind.
    + apply begins_first_found. intros. Stepwise.stable_with advances_stepwise.
    + intros. Stepwise.stable_with advances_stepwise.
  - intros. Stepwise.stable_with advances_stepwise.
Qed.

Lemma download_file_begins p :
  begins_with [Any (WaitForEventDownload p);
               Any (Query p (js "button:has-text(`Download`)"))]
    (download_file p).
Proof.
  unfold download_file. apply begins_try.
  - apply begins_after_ask. intros _.
    apply begins_bind.
    + apply begins_first_found. intros. Stepwise.stable_with advances_stepwise.
    + intros. Stepwise.stable_with advances_stepwise.
  - intros. Stepwise.stable_with advances_stepwise.
Qed.

Lemma past_guard_not_refusal (r : Result) (msg : jsstring) :
  past_guard r -> r <> error_result msg.
Proof.
  intros [H|H] ->; cbn in H; [discriminate|congruence].
Qed.

(** C9, as amended.  There is no session file, the launch succeeds, and the
    new browser gives no endpoint, so that no session file exists once the
    page is acquired.  Then [submit] makes no check of the form flag: it is
    the submission itself, run on the new page; its result is not the
    precondition failure, and its first call on the page is the query of the
    first submit button.  Likewise [downloadLabel] makes no check of the
    label flag: it arms the download and queries the first download
    button. *)
Theorem guard_skipped_without_session :
  forall (env : Env) (w : World) b c p endpoint,
    file w = None ->
    launches env (trace w) b c p endpoint ->
    truthy endpoint = false ->
    (submit env w =
     submit_form p env
       {| file := None; browser := Some b; context := Some c; page := Some p;
          trace := trace w ++ launch_calls b c |}
     /\ fst (submit env w) <> Returned form_not_filled
     /\ exists rest,
         trace (snd (submit env w)) =
         trace w ++ launch_calls b c
           ++ Any (Query p (js "button:has-text(`Buy postage`)")) :: rest)
    /\ (downloadLabel env w =
        download_file p env
          {| file := None; browser := Some b; context := Some c; page := Some p;
             trace := trace w ++ launch_calls b c |}
        /\ fst (downloadLabel env w) <> Returned label_not_generated
        /\ exists rest,
            trace (snd (downloadLabel env w)) =
            trace w ++ launch_calls b c
              ++ Any (WaitForEventDownload p)
              :: Any (Query p (js "button:has-text(`Download`)")) :: rest).
Proof.
  intros env w b c p endpoint Hf Hlaunch He.
  assert (Hs : submit env w =
               submit_form p env
                 {| file := None; browser := Some b; context := Some c;
                    page := Some p; trace := trace w ++ launch_calls b c |}).
  { unfold submit, bind.
    rewrite (ensureBrowser_no_session w Hf Hlaunch He). reflexivity. }
  assert (Hd : downloadLabel env w =
               download_file p env
                 {| file := None; browser := Some b; context := Some c;
                    page := Some p; trace := trace w ++ launch_calls b c |}).
  { unfold downloadLabel, bind.
    rewrite (ensureBrowser_no_session w Hf Hlaunch He). reflexivity. }
  split; (split; [assumption|]).
  - rewrite Hs. split.
    + intros E. eapply past_guard_not_refusal; [|reflexivity].
      eapply submit_form_past_guard. exact E.
    + destruct (submit_form_begins p env
                  {| file := None; browser := Some b; context := Some c;
                     page := Some p; trace := trace w ++ launch_calls b c |})
        as (rest & Hrest).
      exists rest. rewrite Hrest. cbn. rewrite <- !app_assoc. reflexivity.
  - rewrite Hd. split.
    + intros E. eapply past_guard_not_refusal; [|reflexivity].
      eapply download_file_past_guard. exact E.
    + destruct (download_file_begins p env
                  {| file := None; browser := Some b; context := Some c;
                     page := Some p; trace := trace w ++ launch_calls b c |})
        as (rest & Hrest).
      exists rest. rewrite Hrest. cbn. rewrite <- !app_assoc. reflexivity.
Qed.

Lemma guard_skipped_without_session_witness :
  (submit (Scenario.env_of Scenario.dead_no_endpoint) (fresh_process None) =
   submit_form 9%nat (Scenario.env_of Scenario.dead_no_endpoint)
     {| file := None; browser := Some 7%nat; context := Some 8%nat;
        page := Some 9%nat; trace := [] ++ launch_calls 7%nat 8%nat |}
   /\ fst (submit (Scenario.env_of Scenario.dead_no_endpoint) (fresh_process None))
      <> Returned form_not_filled
   /\ exists rest,
       trace (snd (submit (Scenario.env_of Scenario.dead_no_endpoint)
                     (fresh_process None))) =
       [] ++ launch_calls 7%nat 8%nat
         ++ Any (Query 9%nat (js "button:has-text(`Buy postage`)")) :: rest)
  /\ (downloadLabel (Scenario.env_of Scenario.dead_no_endpoint) (fresh_process None) =
      download_file 9%nat (Scenario.env_of Scenario.dead_no_endpoint)
        {| file := None; browser := Some 7%nat; context := Some 8%nat;
           page := Some 9%nat; trace := [] ++ launch_calls 7%nat 8%nat |}
      /\ fst (downloadLabel (Scenario.env_of Scenario.dead_no_endpoint)
                (fresh_process None))
         <> Returned label_not_generated
      /\ exists rest,
          trace (snd (downloadLabel (Scenario.env_of Scenario.dead_no_endpoint)
                        (fresh_process None))) =
          [] ++ launch_calls 7%nat 8%nat
            ++ Any (WaitForEventDownload 9%nat)
            :: Any (Query 9%nat (js "button:has-text(`Download`)")) :: rest).
Proof.
  apply (@guard_skipped_without_session
           (Scenario.env_of Scenario.dead_no_endpoint) (fresh_process None)
           7%nat 8%nat 9%nat None).
  - reflexivity.
  - repeat split; reflexivity.
  - reflexivity.
Defined.

(** C9 as stated fails: there is no session file when the operation is
    invoked, the launched browser gives an endpoint, so the session manager
    writes a fresh session before the check; the check is made and the
    operation returns the precondition failure, without any call on the
    page. *)
Lemma guard_counterexample :
  file (fresh_process None) = None
  /\ fst (submit (Scenario.env_of Scenario.live) (fresh_process None))
     = Returned form_not_filled
  /\ existsb is_page_interaction
       (trace (snd (submit (Scenario.env_of Scenario.live) (fresh_process None))))
     = false
  /\ fst (downloadLabel (Scenario.env_of Scenario.live) (fresh_process None))
     = Returned label_not_generated
  /\ existsb is_page_interaction
       (trace (snd (downloadLabel (Scenario.env_of Scenario.live)
                      (fresh_process None))))
     = false.
Proof. repeat split. Qed.

Lemma log_all_log_all cs1 cs2 w :
  log_all cs2 (log_all cs1 w) = log_all (cs1 ++ cs2) w.
Proof. unfold log_all. cbn. rewrite app_assoc. reflexivity. Qed.

(** On a page where no query finds an element, the block for one label
    makes its six queries and does not return from the function. *)
Lemma fill_by_label_not_found (env : Env) p label value w :
  (forall h selector, env _ h (Query p selector) = Returned None) ->
  fill_by_label p label value env w = (Returned false, log_all (probes p label) w).
Proof.
  intros H. destruct w as [f b0 c0 p0 t].
  unfold fill_by_label, or_else, fill_if_found, bind, call.
  cbn. repeat (rewrite H; cbn; norm_trace).
  unfold ret, log, log_all, probes. cbn. norm_trace. reflexivity.
Qed.

Lemma fillField_not_found (env : Env) p labels value w :
  (forall h selector, env _ h (Query p selector) = Returned None) ->
  fillField p labels value env w =
  (Returned tt, log_all (flat_map (probes p) labels) w).
Proof.
  intros H. revert w. induction labels as [|label rest IH]; intros w.
  - cbn. unfold log_all, ret. rewrite app_nil_r. destruct w; reflexivity.
  - cbn [fillField flat_map]. unfold bind, try_catch.
    rewrite (@fill_by_label_not_found env p label value w H).
    rewrite IH, log_all_log_all. reflexivity.
Qed.

(** Whatever the page answers, also by throwing, [fillField] returns. *)
Lemma fillField_never_throws (env : Env) p labels value w :
  fst (fillField p labels value env w) = Returned tt.
Proof.
  revert w. induction labels as [|label rest IH]; intros w; [reflexivity|].
  cbn [fillField]. unfold bind at 1. unfold try_catch.
  destruct (fill_by_label p label value env w) as [[[|]|msg] w1]; cbn;
    auto.
Qed.

(** C7.  [fillField] never throws, whatever the page answers and for every
    list of label variants.  On a page where no query finds an element it
    returns after the six queries of each label variant, in order: it fills
    nothing, and it changes neither the session file nor the fields of the
    client. *)
Theorem fillField_is_best_effort :
  (forall (env : Env) p labels value w,
      fst (fillField p labels value env w) = Returned tt)
  /\ (forall (env : Env) p labels value w,
         (forall h selector, env _ h (Query p selector) = Returned None) ->
         fillField p labels value env w =
         (Returned tt,
          {| file := file w; browser := browser w; context := context w;
             page := page w;
             trace := trace w ++ flat_map (probes p) labels |})
         /\ forallb is_query (flat_map (probes p) labels) = true
         /\ existsb is_fill (flat_map (probes p) labels) = false).
Proof.
  split; [exact fillField_never_throws|].
  intros env p labels value w H.
  split; [apply (@fillField_not_found env p labels value w H)|].
  split.
  - induction labels as [|label rest IH]; [reflexivity|]. cbn. exact IH.
  - induction labels as [|label rest IH]; [reflexivity|]. cbn. exact IH.
Qed.

Lemma fillField_is_best_effort_witness :
  fillField 3%nat [js "Full name"; js "Name"] (js "John Smith")
    (Scenario.env_of Scenario.live) (Scenario.holding false false) =
  (Returned tt,
   {| file := Some (Json (Scenario.session false false));
      browser := Some 1%nat; context := Some 2%nat; page := Some 3%nat;
      trace := [] ++ flat_map (probes 3%nat) [js "Full name"; js "Name"] |})
  /\ forallb is_query (flat_map (probes 3%nat) [js "Full name"; js "Name"]) = true
  /\ existsb is_fill (flat_map (probes 3%nat) [js "Full name"; js "Name"]) = false.
Proof.
  apply (proj2 fillField_is_best_effort
           (Scenario.env_of Scenario.live) 3%nat [js "Full name"; js "Name"]
           (js "John Smith") (Scenario.holding false false)).
  intros h selector. reflexivity.
Defined.

End ClientFacts.

(* ===================================================================== *)
(** * Further properties: extractor, resolvers, session manager, operations *)
(* ===================================================================== *)


(* ===================================================================== *)
(** ** Soundness of the matcher *)
(* ===================================================================== *)

Module RegexFacts.

Import Extract.
Local Open Scope Z_scope.

Section Sound.

Variable i : bool.
Variable X : Type.

Lemma match_lit_sound l : forall s (k : jsstring -> jsstring -> option X) x,
  match_lit i l s k = Some x ->
  exists m rest, s = m ++ rest /\ lit_matches i l m = true /\ k m rest = Some x.
Proof.
  induction l as [|a l IH]; intros s k x H; cbn in H.
  - exists [], s. auto.
  - destruct s as [|c s]; [discriminate|].
    destruct (char_matches i a c) eqn:E; [|discriminate].
    destruct (IH _ _ _ H) as (m & rest & -> & Hm & Hk).
    exists (c :: m), rest. cbn. rewrite E, Hm. auto.
Qed.

Lemma match_star_sound cs : forall s (k : jsstring -> jsstring -> option X) x,
  match_star i cs s k = Some x ->
  exists m rest,
    s = m ++ rest /\ forallb (class_matches i cs) m = true /\ k m rest = Some x.
Proof.
  induction s as [|c s IH]; intros k x H; cbn in H.
  - exists [], []. auto.
  - destruct (class_matches i cs c) eqn:E; [|exists [], (c :: s); auto].
    destruct (match_star i cs s (fun m r => k (c :: m) r)) as [x0|] eqn:E0.
    + injection H as <-.
      destruct (IH _ _ E0) as (m & rest & -> & Hm & Hk).
      exists (c :: m), rest. cbn. rewrite E, Hm. auto.
    + exists [], (c :: s). auto.
Qed.

Lemma match_rep_sound cs n : forall s (k : jsstring -> jsstring -> option X) x,
  match_rep i n cs s k = Some x ->
  exists m rest,
    s = m ++ rest /\ List.length m = n
    /\ forallb (class_matches i cs) m = true /\ k m rest = Some x.
Proof.
  induction n as [|n IH]; intros s k x H; cbn in H.
  - exists [], s. auto.
  - destruct s as [|c s]; [discriminate|].
    destruct (class_matches i cs c) eqn:E; [|discriminate].
    destruct (IH _ _ _ H) as (m & rest & -> & Hl & Hm & Hk).
    exists (c :: m), rest. cbn. rewrite E, Hm, Hl. auto.
Qed.

Lemma match_class_sound cs s (k : jsstring -> jsstring -> option X) x :
  match_class i cs s k = Some x ->
  exists c rest, s = c :: rest /\ class_matches i cs c = true /\ k [c] rest = Some x.
Proof.
  unfold match_class. destruct s as [|c s]; [discriminate|].
  destruct (class_matches i cs c) eqn:E; [|discriminate].
  intros H. exists c, s. auto.
Qed.

Lemma match_opt_sound cs s (k : jsstring -> jsstring -> option X) x :
  match_opt i cs s k = Some x ->
  exists m rest,
    s = m ++ rest
    /\ (m = [] \/ exists c, m = [c] /\ class_matches i cs c = true)
    /\ k m rest = Some x.
Proof.
  unfold match_opt. destruct s as [|c s]; [intros H; exists [], []; auto|].
  destruct (class_matches i cs c) eqn:E; [|intros H; exists [], (c :: s); auto].
  destruct (k [c] s) as [x0|] eqn:E0; intros H.
  - injection H as <-. exists [c], s. split; [reflexivity|]. split; [|exact E0].
    right. exists c. auto.
  - exists [], (c :: s). auto.
Qed.

(** The matcher is sound: when it succeeds, the continuation was given a
    prefix of the input that the expression matches. *)
Lemma rmatch_sound r : forall s cap (k : cont X) x,
  rmatch i r s cap k = Some x ->
  exists m rest cap',
    s = m ++ rest /\ denotes i r m cap cap' /\ k m rest cap' = Some x.
Proof.
  induction r as [l|cs|cs|cs|cs|n cs|r1 IH1 r2 IH2|r1 IH1];
    intros s cap k x H; cbn in H.
  - destruct (match_lit_sound _ _ _ H) as (m & rest & -> & Hm & Hk).
    exists m, rest, cap. cbn. auto.
  - destruct (match_class_sound _ _ _ H) as (c & rest & -> & Hc & Hk).
    exists [c], rest, cap. cbn. repeat split; eauto.
  - destruct (match_star_sound _ _ _ H) as (m & rest & -> & Hm & Hk).
    exists m, rest, cap. cbn. auto.
  - destruct (match_class_sound _ _ _ H) as (c & s1 & -> & Hc & H1).
    destruct (match_star_sound _ _ _ H1) as (m & rest & -> & Hm & Hk).
    exists (c :: m), rest, cap. cbn. rewrite Hc, Hm.
    repeat split; auto. discriminate.
  - destruct (match_opt_sound _ _ _ H) as (m & rest & -> & Hm & Hk).
    exists m, rest, cap. cbn. auto.
  - destruct (match_rep_sound _ _ _ _ H) as (m & rest & -> & Hl & Hm & Hk).
    exists m, rest, cap. cbn. auto.
  - destruct (IH1 _ _ _ _ H) as (m1 & s1 & cap1 & -> & D1 & H1).
    destruct (IH2 _ _ _ _ H1) as (m2 & rest & cap2 & -> & D2 & Hk).
    exists (m1 ++ m2), rest, cap2. rewrite <- app_assoc.
    split; [reflexivity|]. split; [|exact Hk].
    cbn. exists m1, m2, cap1. auto.
  - destruct (IH1 _ _ _ _ H) as (m & rest & cap1 & -> & D1 & Hk).
    exists m, rest, (Some m). cbn. split; [reflexivity|]. split; [|exact Hk].
    split; [exists cap1; exact D1|reflexivity].
Qed.

End Sound.

Lemma match_here_sound p s m :
  match_here p s = Some m ->
  exists rest, s = m0 m ++ rest /\ denotes (ignoreCase p) (body p) (m0 m) None (m1 m).
Proof.
  unfold match_here. intros H.
  apply rmatch_sound in H. destruct H as (mm & rest & cap' & -> & D & Hk).
  injection Hk as <-. exists rest. auto.
Qed.

Lemma js_match_sound p : forall s m,
  js_match p s = Some m ->
  exists pre rest,
    s = pre ++ m0 m ++ rest
    /\ denotes (ignoreCase p) (body p) (m0 m) None (m1 m).
Proof.
  induction s as [|c s IH]; intros m H.
  - cbn in H. destruct (match_here p []) eqn:E; [|discriminate].
    injection H as <-.
    apply match_here_sound in E. destruct E as (rest & Hs & D).
    exists [], rest. auto.
  - rewrite ExtractFacts.js_match_cons in H.
    destruct (match_here p (c :: s)) eqn:E.
    + injection H as <-.
      apply match_here_sound in E. destruct E as (rest & Hs & D).
      exists [], rest. auto.
    + destruct (IH _ H) as (pre & rest & -> & D).
      exists (c :: pre), rest. auto.
Qed.

End RegexFacts.

(* ===================================================================== *)
(** ** Shapes of the extracted values *)
(* ===================================================================== *)

Module ShapeFacts.

Import Extract.
Local Open Scope Z_scope.

Lemma zrange_In a lo hi : In a (zrange lo hi) -> lo <= a <= hi.
Proof.
  unfold zrange. rewrite in_map_iff. intros (k & <- & Hk).
  apply in_seq in Hk. lia.
Qed.

Lemma char_matches_cases i a c :
  char_matches i a c = true ->
  c = a
  \/ (i = true /\ is_upper a = true /\ c = a + 32)
  \/ (i = true /\ is_lower a = true /\ c = a - 32).
Proof.
  unfold char_matches, canonicalize, is_upper, is_lower.
  destruct i; cbn [andb]; rewrite Z.eqb_eq.
  - destruct (Z.leb_spec 97 a), (Z.leb_spec a 122), (Z.leb_spec 97 c),
      (Z.leb_spec c 122), (Z.leb_spec 65 a), (Z.leb_spec a 90);
      cbn; intros E; try (left; lia); try (right; left; repeat split; lia);
      try (right; right; repeat split; lia).
  - intros E. left. lia.
Qed.

Lemma class_matches_In i cs c :
  class_matches i cs c = true ->
  exists a, In a (flat_map members cs) /\ char_matches i a c = true.
Proof. unfold class_matches. rewrite existsb_exists. auto. Qed.

Lemma AZ_letter i c :
  class_matches i AZ c = true -> is_upper c || (i && is_lower c) = true.
Proof.
  intros H. apply class_matches_In in H. destruct H as (a & Hin & Hm).
  cbn [AZ flat_map members app] in Hin. rewrite app_nil_r in Hin.
  apply zrange_In in Hin.
  apply char_matches_cases in Hm. unfold is_upper, is_lower in *.
  destruct Hm as [->|[(-> & _ & ->)|(-> & Hl & ->)]]; cbn [andb].
  - replace ((65 <=? a) && (a <=? 90)) with true; [reflexivity|].
    symmetry. apply andb_true_iff. split; apply Z.leb_le; lia.
  - replace ((97 <=? a + 32) && (a + 32 <=? 122)) with true;
      [apply orb_true_r|].
    symmetry. apply andb_true_iff. split; apply Z.leb_le; lia.
  - apply andb_true_iff in Hl. destruct Hl as [Hl _].
    apply Z.leb_le in Hl. lia.
Qed.

Lemma digit_class i c : class_matches i [CDigit] c = true -> is_digit c = true.
Proof.
  intros H. apply class_matches_In in H. destruct H as (a & Hin & Hm).
  cbn [flat_map members app] in Hin. rewrite app_nil_r in Hin.
  apply zrange_In in Hin.
  apply char_matches_cases in Hm. unfold is_upper, is_lower, is_digit in *.
  destruct Hm as [->|[(_ & Hu & _)|(_ & Hl & _)]].
  - apply andb_true_iff. split; apply Z.leb_le; lia.
  - apply andb_true_iff in Hu. destruct Hu as [Hu _]. apply Z.leb_le in Hu. lia.
  - apply andb_true_iff in Hl. destruct Hl as [Hl _]. apply Z.leb_le in Hl. lia.
Qed.

Lemma amount_class i c :
  class_matches i digit_dot_comma c = true -> is_amount_char c = true.
Proof.
  intros H. apply class_matches_In in H. destruct H as (a & Hin & Hm).
  cbn [digit_dot_comma flat_map members app] in Hin.
  assert (Ha : 48 <= a <= 57 \/ a = 46 \/ a = 44).
  { apply in_app_or in Hin. destruct Hin as [Hin | [ <- | [ <- | [] ] ] ]; auto.
    left. apply zrange_In. exact Hin. }
  assert (Hc : c = a).
  { apply char_matches_cases in Hm. unfold is_upper, is_lower in *.
    destruct Hm as [->|[(_ & Hu & _)|(_ & Hl & _)]]; [reflexivity| |].
    - apply andb_true_iff in Hu. destruct Hu as [Hu _]. apply Z.leb_le in Hu. lia.
    - apply andb_true_iff in Hl. destruct Hl as [Hl _]. apply Z.leb_le in Hl. lia. }
  subst c. unfold is_amount_char, is_digit.
  destruct Ha as [Ha | [ -> | -> ] ]; [|reflexivity|reflexivity].
  replace ((48 <=? a) && (a <=? 57)) with true; [reflexivity|].
  symmetry. apply andb_true_iff. split; apply Z.leb_le; lia.
Qed.

Lemma forallb_impl A (f g : A -> bool) l :
  (forall x, f x = true -> g x = true) ->
  forallb f l = true -> forallb g l = true.
Proof.
  intros H. induction l as [|x l IH]; [reflexivity|]. cbn.
  rewrite !andb_true_iff. intros [Hx Hl]. auto.
Qed.

Lemma GB_cases i m :
  lit_matches i (lit "GB") m = true ->
  exists g b, m = [g; b]
              /\ ((g =? 71) || (i && (g =? 103))) = true
              /\ ((b =? 66) || (i && (b =? 98))) = true.
Proof.
  change (lit "GB") with [71; 66].
  destruct m as [|g [|b [|x m]]]; cbn; try discriminate;
    try (rewrite ?andb_false_r; discriminate).
  rewrite andb_true_r, andb_true_iff. intros [Hg Hb].
  exists g, b. split; [reflexivity|].
  apply char_matches_cases in Hg. apply char_matches_cases in Hb.
  split.
  - destruct Hg as [->|[(-> & _ & ->)|(_ & Hl & _)]];
      [reflexivity|reflexivity|discriminate Hl].
  - destruct Hb as [->|[(-> & _ & ->)|(_ & Hl & _)]];
      [reflexivity|reflexivity|discriminate Hl].
Qed.

(** What the group [([A-Z]{2}\d{9}GB)] matches has the shape of a tracking
    number, and is what it captures. *)
Lemma tracking_code_denotes i m cap cap' :
  denotes i tracking_code m cap cap' ->
  cap' = Some m /\ tracking_shape i m = true.
Proof.
  cbn. intros ((cap1 & m1 & m2 & c1 & -> & (Hl1 & Hf1 & _) & m3 & m4 & c2
                 & -> & (Hl3 & Hf3 & _) & Hgb & _) & ->).
  split; [reflexivity|].
  apply GB_cases in Hgb. destruct Hgb as (g & b & -> & Hg & Hb).
  destruct m1 as [|l1 [|l2 [|x m1]]]; try discriminate Hl1.
  destruct m3 as [|d1 [|d2 [|d3 [|d4 [|d5 [|d6 [|d7 [|d8 [|d9 [|x m3]]]]]]]]]];
    try discriminate Hl3.
  apply (forallb_impl _ _ _ (AZ_letter i)) in Hf1.
  apply (forallb_impl _ _ _ (digit_class i)) in Hf3.
  cbn [app tracking_shape]. rewrite Hf1, Hf3, Hg, Hb. reflexivity.
Qed.

Lemma tracking_shape_any_case tn :
  tracking_shape false tn = true -> tracking_shape true tn = true.
Proof.
  destruct tn as [|l1 [|l2 [|d1 [|d2 [|d3 [|d4 [|d5 [|d6 [|d7 [|d8 [|d9 [|g [|b [|x tn]]]]]]]]]]]]]];
    try discriminate.
  unfold tracking_shape. cbn [forallb andb].
  rewrite !orb_false_r, !andb_true_r, !andb_true_iff.
  intros ((((H1 & H2) & Hd) & Hg) & Hb).
  rewrite H1, H2, Hg, Hb. cbn [orb]. auto.
Qed.

(** A labelled tracking pattern: the match ends with the capture, which
    has the shape of a tracking number. *)
Lemma labelled_tracking_denotes i label cs m0 c0 cap' :
  denotes i (RSeq (RLit label) (RSeq (RStar cs) tracking_code)) m0 c0 cap' ->
  exists pre tn, m0 = pre ++ tn /\ cap' = Some tn /\ tracking_shape i tn = true.
Proof.
  intros (m1 & m2 & c1 & -> & _ & m3 & m4 & c2 & -> & _ & H).
  apply tracking_code_denotes in H. destruct H as [-> Hs].
  exists (m1 ++ m3), m4. rewrite <- app_assoc. auto.
Qed.

Lemma plus_amount i m c0 cap' :
  denotes i (RGroup (RPlus digit_dot_comma)) m c0 cap' ->
  cap' = Some m /\ amount_shape m = true.
Proof.
  cbn. intros ((cap1 & Hne & Hf & _) & ->). split; [reflexivity|].
  apply (forallb_impl _ _ _ (amount_class i)) in Hf.
  destruct m; [contradiction|exact Hf].
Qed.

Lemma labelled_amount_denotes i label m0 c0 cap' :
  denotes i (labelled_amount label) m0 c0 cap' ->
  exists pre a, m0 = pre ++ a /\ cap' = Some a /\ amount_shape a = true.
Proof.
  intros (m1 & m2 & c1 & -> & _ & m3 & m4 & c2 & -> & _
          & m5 & m6 & c3 & -> & _ & H).
  apply plus_amount in H. destruct H as [-> Hs].
  exists (m1 ++ m3 ++ m5), m6. rewrite <- !app_assoc. auto.
Qed.

Lemma occurs_in_match (text pre m rest a c : jsstring) :
  text = pre ++ m ++ rest -> m = a ++ c -> occurs_in c text.
Proof.
  intros -> ->. exists (pre ++ a), rest. rewrite <- !app_assoc. reflexivity.
Qed.

(** Each tracking pattern captures a text that occurs in the input and has
    the shape of a tracking number or of a barcode. *)
Lemma tracking_pattern_capture p text m :
  In p trackingPatterns ->
  js_match p text = Some m ->
  exists tn,
    m1 m = Some tn /\ occurs_in tn text
    /\ (tracking_shape true tn = true \/ barcode_shape tn = true).
Proof.
  intros Hp H. apply RegexFacts.js_match_sound in H.
  destruct H as (pre & rest & Htext & D).
  cbn in Hp. destruct Hp as [ <- | [ <- | [ <- | [ <- | [] ] ] ] ]; cbn [body ignoreCase] in D.
  - apply labelled_tracking_denotes in D. destruct D as (a & tn & Hm & Hc & Hs).
    exists tn. split; [exact Hc|]. split; [|left; exact Hs].
    eapply occurs_in_match; eassumption.
  - apply labelled_tracking_denotes in D. destruct D as (a & tn & Hm & Hc & Hs).
    exists tn. split; [exact Hc|]. split; [|left; exact Hs].
    eapply occurs_in_match; eassumption.
  - apply tracking_code_denotes in D. destruct D as [Hc Hs].
    exists (m0 m). split; [exact Hc|].
    split; [|left; apply tracking_shape_any_case; exact Hs].
    apply (@occurs_in_match text pre (m0 m) rest [] (m0 m)); auto.
  - destruct D as (x1 & x2 & c1 & Hm & _ & x3 & x4 & c2 & -> & _ & D).
    cbn in D. destruct D as ((cap1 & Hne & Hf & _) & Hc).
    exists x4. split; [exact Hc|]. split.
    + apply (@occurs_in_match text pre (m0 m) rest (x1 ++ x3) x4); auto.
      rewrite Hm, <- app_assoc. reflexivity.
    + right. apply (forallb_impl _ _ _ (digit_class true)) in Hf.
      destruct x4; [contradiction|exact Hf].
Qed.

Lemma cost_pattern_capture p text m :
  In p costPatterns ->
  js_match p text = Some m ->
  exists a, m1 m = Some a /\ occurs_in a text /\ amount_shape a = true.
Proof.
  intros Hp H. apply RegexFacts.js_match_sound in H.
  destruct H as (pre & rest & Htext & D).
  cbn in Hp. destruct Hp as [ <- | [ <- | [ <- | [ <- | [] ] ] ] ]; cbn [body ignoreCase] in D;
    try (apply labelled_amount_denotes in D;
         destruct D as (x & a & Hm & Hc & Hs);
         exists a; split; [exact Hc|]; split; [|exact Hs];
         eapply occurs_in_match; eassumption).
  destruct D as (x1 & x2 & c1 & Hm & _ & D).
  apply plus_amount in D. destruct D as [Hc Hs].
  exists x2. split; [exact Hc|]. split; [|exact Hs].
  eapply occurs_in_match; eassumption.
Qed.

Lemma first_match_In patterns text m :
  first_match patterns text = Some m ->
  exists p, In p patterns /\ js_match p text = Some m.
Proof.
  induction patterns as [|q patterns IH]; cbn; [discriminate|].
  destruct (js_match q text) eqn:E.
  - intros H. injection H as <-. exists q. auto.
  - intros H. destruct (IH H) as (p & Hp & Hm). exists p. auto.
Qed.

(** X1.  Whenever the extractor returns a tracking number, that text occurs in
    the page text, and it is either two letters, nine digits and [GB] (in
    either case, as the labelled patterns ignore case) or a run of digits
    that is not empty (the barcode). *)
Theorem extracted_tracking_number_is_well_formed :
  forall text tn,
    Extract.trackingNumber (extractText text) = Some tn ->
    occurs_in tn text
    /\ (tracking_shape true tn = true \/ barcode_shape tn = true).
Proof.
  intros text tn. rewrite ExtractFacts.tracking_of_first_match.
  destruct (first_match trackingPatterns text) as [m|] eqn:E; [|discriminate].
  intros Hm. apply first_match_In in E. destruct E as (p & Hp & Hmatch).
  destruct (@tracking_pattern_capture p text m Hp Hmatch) as (tn' & Hc & Ho & Hs).
  rewrite Hc in Hm. injection Hm as <-. auto.
Qed.

Lemma extracted_tracking_number_is_well_formed_witness :
  occurs_in (lit "ab123456789gb") (lit "Your tracking # ab123456789gb, thanks")
  /\ (tracking_shape true (lit "ab123456789gb") = true
      \/ barcode_shape (lit "ab123456789gb") = true).
Proof.
  apply (@extracted_tracking_number_is_well_formed
           (lit "Your tracking # ab123456789gb, thanks") (lit "ab123456789gb")).
  vm_compute. reflexivity.
Defined.

(** X2.  Whenever the extractor returns a cost, it is the pound sign followed
    by a run of digits, dots and commas that is not empty and that occurs in
    the page text. *)
Theorem extracted_cost_is_an_amount :
  forall text c,
    Extract.cost (extractText text) = Some c ->
    exists a, c = pound :: a /\ occurs_in a text /\ amount_shape a = true.
Proof.
  intros text c. rewrite ExtractFacts.cost_of_first_match.
  destruct (first_match costPatterns text) as [m|] eqn:E; [|discriminate].
  intros Hm. apply first_match_In in E. destruct E as (p & Hp & Hmatch).
  destruct (@cost_pattern_capture p text m Hp Hmatch) as (a & Hc & Ho & Hs).
  rewrite Hc in Hm. cbn in Hm. injection Hm as <-. exists a. auto.
Qed.

Lemma extracted_cost_is_an_amount_witness :
  exists a,
    pound :: lit "1,234.50" = pound :: a
    /\ occurs_in a (lit "Price: $1,234.50 incl.")
    /\ amount_shape a = true.
Proof.
  apply (@extracted_cost_is_an_amount (lit "Price: $1,234.50 incl.")).
  vm_compute. reflexivity.
Defined.

End ShapeFacts.

(* ===================================================================== *)
(** ** Service table and name variants *)
(* ===================================================================== *)

Module TableFacts.

Local Open Scope Z_scope.

Lemma jseqb_eq a : forall b, jseqb a b = true -> a = b.
Proof.
  induction a as [|x a IH]; intros [|y b]; cbn; try discriminate; auto.
  rewrite andb_true_iff, Z.eqb_eq. intros [-> H]. f_equal. auto.
Qed.

Lemma lookup_In (V : Type) (table : list (jsstring * V)) key v :
  lookup table key = Some v -> In (key, v) table.
Proof.
  induction table as [|[k v'] table IH]; cbn; [discriminate|].
  destruct (jseqb k key) eqn:E.
  - intros H. injection H as <-. apply jseqb_eq in E. subst. auto.
  - auto.
Qed.

Lemma inherited_not_string c v :
  lookup Object_prototype c = Some v ->
  value_truthy v = true /\ forall s, v <> VString s.
Proof.
  intros H. apply lookup_In in H. cbn in H.
  repeat (destruct H as [H|H];
          [injection H as _ <-; split; [reflexivity|discriminate]|]).
  destruct H.
Qed.

Lemma service_name_listed c n :
  In (c, n) SERVICE_CODES -> service_name c = VString n.
Proof.
  intros H. cbn in H.
  repeat (destruct H as [H|H]; [injection H as <- <-; vm_compute; reflexivity|]).
  destruct H.
Qed.

Lemma service_name_unlisted c :
  lookup SERVICE_CODES c = None ->
  match lookup Object_prototype c with
  | None => service_name c = VString c
  | Some v => service_name c = v /\ forall s, v <> VString s
  end.
Proof.
  intros H. unfold service_name, service_entry. rewrite H.
  destruct (lookup Object_prototype c) as [v|] eqn:E; [|reflexivity].
  destruct (inherited_not_string _ E) as [T N]. rewrite T.
  split; [reflexivity|exact N].
Qed.

(** X17.  The catalogue of [listServices] lists the codes and names of
    [SERVICE_CODES], in the same order, and touches nothing, and the display
    name of every code of the catalogue is its name there.  A code that is
    not in the table is its own display name, unless it names a property of
    [Object.prototype] ([toString], [constructor], ...): then the display
    name is the inherited value, which is not a string.  A display name that
    is a string is its own display name. *)
Theorem service_tables_agree :
  (forall (env : Env) (w : World),
      exists services,
        listServices env w = (Returned services, w)
        /\ map (fun s => (code s, name s)) services = SERVICE_CODES
        /\ (forall s, In s services ->
                      service_name (code s) = VString (name s)))
  /\ (forall c,
         lookup SERVICE_CODES c = None ->
         match lookup Object_prototype c with
         | None => service_name c = VString c
         | Some v => service_name c = v /\ forall s, v <> VString s
         end)
  /\ (forall c n, service_name c = VString n -> service_name n = VString n).
Proof.
  split; [|split].
  - intros env w. eexists. split; [reflexivity|]. split; [reflexivity|].
    intros s H. apply service_name_listed. cbn in H |- *.
    repeat (destruct H as [H|H]; [subst s; cbn; tauto|]).
    destruct H.
  - exact service_name_unlisted.
  - intros c n. unfold service_name at 1. unfold service_entry.
    destruct (lookup SERVICE_CODES c) as [v|] eqn:E.
    + apply lookup_In in E. cbn in E.
      repeat (destruct E as [E|E];
              [injection E as _ <-; cbn; intros H; injection H as <-;
               vm_compute; reflexivity|]).
      destruct E.
    + destruct (lookup Object_prototype c) as [v|] eqn:E'.
      * destruct (inherited_not_string _ E') as [T N]. rewrite T.
        intros H. destruct (N n H).
      * intros H. injection H as <-.
        unfold service_name, service_entry. rewrite E, E'. reflexivity.
Qed.

Lemma service_tables_agree_witness :
  service_name (js "EXPRESS") = VString (js "EXPRESS")
  /\ (service_name (js "toString") = VFunction (js "toString")
      /\ forall s, VFunction (js "toString") <> VString s).
Proof.
  split.
  - apply (proj1 (proj2 service_tables_agree) (js "EXPRESS")).
    reflexivity.
  - apply (proj1 (proj2 service_tables_agree) (js "toString")).
    reflexivity.
Defined.

Lemma toLowerCase_no_upper s : forallb (fun c => negb (is_upper c)) (toLowerCase s) = true.
Proof.
  unfold toLowerCase.
  induction s as [|c s IH]; [reflexivity|]. cbn [map forallb].
  rewrite IH, andb_true_r.
  unfold is_upper.
  destruct (Z.leb_spec 65 c), (Z.leb_spec c 90); cbn [andb];
    rewrite negb_true_iff, andb_false_iff, !Z.leb_gt; lia.
Qed.

Lemma forallb_filter A (f g : A -> bool) l :
  forallb f l = true -> forallb f (filter g l) = true.
Proof.
  induction l as [|x l IH]; [reflexivity|]. cbn.
  rewrite andb_true_iff. intros [Hx Hl].
  destruct (g x); cbn; [rewrite Hx|]; auto.
Qed.

Lemma forallb_filter_self A (g : A -> bool) l : forallb g (filter g l) = true.
Proof.
  induction l as [|x l IH]; [reflexivity|]. cbn.
  destruct (g x) eqn:E; cbn; [rewrite E|]; auto.
Qed.

Lemma filter_id A (g : A -> bool) l : forallb g l = true -> filter g l = l.
Proof.
  induction l as [|x l IH]; [reflexivity|]. cbn.
  rewrite andb_true_iff. intros [-> Hl]. f_equal. auto.
Qed.

Lemma toLowerCase_id s :
  forallb (fun c => negb (is_upper c)) s = true -> toLowerCase s = s.
Proof.
  unfold toLowerCase.
  induction s as [|c s IH]; [reflexivity|]. cbn [map forallb].
  rewrite andb_true_iff. intros [Hc Hs].
  unfold is_upper in Hc. apply negb_true_iff in Hc. rewrite Hc.
  f_equal. auto.
Qed.

(** X18.  The name variant of a label, [label.toLowerCase()] without its white
    space, has no white space and no upper-case ASCII letter, and is its own
    name variant. *)
Theorem name_variant_is_normal :
  forall label,
    forallb (fun c => negb (is_space c)) (nameVariant label) = true
    /\ forallb (fun c => negb (is_upper c)) (nameVariant label) = true
    /\ nameVariant (nameVariant label) = nameVariant label.
Proof.
  intros label. unfold nameVariant, remove_whitespace.
  assert (H1 : forallb (fun c => negb (is_space c))
                 (filter (fun c => negb (existsb (Z.eqb c) whitespace))
                    (toLowerCase label)) = true)
    by apply forallb_filter_self.
  assert (H2 : forallb (fun c => negb (is_upper c))
                 (filter (fun c => negb (existsb (Z.eqb c) whitespace))
                    (toLowerCase label)) = true)
    by apply forallb_filter, toLowerCase_no_upper.
  split; [exact H1|]. split; [exact H2|].
  rewrite (toLowerCase_id _ H2). apply filter_id. exact H1.
Qed.

End TableFacts.


(* ===================================================================== *)
(** ** Calls made by the resolvers *)
(* ===================================================================== *)

Module EffectFacts.

Section OnlyCalls.

Variable ok : AnyCall -> bool.

Lemma log_all_nil w : log_all [] w = w.
Proof. destruct w. unfold log_all. cbn. rewrite app_nil_r. reflexivity. Qed.

Lemma log_all_app cs1 cs2 w : log_all cs2 (log_all cs1 w) = log_all (cs1 ++ cs2) w.
Proof. unfold log_all. cbn. rewrite app_assoc. reflexivity. Qed.

Lemma only_ret A (a : A) : only_calls ok (ret a).
Proof. intros env w. exists []. rewrite log_all_nil. auto. Qed.

Lemma only_throw A msg : only_calls ok (@throw A msg).
Proof. intros env w. exists []. rewrite log_all_nil. auto. Qed.

Lemma only_call X (c : Call (outcome X)) : ok (Any c) = true -> only_calls ok (call c).
Proof. intros H env w. exists [Any c]. cbn. rewrite H. auto. Qed.

Lemma only_ask X (c : Call X) : ok (Any c) = true -> only_calls ok (ask c).
Proof. intros H env w. exists [Any c]. cbn. rewrite H. auto. Qed.

Lemma only_bind A B (m : M A) (k : A -> M B) :
  only_calls ok m -> (forall a, only_calls ok (k a)) -> only_calls ok (bind m k).
Proof.
  intros Hm Hk env w. unfold bind.
  destruct (Hm env w) as (l1 & E1 & F1).
  destruct (m env w) as [[a|e] w1]; cbn in *; subst w1.
  - destruct (Hk a env (log_all l1 w)) as (l2 & E2 & F2).
    exists (l1 ++ l2). rewrite E2, log_all_app, forallb_app, F1, F2. auto.
  - exists l1. auto.
Qed.

Lemma only_try A (m : M A) (h : jsstring -> M A) :
  only_calls ok m -> (forall e, only_calls ok (h e)) -> only_calls ok (try_catch m h).
Proof.
  intros Hm Hh env w. unfold try_catch.
  destruct (Hm env w) as (l1 & E1 & F1).
  destruct (m env w) as [[a|e] w1]; cbn in *; subst w1.
  - exists l1. auto.
  - destruct (Hh e env (log_all l1 w)) as (l2 & E2 & F2).
    exists (l1 ++ l2). rewrite E2, log_all_app, forallb_app, F1, F2. auto.
Qed.

End OnlyCalls.

(** Decompose a method into its calls. *)
Ltac split_calls :=
  repeat first
    [ apply only_ret
    | apply only_throw
    | apply only_call; reflexivity
    | apply only_ask; reflexivity
    | apply only_bind; [|intros]
    | apply only_try; [|intros]
    | match goal with
      | |- only_calls _ (match ?x with _ => _ end) => destruct x
      end ].

Lemma only_attempt ok p selector (action : Element -> M unit) :
  ok (Any (Query p selector)) = true ->
  (forall e, only_calls ok (action e)) ->
  only_calls ok (attempt p selector action).
Proof.
  intros Hq H. unfold attempt.
  apply only_try; [|intros; apply only_ret].
  apply only_bind; [apply only_call; exact Hq|].
  intros [e|]; [|apply only_ret].
  apply only_bind; [apply H|intros; apply only_ret].
Qed.

Lemma only_first_found ok p selectors (action : Element -> M unit) :
  (forall s, ok (Any (Query p s)) = true) ->
  (forall e, only_calls ok (action e)) ->
  only_calls ok (first_found p selectors action).
Proof.
  intros Hq H. induction selectors as [|s rest IH]; cbn [first_found].
  - apply only_ret.
  - apply only_bind; [apply only_attempt; [apply Hq|exact H]|].
    intros [|]; [apply only_ret|exact IH].
Qed.

Lemma bind_returned A B (m : M A) (k : A -> M B) env w b w' :
  bind m k env w = (Returned b, w') ->
  exists a w1, m env w = (Returned a, w1) /\ k a env w1 = (Returned b, w').
Proof.
  unfold bind. destruct (m env w) as [[a|e] w1]; [|discriminate].
  intros H. exists a, w1. auto.
Qed.

Lemma only_extractConfirmation p :
  only_calls on_page_or_clock (extractConfirmation p).
Proof. unfold extractConfirmation. split_calls. Qed.

Lemma only_fill_by_label p label value :
  only_calls is_page_interaction (fill_by_label p label value).
Proof. unfold fill_by_label, or_else, fill_if_found. split_calls. Qed.

Lemma only_fillField p labels value :
  only_calls is_page_interaction (fillField p labels value).
Proof.
  induction labels as [|l rest IH]; cbn [fillField]; [apply only_ret|].
  apply only_bind.
  - apply only_try; [apply only_fill_by_label|intros; apply only_ret].
  - intros [|]; [apply only_ret|exact IH].
Qed.

Lemma only_select_dropdown p selectors serviceCode serviceName :
  only_calls is_page_interaction
    (select_dropdown p selectors serviceCode serviceName).
Proof.
  induction selectors as [|s rest IH]; cbn [select_dropdown]; [apply only_ret|].
  apply only_bind; [split_calls|].
  intros [|]; [apply only_ret|exact IH].
Qed.

Lemma only_selectService p serviceCode :
  only_calls is_page_interaction (selectService p serviceCode).
Proof.
  unfold selectService.
  apply only_bind; [apply only_select_dropdown|intros [|]; [apply only_ret|]].
  apply only_bind;
    [apply only_attempt; [reflexivity|intros; apply only_call; reflexivity]
    |intros [|]; [apply only_ret|]].
  apply only_bind;
    [apply only_attempt; [reflexivity|intros; apply only_call; reflexivity]
    |intros [|]; [apply only_ret|]].
  apply only_bind;
    [apply only_attempt; [reflexivity|intros; apply only_call; reflexivity]
    |intros; apply only_ret].
Qed.

(** X3.  [fillField] and [selectService] only make calls on the page and on
    its elements: whatever the page answers they leave the session file and
    the fields of the client as they were, and they never connect to, launch
    or close a browser. *)
Theorem resolvers_only_act_on_the_page :
  (forall p labels value (env : Env) (w : World),
      exists calls,
        snd (fillField p labels value env w) = log_all calls w
        /\ forallb is_page_interaction calls = true)
  /\ (forall p serviceCode (env : Env) (w : World),
         exists calls,
           snd (selectService p serviceCode env w) = log_all calls w
           /\ forallb is_page_interaction calls = true).
Proof.
  split.
  - intros p labels value. apply only_fillField.
  - intros p serviceCode. apply only_selectService.
Qed.

End EffectFacts.

(* ===================================================================== *)
(** ** Selector loops and resolvers *)
(* ===================================================================== *)

Module ResolverFacts.

Local Open Scope Z_scope.

Lemma never_ret A (a : A) : never_throws (ret a).
Proof. intros env w. exists a. reflexivity. Qed.

Lemma never_bind A B (m : M A) (k : A -> M B) :
  never_throws m -> (forall a, never_throws (k a)) -> never_throws (bind m k).
Proof.
  intros Hm Hk env w. unfold bind.
  destruct (Hm env w) as (a & E).
  destruct (m env w) as [[a'|e] w1]; cbn in E; [|discriminate].
  apply Hk.
Qed.

Lemma never_try A (m : M A) (h : jsstring -> M A) :
  (forall e, never_throws (h e)) -> never_throws (try_catch m h).
Proof.
  intros Hh env w. unfold try_catch.
  destruct (m env w) as [[a|e] w1]; [exists a; reflexivity|apply Hh].
Qed.

Lemma never_attempt p selector action : never_throws (attempt p selector action).
Proof. unfold attempt. apply never_try. intros. apply never_ret. Qed.

Lemma never_first_found p selectors action :
  never_throws (first_found p selectors action).
Proof.
  induction selectors as [|s rest IH]; cbn [first_found]; [apply never_ret|].
  apply never_bind; [apply never_attempt|].
  intros [|]; [apply never_ret|exact IH].
Qed.

Lemma never_select_dropdown p selectors serviceCode serviceName :
  never_throws (select_dropdown p selectors serviceCode serviceName).
Proof.
  induction selectors as [|s rest IH]; cbn [select_dropdown]; [apply never_ret|].
  apply never_bind; [apply never_try; intros; apply never_ret|].
  intros [|]; [apply never_ret|exact IH].
Qed.

Lemma never_selectService p serviceCode : never_throws (selectService p serviceCode).
Proof.
  unfold selectService.
  apply never_bind; [apply never_select_dropdown|intros [|]; [apply never_ret|]].
  apply never_bind; [apply never_attempt|intros [|]; [apply never_ret|]].
  apply never_bind; [apply never_attempt|intros [|]; [apply never_ret|]].
  apply never_bind; [apply never_attempt|intros; apply never_ret].
Qed.

Lemma attempt_not_found (env : Env) p selector action w :
  (forall h s, env _ h (Query p s) = Returned None) ->
  attempt p selector action env w = (Returned false, log (Any (Query p selector)) w).
Proof.
  intros H. unfold attempt, try_catch, bind, call. rewrite H. reflexivity.
Qed.

Lemma first_found_not_found (env : Env) p selectors action : forall w,
  (forall h s, env _ h (Query p s) = Returned None) ->
  first_found p selectors action env w =
  (Returned false, log_all (map (fun s => Any (Query p s)) selectors) w).
Proof.
  induction selectors as [|s rest IH]; intros w H; cbn [first_found map].
  - rewrite EffectFacts.log_all_nil. reflexivity.
  - unfold bind. rewrite (@attempt_not_found env p s action w H).
    rewrite IH by exact H.
    change (log (Any (Query p s)) w) with (log_all [Any (Query p s)] w).
    rewrite EffectFacts.log_all_app. reflexivity.
Qed.

Lemma select_dropdown_not_found (env : Env) p selectors code name : forall w,
  (forall h s, env _ h (Query p s) = Returned None) ->
  select_dropdown p selectors code name env w =
  (Returned false, log_all (map (fun s => Any (Query p s)) selectors) w).
Proof.
  induction selectors as [|s rest IH]; intros w H; cbn [select_dropdown map].
  - rewrite EffectFacts.log_all_nil. reflexivity.
  - unfold bind at 1. unfold try_catch, bind, call. rewrite H.
    cbv beta iota. unfold ret at 1. cbv beta iota.
    rewrite IH by exact H.
    change (log (Any (Query p s)) w) with (log_all [Any (Query p s)] w).
    rewrite EffectFacts.log_all_app. reflexivity.
Qed.

(** X4.  The loop over a list of selectors (login fields and button, submit,
    confirm and download buttons) never throws, whatever the page and the
    action do; when no query finds an element it has queried every selector,
    in order, done nothing else, and answers that nothing was found. *)
Theorem selector_loop_is_safe :
  (forall p selectors action (env : Env) (w : World),
      exists hit, fst (first_found p selectors action env w) = Returned hit)
  /\ (forall p selectors action (env : Env) (w : World),
         (forall h s, env _ h (Query p s) = Returned None) ->
         first_found p selectors action env w =
         (Returned false,
          log_all (map (fun s => Any (Query p s)) selectors) w)).
Proof.
  split.
  - intros p selectors action. apply never_first_found.
  - intros p selectors action env w H. apply first_found_not_found. exact H.
Qed.

Lemma selector_loop_is_safe_witness :
  first_found 3%nat submitButtonSelectors (fun b => call (Click b))
    (Scenario.env_of Scenario.live) (Scenario.holding true false) =
  (Returned false,
   log_all (map (fun s => Any (Query 3%nat s)) submitButtonSelectors)
     (Scenario.holding true false)).
Proof.
  apply (proj2 selector_loop_is_safe). intros h s. reflexivity.
Defined.

(** X5.  [selectService] never throws; on a page where no query finds an
    element it makes its eight queries (the five dropdown selectors, the
    radio button, the tile, the label), in this order, and selects or clicks
    nothing.  The queries name the service by its code and by the text
    shown for it: the name [SERVICE_CODES] gives for the code; the code
    itself when the table has no such code; but the text of the value
    inherited from [Object.prototype] when the code is the name of one of its
    properties. *)
Theorem selectService_is_best_effort :
  (forall p serviceCode (env : Env) (w : World),
      fst (selectService p serviceCode env w) = Returned tt)
  /\ (forall p serviceCode (env : Env) (w : World),
         (forall h s, env _ h (Query p s) = Returned None) ->
         exists shown,
           selectService p serviceCode env w =
           (Returned tt, log_all (service_probes p serviceCode shown) w)
           /\ forallb is_query (service_probes p serviceCode shown) = true
           /\ (forall n, In (serviceCode, n) SERVICE_CODES -> shown = n)
           /\ (lookup SERVICE_CODES serviceCode = None ->
               match lookup Object_prototype serviceCode with
               | None => shown = serviceCode
               | Some v => shown = to_string v /\ forall s, v <> VString s
               end)).
Proof.
  split.
  - intros p serviceCode env w.
    destruct (never_selectService p serviceCode env w) as ([] & E). exact E.
  - intros p serviceCode env w H.
    exists (to_string (service_name serviceCode)).
    split; [|split; [reflexivity|split]].
    + unfold selectService, bind at 1.
      rewrite (@select_dropdown_not_found env p selectSelectors serviceCode
                 (service_name serviceCode) w H).
      unfold bind at 1. rewrite (@attempt_not_found env p _ _ _ H).
      unfold bind at 1. rewrite (@attempt_not_found env p _ _ _ H).
      unfold bind at 1. rewrite (@attempt_not_found env p _ _ _ H).
      unfold ret, service_probes, log_all, log.
      cbn [trace file browser context page].
      rewrite <- !app_assoc. reflexivity.
    + intros n L. rewrite (TableFacts.service_name_listed L). reflexivity.
    + intros L. pose proof (@TableFacts.service_name_unlisted serviceCode L) as U.
      destruct (lookup Object_prototype serviceCode) as [v|].
      * destruct U as [-> N]. split; [reflexivity|exact N].
      * rewrite U. reflexivity.
Qed.

(** The service [toString], which the command line accepts as it does
    every code that is not empty. *)
Lemma selectService_is_best_effort_witness :
  exists shown,
    selectService 3%nat (js "toString")
      (Scenario.env_of Scenario.live) (Scenario.holding false false) =
    (Returned tt,
     log_all (service_probes 3%nat (js "toString") shown)
       (Scenario.holding false false))
    /\ forallb is_query (service_probes 3%nat (js "toString") shown) = true
    /\ (forall n, In (js "toString", n) SERVICE_CODES -> shown = n)
    /\ (lookup SERVICE_CODES (js "toString") = None ->
        shown = js "function toString() { [native code] }"
        /\ forall s, VFunction (js "toString") <> VString s).
Proof.
  apply (proj2 selectService_is_best_effort). intros h s. reflexivity.
Defined.

(** X6.  The first strategy wins.  When the query by accessible name for the
    first label variant finds a control and the fill returns, [fillField]
    makes these two calls and no other: no further strategy and no further
    variant is tried. *)
Theorem fillField_first_strategy_wins :
  forall (env : Env) (w : World) p label rest value e,
    env _ (trace w) (Query p (input_or_textarea "aria-label" label))
    = Returned (Some e) ->
    env _ (trace w ++ [Any (Query p (input_or_textarea "aria-label" label))])
      (Fill e value)
    = Returned tt ->
    fillField p (label :: rest) value env w =
    (Returned tt,
     log_all [Any (Query p (input_or_textarea "aria-label" label));
              Any (Fill e value)] w).
Proof.
  intros env w p label rest value e Hq Hf.
  destruct w as [f b0 c0 p0 t]. cbn [trace] in *.
  cbn [fillField]. unfold bind at 1. unfold try_catch, fill_by_label.
  unfold or_else at 1. unfold bind at 1. unfold fill_if_found at 1.
  unfold bind at 1. unfold call at 1. cbn [trace]. rewrite Hq.
  unfold bind at 1. unfold call at 1. cbn [trace log]. rewrite Hf.
  unfold ret, log_all, log. cbn. rewrite <- app_assoc. reflexivity.
Qed.

Lemma fillField_first_strategy_wins_witness :
  fillField 3%nat [js "City"; js "Town"] (js "London")
    (Scenario.env_of found) (Scenario.holding false false) =
  (Returned tt,
   log_all [Any (Query 3%nat (input_or_textarea "aria-label" (js "City")));
            Any (Fill 5%nat (js "London"))] (Scenario.holding false false)).
Proof.
  apply (@fillField_first_strategy_wins (Scenario.env_of found)
           (Scenario.holding false false) 3%nat (js "City") [js "Town"]
           (js "London") 5%nat); reflexivity.
Defined.

End ResolverFacts.

(* ===================================================================== *)
(** ** Session manager *)
(* ===================================================================== *)

Module SessionFacts.

Import ClientFacts.

(** X7.  When the browser of the session is live and has a page,
    [ensureBrowser] returns the first page of its first context, records the
    browser, the context and the page in the client, launches nothing and
    leaves the session file as it was. *)
Theorem live_session_is_reused :
  forall (env : Env) (w : World) d b c p,
    reconnects env w d b c p ->
    ensureBrowser env w =
    (Returned p,
     {| file := Some (Json d); browser := Some b; context := Some c;
        page := Some p; trace := trace w ++ reconnect_calls d b c |})
    /\ existsb is_launch (reconnect_calls d b c) = false.
Proof.
  intros env w d b c p H. split; [|reflexivity].
  rewrite (ensureBrowser_reconnects H).
  destruct H as (Hf & _). rewrite Hf. reflexivity.
Qed.

Lemma live_session_is_reused_witness :
  ensureBrowser (Scenario.env_of Scenario.live) (Scenario.resumed true false) =
  (Returned 3%nat,
   {| file := Some (Json (Scenario.session true false));
      browser := Some 1%nat; context := Some 2%nat; page := Some 3%nat;
      trace := [] ++ reconnect_calls (Scenario.session true false) 1%nat 2%nat |})
  /\ existsb is_launch (reconnect_calls (Scenario.session true false) 1%nat 2%nat)
     = false.
Proof.
  apply (@live_session_is_reused (Scenario.env_of Scenario.live)
           (Scenario.resumed true false) (Scenario.session true false)
           1%nat 2%nat 3%nat).
  repeat split; try reflexivity; eexists; reflexivity.
Defined.

Lemma launch_returns (env : Env) (w : World) b c p :
  (forall h, env _ h Launch = Returned b) ->
  (forall h, env _ h (NewContext b) = Returned c) ->
  (forall h, env _ h (NewPage c) = Returned p) ->
  fst (launch env w) = Returned p.
Proof.
  intros H1 H2 H3. unfold launch, bind, call, ask.
  rewrite H1. cbn. rewrite H2. cbn. rewrite H3. cbn.
  match goal with |- context [env (option jsstring) ?h ?c] =>
    destruct (env (option jsstring) h c) as [[|c1 e]|] end; reflexivity.
Qed.

(** X8.  [ensureBrowser] throws only out of the launch: when it throws a
    launch was called (a fault of the reconnection is never passed on); and
    when the launch, the new context and the new page succeed it returns a
    page from every world, also from a session file that does not parse. *)
Theorem session_manager_throws_only_from_launch :
  (forall (env : Env) (w : World) msg,
      fst (ensureBrowser env w) = Thrown msg ->
      exists calls,
        trace (snd (ensureBrowser env w)) = trace w ++ calls
        /\ existsb is_launch calls = true)
  /\ (forall (env : Env) (w : World) b c p,
         (forall h, env _ h Launch = Returned b) ->
         (forall h, env _ h (NewContext b) = Returned c) ->
         (forall h, env _ h (NewPage c) = Returned p) ->
         exists page, fst (ensureBrowser env w) = Returned page).
Proof.
  split.
  - intros env w msg. unfold ensureBrowser, bind.
    destruct (acquire_existing_effect env w) as [(l & Hl) _].
    destruct (acquire_existing_never_throws env w) as (found & w1 & E).
    rewrite E in *. cbn [fst snd] in *.
    destruct found as [p|]; [discriminate|]. intros _.
    destruct (launch_effect env w1) as [(rest & Hrest) _].
    exists (l ++ Any Launch :: rest). split.
    + rewrite Hrest, Hl, app_assoc. reflexivity.
    + rewrite existsb_app. cbn. apply orb_true_r.
  - intros env w b c p H1 H2 H3. unfold ensureBrowser, bind.
    destruct (acquire_existing_never_throws env w) as (found & w1 & E).
    rewrite E. destruct found as [p'|]; [exists p'; reflexivity|].
    exists p. apply (@launch_returns env w1 b c p); assumption.
Qed.

Lemma session_manager_throws_only_from_launch_witness :
  exists page,
    fst (ensureBrowser (Scenario.env_of Scenario.dead) (fresh_process (Some NotJson)))
    = Returned page.
Proof.
  apply (proj2 session_manager_throws_only_from_launch
           (Scenario.env_of Scenario.dead) (fresh_process (Some NotJson))
           7%nat 8%nat 9%nat); intros h; reflexivity.
Defined.

Lemma acquire_existing_connects (env : Env) (w : World) d :
  file w = Some (Json d) ->
  exists rest,
    trace (snd (acquire_existing env w)) =
    trace w ++ Any (ConnectOverCDP (wsEndpoint d)) :: rest.
Proof.
  destruct w as [f b0 c0 p0 t]; cbn. intros ->.
  unfold acquire_existing, reconnect, try_catch, bind; cbn.
  destruct (env _ t (ConnectOverCDP (wsEndpoint d))) as [b|msg]; cbn;
    [|eexists; reflexivity].
  destruct (env _ (t ++ [Any (ConnectOverCDP (wsEndpoint d))]) (Contexts b))
    as [[|c cs]|msg]; cbn; norm_trace; try (eexists; reflexivity).
  destruct (env _ (t ++ [Any (ConnectOverCDP (wsEndpoint d)); Any (Contexts b)]) (Pages c))
    as [[|p ps]|msg]; cbn; norm_trace; eexists; reflexivity.
Qed.

Lemma ensureBrowser_connects (env : Env) (w : World) d :
  file w = Some (Json d) ->
  exists rest,
    trace (snd (ensureBrowser env w)) =
    trace w ++ Any (ConnectOverCDP (wsEndpoint d)) :: rest.
Proof.
  intros Hf. unfold ensureBrowser, bind.
  destruct (acquire_existing_connects env w Hf) as (rest & Hrest).
  destruct (acquire_existing_never_throws env w) as (found & w1 & E).
  rewrite E in *. cbn [snd] in Hrest.
  destruct found as [p|]; [exists rest; exact Hrest|].
  destruct (launch_effect env w1) as [(rest' & Hrest') _].
  exists (rest ++ Any Launch :: rest').
  rewrite Hrest', Hrest, <- app_assoc. reflexivity.
Qed.

(** X9.  The endpoint makes the round trip through the session file: after a
    cold start in which the new browser gave the endpoint [e], the next
    process begins its [ensureBrowser] by connecting to [e]. *)
Theorem endpoint_round_trip :
  forall (env : Env) (w w1 : World) b c p e,
    cold_start env w w1 ->
    launches env (trace w1) b c p (Some e) ->
    e <> [] ->
    forall env' : Env,
    exists rest,
      trace (snd (ensureBrowser env' (new_process (snd (ensureBrowser env w))))) =
      trace (snd (ensureBrowser env w)) ++ Any (ConnectOverCDP e) :: rest.
Proof.
  intros env w w1 b c p e Hcold Hlaunch He env'.
  rewrite (ensureBrowser_fresh Hcold Hlaunch He). cbn [snd].
  match goal with
  | |- exists rest, trace (snd (ensureBrowser env' ?W)) = _ =>
      destruct (@ensureBrowser_connects env' W
                  (fresh_session e
                     (env _ (trace w1 ++ launch_calls b c) DateToISOString))
                  eq_refl) as (rest & H)
  end.
  exists rest. exact H.
Qed.

Lemma endpoint_round_trip_witness :
  exists rest,
    trace (snd (ensureBrowser (Scenario.env_of Scenario.live)
                  (new_process
                     (snd (ensureBrowser (Scenario.env_of Scenario.dead)
                             (fresh_process None)))))) =
    trace (snd (ensureBrowser (Scenario.env_of Scenario.dead) (fresh_process None)))
      ++ Any (ConnectOverCDP (js "ws://127.0.0.1:9222/devtools/browser/new")) :: rest.
Proof.
  apply (@endpoint_round_trip (Scenario.env_of Scenario.dead)
           (fresh_process None) (fresh_process None) 7%nat 8%nat 9%nat
           (js "ws://127.0.0.1:9222/devtools/browser/new")).
  - apply cold_no_file. reflexivity.
  - repeat split; reflexivity.
  - intros H. vm_compute in H. discriminate H.
Defined.

(** X10.  [updateSession] makes no call and leaves the fields of the client
    alone; it writes the merged session when the file holds one and creates
    no file when there is none; it returns unless the file does not parse.
    The merge keeps every field the update does not name, is idempotent, and
    the updates of two flags commute. *)
Theorem updateSession_merges :
  (forall u (env : Env) (w : World),
      snd (updateSession u env w) = with_file (updated u (file w)) w
      /\ (file w <> Some NotJson -> fst (updateSession u env w) = Returned tt))
  /\ (forall u d,
         (set_wsEndpoint u = None -> wsEndpoint (assign d u) = wsEndpoint d)
         /\ (set_createdAt u = None -> createdAt (assign d u) = createdAt d)
         /\ (set_loggedIn u = None -> loggedIn (assign d u) = loggedIn d)
         /\ (set_formFilled u = None -> formFilled (assign d u) = formFilled d)
         /\ (set_labelGenerated u = None ->
             labelGenerated (assign d u) = labelGenerated d))
  /\ (forall u f, updated u (updated u f) = updated u f)
  /\ (forall f,
         updated only_labelGenerated (updated only_formFilled f)
         = updated only_formFilled (updated only_labelGenerated f)).
Proof.
  split; [|split; [|split]].
  - intros u env w. destruct w as [[[d|]|] b0 c0 p0 t];
      unfold updateSession, bind; cbn; split; try reflexivity; congruence.
  - intros u d. unfold assign. cbn.
    repeat split; intros ->; reflexivity.
  - intros u [[d|]|]; try reflexivity. cbn. unfold assign. cbn.
    destruct u as [[a|] [b|] [c|] [e|] [g|]]; reflexivity.
  - intros [[d|]|]; reflexivity.
Qed.

Lemma updateSession_merges_witness :
  fst (updateSession only_formFilled (Scenario.env_of Scenario.live)
         (Scenario.resumed false false)) = Returned tt
  /\ loggedIn (assign (Scenario.session false false) only_formFilled) = true.
Proof.
  split.
  - apply (proj1 updateSession_merges only_formFilled
             (Scenario.env_of Scenario.live) (Scenario.resumed false false)).
    discriminate.
  - apply (proj1 (proj2 updateSession_merges) only_formFilled
             (Scenario.session false false)).
    reflexivity.
Defined.

End SessionFacts.

(* ===================================================================== *)
(** ** Operations past their guards *)
(* ===================================================================== *)

Module OperationFacts.

Import ClientFacts.
Import EffectFacts.

Lemma only_calls_file ok A (m : M A) env w :
  only_calls ok m -> file (snd (m env w)) = file w.
Proof. intros H. destruct (H env w) as (l & -> & _). reflexivity. Qed.

Lemma guarded_bind ok A B (Q : B -> option FileContent -> World -> Prop)
  (m : M A) (k : A -> M B) :
  only_calls ok m -> (forall a, guarded Q (k a)) -> guarded Q (bind m k).
Proof.
  intros Hm Hk env w. unfold bind.
  pose proof (only_calls_file env w Hm) as Hf.
  destruct (m env w) as [[a|e] w1]; cbn [snd] in Hf; [|exact Hf].
  specialize (Hk a env w1). rewrite Hf in Hk.
  destruct (k a env w1) as [[b|e] w2]; [exact Hk|congruence].
Qed.

Lemma guarded_update A u (r : A) :
  guarded (fun a f w' => a = r /\ file w' = updated u f)
    (bind (updateSession u) (fun _ => ret r)).
Proof.
  intros env w. destruct w as [[[d|]|] b0 c0 p0 t];
    unfold updateSession, bind; cbn; auto.
Qed.

Lemma guarded_ret A (Q : A -> option FileContent -> World -> Prop) (a : A) :
  (forall w, Q a (file w) w) -> guarded Q (ret a).
Proof. intros H env w. apply H. Qed.

Lemma guarded_weaken A (Q Q' : A -> option FileContent -> World -> Prop) (m : M A) :
  guarded Q m -> (forall a f w, Q a f w -> Q' a f w) -> guarded Q' m.
Proof.
  intros H HQ env w. specialize (H env w).
  destruct (m env w) as [[a|e] w']; auto.
Qed.

Lemma guarded_try A (Q Q' : A -> option FileContent -> World -> Prop)
  (m : M A) (h : jsstring -> M A) :
  guarded Q m -> (forall e, guarded Q' (h e)) ->
  guarded (fun a f w' => Q a f w' \/ Q' a f w') (try_catch m h).
Proof.
  intros Hm Hh env w. unfold try_catch.
  specialize (Hm env w).
  destruct (m env w) as [[a|e] w1]; [left; exact Hm|].
  specialize (Hh e env w1). rewrite Hm in Hh.
  destruct (h e env w1) as [[a|e'] w2]; [right; exact Hh|exact Hh].
Qed.

(** Peel the calls that come before the update of the session. *)
Ltac peel :=
  repeat (apply (@guarded_bind on_page_or_clock);
          [first [ apply only_first_found; [reflexivity|intros; split_calls]
                 | apply only_extractConfirmation
                 | solve [split_calls] ]
          |intros]).

Lemma submit_form_guarded p :
  guarded (fun r f w' =>
             (success r = Some true /\ error r = None
              /\ file w' = updated only_labelGenerated f)
             \/ (error r = Some true /\ success r = None /\ file w' = f))
    (submit_form p).
Proof.
  unfold submit_form. apply guarded_try.
  - peel. eapply guarded_weaken; [apply guarded_update|].
    cbn. intros r f w [-> H]. auto.
  - intros e. peel. apply guarded_ret. auto.
Qed.

(** X11.  [submit], past its guard, sets [labelGenerated] exactly when it
    returns success: on success the session file is the old one with the flag
    set (or still absent); when it returns an error result or throws, the
    session file is as it was. *)
Theorem submission_sets_flag_only_on_success :
  forall p (env : Env) (w : World),
    match submit_form p env w with
    | (Returned r, w') =>
        (success r = Some true /\ error r = None
         /\ file w' = updated only_labelGenerated (file w))
        \/ (error r = Some true /\ success r = None /\ file w' = file w)
    | (Thrown _, w') => file w' = file w
    end.
Proof. intros p. apply submit_form_guarded. Qed.


Lemma only_download_file p : only_calls on_page_or_clock (download_file p).
Proof.
  unfold download_file. apply only_try; [|intros; split_calls].
  apply only_bind; [split_calls|intros].
  apply only_bind;
    [apply only_first_found; [reflexivity|intros; split_calls]|intros].
  split_calls.
Qed.

Lemma bare_tracking_capture s m tn :
  js_match Extract.pat_bare_tracking s = Some m ->
  m1 m = Some tn ->
  tracking_shape false tn = true /\ occurs_in tn s.
Proof.
  intros H Hc. apply RegexFacts.js_match_sound in H.
  destruct H as (pre & rest & Hs & D).
  cbn [body ignoreCase Extract.pat_bare_tracking] in D.
  apply ShapeFacts.tracking_code_denotes in D. destruct D as [Hcap Hshape].
  rewrite Hcap in Hc. injection Hc as <-. split; [exact Hshape|].
  exists pre, rest. exact Hs.
Qed.

Lemma try_returned A (m : M A) (h : jsstring -> M A) env w a w' :
  try_catch m h env w = (Returned a, w') ->
  m env w = (Returned a, w')
  \/ exists e w1, m env w = (Thrown e, w1) /\ h e env w1 = (Returned a, w').
Proof.
  unfold try_catch. destruct (m env w) as [[a0|e] w1]; intros H.
  - left. exact H.
  - right. exists e, w1. auto.
Qed.

Lemma call_returned X (c : Call (outcome X)) env w x w' :
  call c env w = (Returned x, w') ->
  env _ (trace w) c = Returned x /\ w' = log (Any c) w.
Proof. unfold call. intros H. injection H as H <-. auto. Qed.

Lemma download_file_saved p (env : Env) (w : World) r w' :
  download_file p env w = (Returned r, w') ->
  success r = Some true ->
  saved_label env p w r w'.
Proof.
  intros H S. unfold download_file in H.
  apply try_returned in H. destruct H as [H|(e & w1 & _ & H)].
  - apply bind_returned in H. destruct H as (u & w1 & E1 & H).
    unfold ask in E1. injection E1 as _ <-.
    apply bind_returned in H. destruct H as (hit & w2 & E2 & H).
    destruct (@only_first_found is_query_or_click p downloadSelectors
                (fun button => call (Click button))
                (fun _ => eq_refl)
                (fun e env0 w0 =>
                   ex_intro _ [Any (Click e)] (conj eq_refl eq_refl))
                env (log (Any (WaitForEventDownload p)) w))
      as (clicks & Hw2 & Hclicks).
    rewrite E2 in Hw2. cbn [snd] in Hw2. subst w2.
    apply bind_returned in H. destruct H as (d & w3 & E3 & H).
    apply call_returned in E3. destruct E3 as [Hd ->].
    apply bind_returned in H. destruct H as (name & w4 & E4 & H).
    unfold ask in E4. injection E4 as <- <-.
    apply bind_returned in H. destruct H as (tn & w5 & E5 & H).
    apply bind_returned in H. destruct H as (u' & w6 & E6 & H).
    apply call_returned in E6. destruct E6 as [Hs ->].
    unfold ret in H. injection H as <- <-.
    clear S. destruct u'.
    exists clicks, d, tn. cbv zeta.
    split; [exact Hclicks|].
    split; [revert Hd; cbn [trace log log_all]; norm_trace; exact (fun x => x)|].
    split; [reflexivity|]. split; [reflexivity|].
    match type of E5 with
    | match js_match _ ?n with _ => _ end _ _ = _ =>
        destruct (js_match Extract.pat_bare_tracking n)
          as [[mm [[|c t]|]]|] eqn:E
    end.
    + exfalso. destruct (@bare_tracking_capture _ _ [] E eq_refl) as [Sh _].
      discriminate Sh.
    + unfold ret in E5. injection E5 as <- <-. split; [reflexivity|]. left.
      destruct (@bare_tracking_capture _ _ (c :: t) E eq_refl) as [Sh Occ].
      revert Hs Occ. cbn [trace log log_all file]. norm_trace. intros Hs Occ.
      repeat split; assumption.
    + exfalso. apply RegexFacts.js_match_sound in E.
      destruct E as (pre & rest & _ & D).
      cbn [body ignoreCase Extract.pat_bare_tracking] in D.
      apply ShapeFacts.tracking_code_denotes in D. destruct D as [Hcap _].
      cbn in Hcap. discriminate Hcap.
    + apply bind_returned in E5. destruct E5 as (now & w7 & E7 & E5).
      unfold ask in E7. injection E7 as <- <-.
      unfold ret in E5. injection E5 as <- <-. split; [reflexivity|]. right.
      revert Hs E. cbn [trace log log_all file]. norm_trace. intros Hs E.
      repeat split; assumption.
  - exfalso.
    apply bind_returned in H. destruct H as (now & w2 & _ & H).
    apply bind_returned in H. destruct H as (u & w3 & _ & H).
    unfold ret in H. injection H as <- _. discriminate S.
Qed.

(** X12.  When [downloadLabel], past its guard, returns success, then the
    download arrived after the search for the button, and the last call of
    the run saved it as [LABEL_DIR/<trackingNumber>.pdf] and returned: the
    tracking number returned is the code (two upper-case letters, nine
    digits, [GB]) that occurs in the file name the download suggests, or,
    when the name has no such code, [label-] followed by the time read just
    before; the path returned is the path saved to; the session file is
    unchanged. *)
Theorem download_saves_under_tracking_number :
  forall p (env : Env) (w w' : World) r,
    download_file p env w = (Returned r, w') ->
    success r = Some true ->
    saved_label env p w r w'.
Proof.
  intros p env w w' r H S. exact (@download_file_saved p env w r w' H S).
Qed.

Lemma download_saves_under_tracking_number_witness :
  saved_label downloading 3%nat (Scenario.holding true true)
    {| success := Some true; error := None;
       message := Some (js "Label downloaded successfully to "
                          ++ LABEL_DIR ++ js "/" ++ js "AB123456789GB" ++ js ".pdf");
       screenshot := None; formState := None;
       labelPath := Some (LABEL_DIR ++ js "/" ++ js "AB123456789GB" ++ js ".pdf");
       trackingNumber := Some (js "AB123456789GB");
       cost := None |}
    (log_all
       (Any (WaitForEventDownload 3%nat)
          :: map (fun s => Any (Query 3%nat s)) downloadSelectors
          ++ [Any (AwaitDownload 3%nat); Any (SuggestedFilename 4%nat);
              Any (SaveAs 4%nat
                     (LABEL_DIR ++ js "/" ++ js "AB123456789GB" ++ js ".pdf"))])
       (Scenario.holding true true)).
Proof.
  apply (@download_saves_under_tracking_number 3%nat
           downloading (Scenario.holding true true)).
  - vm_compute. reflexivity.
  - reflexivity.
Defined.


Lemma submit_past_guard (env : Env) (w : World) d b c p :
  reconnects env w d b c p ->
  formFilled d = true ->
  submit env w =
  submit_form p env
    {| file := Some (Json d); browser := Some b; context := Some c;
       page := Some p; trace := trace w ++ reconnect_calls d b c |}.
Proof.
  intros Hre Hflag. unfold submit, bind.
  rewrite (ensureBrowser_reconnects Hre).
  destruct Hre as (Hf & _). rewrite Hf. cbn. rewrite Hflag. reflexivity.
Qed.

Lemma download_past_guard (env : Env) (w : World) d b c p :
  reconnects env w d b c p ->
  labelGenerated d = true ->
  downloadLabel env w =
  download_file p env
    {| file := Some (Json d); browser := Some b; context := Some c;
       page := Some p; trace := trace w ++ reconnect_calls d b c |}.
Proof.
  intros Hre Hflag. unfold downloadLabel, bind.
  rewrite (ensureBrowser_reconnects Hre).
  destruct Hre as (Hf & _). rewrite Hf. cbn. rewrite Hflag. reflexivity.
Qed.

(** X13.  The guards let the operation through when the flag is set: on a live
    session with [formFilled = true], [submit] is the submission itself on
    the reconnected page, and its result is not the precondition failure;
    likewise [downloadLabel] with [labelGenerated = true]. *)
Theorem guards_pass_when_flag_is_set :
  forall (env : Env) (w : World) d b c p,
    reconnects env w d b c p ->
    (formFilled d = true ->
     submit env w =
     submit_form p env
       {| file := Some (Json d); browser := Some b; context := Some c;
          page := Some p; trace := trace w ++ reconnect_calls d b c |}
     /\ fst (submit env w) <> Returned form_not_filled)
    /\ (labelGenerated d = true ->
        downloadLabel env w =
        download_file p env
          {| file := Some (Json d); browser := Some b; context := Some c;
             page := Some p; trace := trace w ++ reconnect_calls d b c |}
        /\ fst (downloadLabel env w) <> Returned label_not_generated).
Proof.
  intros env w d b c p Hre. split; intros Hflag.
  - rewrite (submit_past_guard Hre Hflag). split; [reflexivity|].
    intros E. eapply past_guard_not_refusal; [|reflexivity].
    eapply submit_form_past_guard. exact E.
  - rewrite (download_past_guard Hre Hflag). split; [reflexivity|].
    intros E. eapply past_guard_not_refusal; [|reflexivity].
    eapply download_file_past_guard. exact E.
Qed.

Lemma guards_pass_when_flag_is_set_witness :
  fst (submit (Scenario.env_of Scenario.live) (Scenario.resumed true false))
  <> Returned form_not_filled
  /\ fst (downloadLabel (Scenario.env_of Scenario.live) (Scenario.resumed true true))
     <> Returned label_not_generated.
Proof.
  split.
  - apply (proj1 (@guards_pass_when_flag_is_set (Scenario.env_of Scenario.live)
                    (Scenario.resumed true false) (Scenario.session true false)
                    1%nat 2%nat 3%nat
                    ltac:(repeat split; try reflexivity; eexists; reflexivity))).
    reflexivity.
  - apply (proj2 (@guards_pass_when_flag_is_set (Scenario.env_of Scenario.live)
                    (Scenario.resumed true true) (Scenario.session true true)
                    1%nat 2%nat 3%nat
                    ltac:(repeat split; try reflexivity; eexists; reflexivity))).
    reflexivity.
Defined.

Lemma acquire_existing_file (env : Env) (w : World) :
  file (snd (acquire_existing env w)) <> Some NotJson.
Proof.
  destruct w as [[[d|]|] b0 c0 p0 t];
    unfold acquire_existing, reconnect, try_catch, bind; cbn;
    try discriminate.
  destruct (env _ t (ConnectOverCDP (wsEndpoint d))) as [b|msg]; cbn;
    [|discriminate].
  destruct (env _ (t ++ [Any (ConnectOverCDP (wsEndpoint d))]) (Contexts b))
    as [[|c cs]|msg]; cbn; try discriminate.
  destruct (env _ ((t ++ [Any (ConnectOverCDP (wsEndpoint d))]) ++ [Any (Contexts b)]) (Pages c))
    as [[|p ps]|msg]; cbn; discriminate.
Qed.

(** Once the session manager is through, the session file parses. *)
Lemma ensureBrowser_file (env : Env) (w : World) :
  file (snd (ensureBrowser env w)) <> Some NotJson.
Proof.
  unfold ensureBrowser, bind.
  pose proof (acquire_existing_file env w) as Hf.
  destruct (acquire_existing_never_throws env w) as (found & w1 & E).
  rewrite E in *. cbn [snd] in Hf.
  destruct found as [p|]; [exact Hf|].
  destruct (launch_effect env w1) as [_ [H|(e & now & H)]]; rewrite H;
    [exact Hf|discriminate].
Qed.

Lemma submit_form_returns (env : Env) p w :
  shots env -> exists r, fst (submit_form p env w) = Returned r.
Proof.
  intros shots. unfold submit_form, try_catch.
  match goal with
  | |- exists r, fst (let (o, w') := ?x in _) = _ => destruct x as [[r|e] w1]
  end; [exists r; reflexivity|].
  unfold bind, ask, call. rewrite shots. eexists. reflexivity.
Qed.

Lemma download_file_returns (env : Env) p w :
  shots env -> exists r, fst (download_file p env w) = Returned r.
Proof.
  intros shots. unfold download_file, try_catch.
  match goal with
  | |- exists r, fst (let (o, w') := ?x in _) = _ => destruct x as [[r|e] w1]
  end; [exists r; reflexivity|].
  unfold bind, ask, call. rewrite shots. eexists. reflexivity.
Qed.

Lemma operations_return (env : Env) config options w page :
  shots env ->
  fst (ensureBrowser env w) = Returned page ->
  (exists r, fst (createLabel config options env w) = Returned r)
  /\ (exists r, fst (submit env w) = Returned r)
  /\ (exists r, fst (downloadLabel env w) = Returned r).
Proof.
  intros shots Hpage.
  pose proof (ensureBrowser_file env w) as Hfile.
  split; [|split].
  - unfold createLabel, bind at 1.
    destruct (ensureBrowser env w) as [[p|e] w1]; [|discriminate].
    unfold try_catch.
    match goal with
    | |- exists r, fst (let (o, w') := ?x in _) = _ => destruct x as [[r|e] w2]
    end; [exists r; reflexivity|].
    unfold bind, ask, call. rewrite shots. eexists. reflexivity.
  - unfold submit, bind.
    destruct (ensureBrowser env w) as [[p|e] w1]; [|discriminate].
    cbn [snd] in Hfile.
    destruct w1 as [[[d|]|] b1 c1 p1 t1]; cbn in Hfile |- *; [| contradiction |].
    + destruct (formFilled d); cbn;
        [apply submit_form_returns; exact shots|eexists; reflexivity].
    + apply submit_form_returns; exact shots.
  - unfold downloadLabel, bind.
    destruct (ensureBrowser env w) as [[p|e] w1]; [|discriminate].
    cbn [snd] in Hfile.
    destruct w1 as [[[d|]|] b1 c1 p1 t1]; cbn in Hfile |- *; [| contradiction |].
    + destruct (labelGenerated d); cbn;
        [apply download_file_returns; exact shots|eexists; reflexivity].
    + apply download_file_returns; exact shots.
Qed.

(** X14.  Faults are returned, not thrown: when full-page screenshots succeed
    and [ensureBrowser] returns a page, [createLabel], [submit] and
    [downloadLabel] all return a result, whatever else the page does. *)
Theorem faults_become_results :
  forall (env : Env) config options (w : World) page,
    (forall (h : list AnyCall) (p : Page) (path : jsstring),
        env (outcome unit) h (Screenshot p path true) = Returned tt) ->
    fst (ensureBrowser env w) = Returned page ->
    (exists r, fst (createLabel config options env w) = Returned r)
    /\ (exists r, fst (submit env w) = Returned r)
    /\ (exists r, fst (downloadLabel env w) = Returned r).
Proof.
  intros env config options w page Hs Hp.
  exact (@operations_return env config options w page Hs Hp).
Qed.

Lemma faults_become_results_witness :
  (exists r, fst (createLabel Scenario.config Scenario.request
                    (Scenario.env_of Scenario.live) (Scenario.resumed false false))
             = Returned r)
  /\ (exists r, fst (submit (Scenario.env_of Scenario.live)
                       (Scenario.resumed false false)) = Returned r)
  /\ (exists r, fst (downloadLabel (Scenario.env_of Scenario.live)
                       (Scenario.resumed false false)) = Returned r).
Proof.
  apply (@faults_become_results (Scenario.env_of Scenario.live) Scenario.config
           Scenario.request (Scenario.resumed false false) 3%nat).
  - intros h p path. reflexivity.
  - reflexivity.
Defined.

(** X15.  After a successful [reset] the workflow starts over: with a launch
    that gives an endpoint, [submit] and [downloadLabel] return their
    precondition failures. *)
Theorem reset_starts_over :
  forall (env : Env) (w w' : World) r b c p e,
    reset env w = (Returned r, w') ->
    success r = Some true ->
    launches env (trace w') b c p (Some e) ->
    e <> [] ->
    fst (submit env w') = Returned form_not_filled
    /\ fst (downloadLabel env w') = Returned label_not_generated.
Proof.
  intros env w w' r b c p e Hreset Hok Hlaunch He.
  destruct (reset_success_state env w Hreset Hok) as [Hf _].
  pose proof (@ensureBrowser_fresh env w' w' b c p e
                (@cold_no_file env w' Hf) Hlaunch He) as Hb.
  split.
  - unfold submit, bind. rewrite Hb. reflexivity.
  - unfold downloadLabel, bind. rewrite Hb. reflexivity.
Qed.

Lemma reset_starts_over_witness :
  fst (submit (Scenario.env_of Scenario.live)
         {| file := None; browser := None; context := None; page := None;
            trace := [Any (BrowserClose 1%nat)] |})
  = Returned form_not_filled
  /\ fst (downloadLabel (Scenario.env_of Scenario.live)
            {| file := None; browser := None; context := None; page := None;
               trace := [Any (BrowserClose 1%nat)] |})
     = Returned label_not_generated.
Proof.
  apply (@reset_starts_over (Scenario.env_of Scenario.live)
           (Scenario.holding true true) _ reset_ok 7%nat 8%nat 9%nat
           (js "ws://127.0.0.1:9222/devtools/browser/new")).
  - reflexivity.
  - reflexivity.
  - repeat split; reflexivity.
  - intros H. vm_compute in H. discriminate H.
Defined.

(** X16.  [takeScreenshot] with a file name, on a live session: one screenshot
    is taken, at [SCREENSHOT_DIR/<filename>], of the full page only if asked;
    that path is returned and the session file is unchanged. *)
Theorem screenshot_of_live_session :
  forall (env : Env) (w : World) d b c p c0 name full,
    reconnects env w d b c p ->
    env _ (trace w ++ reconnect_calls d b c)
      (Screenshot p (SCREENSHOT_DIR ++ js "/" ++ c0 :: name)
         match full with Some f => f | None => false end)
    = Returned tt ->
    takeScreenshot (Some {| o_filename := Some (c0 :: name); o_fullPage := full |})
      env w =
    (Returned
       {| success := Some true; error := None; message := None;
          screenshot := Some (SCREENSHOT_DIR ++ js "/" ++ c0 :: name);
          formState := None; labelPath := None; trackingNumber := None;
          cost := None |},
     {| file := Some (Json d); browser := Some b; context := Some c;
        page := Some p;
        trace := trace w ++ reconnect_calls d b c
                   ++ [Any (Screenshot p (SCREENSHOT_DIR ++ js "/" ++ c0 :: name)
                              match full with Some f => f | None => false end)] |}).
Proof.
  intros env w d b c p c0 name full Hre Hshot.
  unfold takeScreenshot, bind at 1.
  rewrite (ensureBrowser_reconnects Hre).
  destruct Hre as (Hf & _). rewrite Hf.
  unfold bind, ret, call. cbn [trace]. 
  destruct full as [f|]; rewrite Hshot; unfold log; cbn;
    rewrite <- app_assoc; reflexivity.
Qed.

Lemma screenshot_of_live_session_witness :
  takeScreenshot
    (Some {| o_filename := Some (js "check.png"); o_fullPage := None |})
    (Scenario.env_of Scenario.live) (Scenario.resumed true true)
  = (Returned
       {| success := Some true; error := None; message := None;
          screenshot := Some (SCREENSHOT_DIR ++ js "/" ++ js "check.png");
          formState := None; labelPath := None; trackingNumber := None;
          cost := None |},
     {| file := Some (Json (Scenario.session true true));
        browser := Some 1%nat; context := Some 2%nat; page := Some 3%nat;
        trace := [] ++ reconnect_calls (Scenario.session true true) 1%nat 2%nat
                   ++ [Any (Screenshot 3%nat
                              (SCREENSHOT_DIR ++ js "/" ++ js "check.png")
                              false)] |}).
Proof.
  apply (@screenshot_of_live_session (Scenario.env_of Scenario.live)
           (Scenario.resumed true true) (Scenario.session true true)
           1%nat 2%nat 3%nat 99%Z (js "heck.png") None).
  - repeat split; try reflexivity; eexists; reflexivity.
  - reflexivity.
Defined.

End OperationFacts.


(* ===================================================================== *)
(** ** Login, label creation and composition *)
(* ===================================================================== *)

Module WorkflowFacts.

#[local] Arguments includes : simpl never.

Import ClientFacts.
Import EffectFacts.

Lemma leaves_bind A B (P : B -> World -> Prop) (m : M A) (k : A -> M B) :
  (forall a, leaves P (k a)) -> leaves P (bind m k).
Proof.
  intros Hk env w b w'. unfold bind.
  destruct (m env w) as [[a|e] w1]; [apply Hk|discriminate].
Qed.

Lemma leaves_try A (P : A -> World -> Prop) (m : M A) (h : jsstring -> M A) :
  leaves P m -> (forall e, leaves P (h e)) -> leaves P (try_catch m h).
Proof.
  intros Hm Hh env w a w'. unfold try_catch.
  specialize (Hm env w).
  destruct (m env w) as [[a'|e] w1]; [apply Hm|apply Hh].
Qed.

Lemma leaves_ret A (P : A -> World -> Prop) (a : A) :
  (forall w, P a w) -> leaves P (ret a).
Proof. intros H env w a' w' E. injection E as <- <-. apply H. Qed.

Lemma leaves_throw A (P : A -> World -> Prop) msg : leaves P (@throw A msg).
Proof. intros env w a w' E. discriminate E. Qed.

Lemma leaves_update A (flag : SessionInfo -> bool) u (r : A) :
  (forall d, flag (assign d u) = true) ->
  leaves (fun a w' => a = r /\ flag_set flag w')
    (bind (updateSession u) (fun _ => ret r)).
Proof.
  intros Hu env w a w'. destruct w as [[[d|]|] b0 c0 p0 t];
    unfold updateSession, bind; cbn; intros E;
    try discriminate; injection E as <- <-; split; try reflexivity.
  - right. exists (assign d u). split; [reflexivity|apply Hu].
  - left. reflexivity.
Qed.

Lemma leaves_weaken A (P P' : A -> World -> Prop) (m : M A) :
  leaves P m -> (forall a w, P a w -> P' a w) -> leaves P' m.
Proof. intros H HP env w a w' E. apply HP. exact (H env w a w' E). Qed.

Lemma only_calls_file_of ok A (m : M A) env w :
  only_calls ok m -> file (snd (m env w)) = file w.
Proof. intros H. destruct (H env w) as (l & -> & _). reflexivity. Qed.

(** Peel a method down to its update of the session. *)
Ltac descend :=
  repeat lazymatch goal with
         | |- leaves _ (bind (updateSession _) _) => fail
         | |- leaves _ (bind _ _) => apply leaves_bind; intros
         | |- leaves _ (match ?x with _ => _ end) => destruct x
         | |- leaves _ (throw _) => apply leaves_throw
         end.

Lemma createLabel_leaves config options :
  leaves (fun r w' =>
            success r = Some true ->
            flag_set formFilled w'
            /\ formState r
               = Some (preview_of options (service_name (o_service options)))
            /\ screenshot r <> None)
    (createLabel config options).
Proof.
  unfold createLabel. apply leaves_bind. intros p. apply leaves_try.
  - descend.
    eapply leaves_weaken; [apply (@leaves_update _ formFilled); reflexivity|].
    cbn. intros r w [-> H] _. repeat split; [exact H|discriminate].
  - intros e. descend. apply leaves_ret. cbn. discriminate.
Qed.

(** X19.  When [createLabel] returns success, the session file (if there is
    one) has [formFilled] set, a screenshot path is returned, and the preview
    is the request itself, with for its service: the name [SERVICE_CODES]
    gives for the code of the request; the code itself when the table has no
    such code; but the value inherited from [Object.prototype], which is not
    a string, when the code is the name of one of its properties. *)
Theorem createLabel_success_sets_flag_and_echoes :
  forall config options (env : Env) (w w' : World) r,
    createLabel config options env w = (Returned r, w') ->
    success r = Some true ->
    flag_set formFilled w'
    /\ screenshot r <> None
    /\ exists shown,
         formState r = Some (preview_of options shown)
         /\ (forall n, In (o_service options, n) SERVICE_CODES ->
                       shown = VString n)
         /\ (lookup SERVICE_CODES (o_service options) = None ->
             match lookup Object_prototype (o_service options) with
             | None => shown = VString (o_service options)
             | Some v => shown = v /\ forall s, v <> VString s
             end).
Proof.
  intros config options env w w' r H S.
  destruct (@createLabel_leaves config options env w r w' H S) as (F & P & Sh).
  split; [exact F|]. split; [exact Sh|].
  exists (service_name (o_service options)). split; [exact P|]. split.
  - intros n. apply TableFacts.service_name_listed.
  - exact (@TableFacts.service_name_unlisted (o_service options)).
Qed.

(** A request for the service [constructor], which the command line
    accepts as it does every code that is not empty. *)
Lemma createLabel_success_sets_flag_and_echoes_witness :
  flag_set formFilled
    (snd (createLabel Scenario.config inherited_request
            (Scenario.env_of Scenario.live) (Scenario.resumed false false)))
  /\ screenshot
       (match fst (createLabel Scenario.config inherited_request
                     (Scenario.env_of Scenario.live) (Scenario.resumed false false))
        with Returned r => r | Thrown _ => form_not_filled end)
     <> None
  /\ exists shown,
       formState
         (match fst (createLabel Scenario.config inherited_request
                       (Scenario.env_of Scenario.live) (Scenario.resumed false false))
          with Returned r => r | Thrown _ => form_not_filled end)
       = Some (preview_of inherited_request shown)
       /\ (forall n, In (js "constructor", n) SERVICE_CODES -> shown = VString n)
       /\ (lookup SERVICE_CODES (js "constructor") = None ->
           shown = VFunction (js "Object")
           /\ forall s, VFunction (js "Object") <> VString s).
Proof.
  apply (@createLabel_success_sets_flag_and_echoes Scenario.config
           inherited_request
           (Scenario.env_of Scenario.live) (Scenario.resumed false false)).
  - vm_compute. reflexivity.
  - vm_compute. reflexivity.
Defined.

Lemma login_leaves config :
  leaves (fun _ w' => flag_set loggedIn w') (login config).
Proof.
  intros env w a w' H. unfold login in H.
  apply bind_returned in H. destruct H as (p & w1 & _ & H).
  apply bind_returned in H. destruct H as (ex & w1' & Hex & H).
  apply bind_returned in H. destruct H as (still & w2 & Hstill & H).
  unfold existsSync, bind, get_file, ret in Hex. injection Hex as <- <-.
  destruct still.
  - injection H as <- <-.
    destruct w1 as [[[d|]|] b1 c1 p1 t1]; cbn in Hstill;
      try discriminate Hstill.
    unfold bind at 1 in Hstill. cbn in Hstill.
    destruct (loggedIn d) eqn:Hd; [|discriminate Hstill].
    right. exists d. split; [|exact Hd].
    pose proof
      (@only_calls_file_of on_page_or_clock _
         (try_catch
            (bind (call (Goto p ROYALMAIL_CREATE_ORDER_URL))
               (fun _ => bind (on_login_page p) (fun away => ret (negb away))))
            (fun _ => ret false))
         env
         {| file := Some (Json d); browser := b1; context := c1; page := p1;
            trace := t1 |}
         ltac:(unfold on_login_page; split_calls)) as Hf.
    assert (E : snd (try_catch
                       (bind (call (Goto p ROYALMAIL_CREATE_ORDER_URL))
                          (fun _ => bind (on_login_page p)
                                      (fun away => ret (negb away))))
                       (fun _ => ret false) env
                       {| file := Some (Json d); browser := b1; context := c1;
                          page := p1; trace := t1 |}) = w2)
      by exact (f_equal snd Hstill).
    rewrite E in Hf. exact Hf.
  - cbv beta iota in H.
    match type of H with
    | ?L env w2 = _ =>
        assert (HL : leaves (fun _ w' => flag_set loggedIn w') L)
    end.
    { descend.
      eapply leaves_weaken; [apply (@leaves_update _ loggedIn); reflexivity|].
      cbn. intros r w0 [_ Hw]. exact Hw. }
    exact (HL _ _ _ _ H).
Qed.

(** X20.  When [login] returns it returns [true], and the session file (if
    there is one) has [loggedIn] set. *)
Theorem login_marks_session :
  forall config (env : Env) (w w' : World) answer,
    login config env w = (Returned answer, w') ->
    answer = true /\ flag_set loggedIn w'.
Proof.
  intros config env w w' answer H. split.
  - revert H. generalize w'. generalize answer. generalize w. generalize env.
    change (leaves (fun a _ => a = true) (login config)).
    unfold login. descend; try (apply leaves_ret; reflexivity).
    eapply leaves_weaken; [apply (@leaves_update _ loggedIn); reflexivity|].
    cbn. intros r w0 [-> _]. reflexivity.
  - exact (@login_leaves config env w answer w' H).
Qed.

(** The slow path: the session is not logged in, the fields and the button
    are found, the credentials are typed, and [loggedIn] is set. *)
Lemma login_marks_session_witness :
  (file (fresh_process (Some (Json logged_out))) = Some (Json logged_out)
   /\ loggedIn logged_out = false)
  /\ existsb is_fill
       (trace (snd (login Scenario.config (Scenario.env_of found)
                      (fresh_process (Some (Json logged_out)))))) = true
  /\ file (snd (login Scenario.config (Scenario.env_of found)
                  (fresh_process (Some (Json logged_out)))))
     = Some (Json (assign logged_out only_loggedIn))
  /\ (true = true
      /\ flag_set loggedIn
           (snd (login Scenario.config (Scenario.env_of found)
                   (fresh_process (Some (Json logged_out)))))).
Proof.
  split; [split; reflexivity|]. split; [vm_compute; reflexivity|].
  split; [vm_compute; reflexivity|].
  apply (@login_marks_session Scenario.config (Scenario.env_of found)
           (fresh_process (Some (Json logged_out)))).
  vm_compute. reflexivity.
Defined.

Lemma run_bind A B (m : M A) (k : A -> M B) env w a w1 :
  m env w = (Returned a, w1) -> bind m k env w = k a env w1.
Proof. intros H. unfold bind. rewrite H. reflexivity. Qed.

(** X21.  The fast path of [login]: on a live session marked as logged in,
    when the order page loads and its address has neither [login] nor
    [signin], [login] returns [true] after one navigation and two readings of
    the address; no field is queried or filled and the session file is
    unchanged. *)
Theorem login_fast_path_types_nothing :
  forall config (env : Env) (w : World) d b c p,
    reconnects env w d b c p ->
    loggedIn d = true ->
    env _ (trace w ++ reconnect_calls d b c) (Goto p ROYALMAIL_CREATE_ORDER_URL)
    = Returned tt ->
    includes
      (env _ (trace w ++ reconnect_calls d b c
                ++ [Any (Goto p ROYALMAIL_CREATE_ORDER_URL)]) (Url p))
      (js "login") = false ->
    includes
      (env _ (trace w ++ reconnect_calls d b c
                ++ [Any (Goto p ROYALMAIL_CREATE_ORDER_URL); Any (Url p)]) (Url p))
      (js "signin") = false ->
    login config env w =
    (Returned true,
     {| file := Some (Json d); browser := Some b; context := Some c;
        page := Some p;
        trace := trace w ++ reconnect_calls d b c
                   ++ [Any (Goto p ROYALMAIL_CREATE_ORDER_URL);
                       Any (Url p); Any (Url p)] |}).
Proof.
  intros config env w d b c p Hre Hd Hgoto Hu1 Hu2.
  unfold login, bind at 1. rewrite (ensureBrowser_reconnects Hre).
  destruct Hre as (Hf & _). rewrite Hf. clear Hf.
  destruct w as [f b0 c0 p0 t]. unfold reconnect_calls in *.
  cbn in *.
  match goal with
  | |- bind ?m ?k env ?W = (_, ?W') =>
      rewrite (@run_bind _ _ m k env W true W'); [reflexivity|]
  end.
  unfold bind, try_catch, call, ask, readSession, get_file, on_login_page.
  cbn. rewrite Hd. cbn. rewrite Hgoto. cbn. norm_trace.
  rewrite Hu1. cbn. norm_trace. rewrite Hu2.
  unfold log. cbn. norm_trace. reflexivity.
Qed.

Lemma login_fast_path_types_nothing_witness :
  login Scenario.config (Scenario.env_of Scenario.live) (Scenario.resumed false false) =
  (Returned true,
   {| file := Some (Json (Scenario.session false false));
      browser := Some 1%nat; context := Some 2%nat; page := Some 3%nat;
      trace := [] ++ reconnect_calls (Scenario.session false false) 1%nat 2%nat
                 ++ [Any (Goto 3%nat ROYALMAIL_CREATE_ORDER_URL);
                     Any (Url 3%nat); Any (Url 3%nat)] |}).
Proof.
  apply (@login_fast_path_types_nothing Scenario.config
           (Scenario.env_of Scenario.live) (Scenario.resumed false false)
           (Scenario.session false false) 1%nat 2%nat 3%nat).
  - repeat split; try reflexivity; eexists; reflexivity.
  - reflexivity.
  - reflexivity.
  - vm_compute. reflexivity.
  - vm_compute. reflexivity.
Defined.

Lemma run_call X (c : Call (outcome X)) (env : Env) w x :
  env _ (trace w) c = Returned x -> call c env w = (Returned x, log (Any c) w).
Proof. intros H. unfold call. rewrite H. reflexivity. Qed.

(** One step of a run: the first method of a sequence returns. *)
Ltac step :=
  match goal with
  | |- bind ?m ?k ?env ?W = _ =>
      erewrite (@run_bind _ _ m k env W);
      [|solve [ apply run_call; auto
              | apply ResolverFacts.first_found_not_found; auto
              | reflexivity ]];
      cbv beta
  end.

(** X22.  [login] without login fields: on a live session that is not logged
    in, when navigation, waits and screenshots succeed and no query finds an
    element, [login] throws [Could not find login fields], the session file
    is unchanged (so [loggedIn] stays false) and nothing was filled. *)
Theorem login_without_fields_fails :
  forall config (env : Env) (w : World) d b c p,
    reconnects env w d b c p ->
    loggedIn d = false ->
    (forall h url, env _ h (Goto p url) = Returned tt) ->
    (forall h ms, env _ h (WaitForTimeout p ms) = Returned tt) ->
    shots env ->
    (forall h s, env _ h (Query p s) = Returned None) ->
    exists now w',
      login config env w =
      (Thrown (js "Could not find login fields. See screenshot: "
                 ++ screenshot_path "royalmail-login-error-" now), w')
      /\ file w' = Some (Json d)
      /\ existsb is_fill (trace w') = existsb is_fill (trace w).
Proof.
  intros config env w d b c p Hre Hd Hgoto Hwait Hshots Hquery.
  unfold login, bind at 1. rewrite (ensureBrowser_reconnects Hre).
  destruct Hre as (Hf & _). rewrite Hf. clear Hf.
  destruct w as [f b0 c0 p0 t]. cbn [trace].
  do 2 eexists. split.
  - step.
    erewrite (@run_bind _ _ _ _ env _ false);
      [|unfold bind, readSession, get_file; cbn; rewrite Hd; reflexivity].
    cbv beta iota.
    do 6 step. cbn [negb orb]. do 2 step. reflexivity.
  - split; [reflexivity|].
    unfold log_all, log. cbn [trace]. rewrite !existsb_app. cbn.
    rewrite !orb_false_r. reflexivity.
Qed.

Lemma login_without_fields_fails_witness :
  exists now w',
    login Scenario.config (Scenario.env_of Scenario.live)
      (fresh_process (Some (Json logged_out))) =
    (Thrown (js "Could not find login fields. See screenshot: "
               ++ screenshot_path "royalmail-login-error-" now), w')
    /\ file w' = Some (Json logged_out)
    /\ existsb is_fill (trace w')
       = existsb is_fill (trace (fresh_process (Some (Json logged_out)))).
Proof.
  apply (@login_without_fields_fails Scenario.config
           (Scenario.env_of Scenario.live)
           (fresh_process (Some (Json logged_out))) logged_out
           1%nat 2%nat 3%nat).
  - repeat split; try reflexivity; eexists; reflexivity.
  - reflexivity.
  - intros h url. reflexivity.
  - intros h ms. reflexivity.
  - intros h p path. reflexivity.
  - intros h s. reflexivity.
Defined.

(** X23.  The two stages compose: when [createLabel] has returned success and
    the next process reconnects to the session, the session has
    [formFilled] set, [submit] is the submission itself on the reconnected
    page, and its result is not the precondition failure. *)
Theorem filled_form_can_be_submitted :
  forall config options (env : Env) (w w1 : World) r d b c p,
    createLabel config options env w = (Returned r, w1) ->
    success r = Some true ->
    reconnects env (new_process w1) d b c p ->
    formFilled d = true
    /\ submit env (new_process w1) =
       submit_form p env
         {| file := Some (Json d); browser := Some b; context := Some c;
            page := Some p; trace := trace w1 ++ reconnect_calls d b c |}
    /\ fst (submit env (new_process w1)) <> Returned form_not_filled.
Proof.
  intros config options env w w1 r d b c p Hcreate Hok Hre.
  destruct (@createLabel_leaves config options env w r w1 Hcreate Hok)
    as ([Hnone|(d' & Hd' & Hflag)] & _).
  - destruct Hre as (Hf & _). cbn in Hf. congruence.
  - assert (d' = d) as ->.
    { destruct Hre as (Hf & _). cbn in Hf. congruence. }
    split; [exact Hflag|].
    rewrite (OperationFacts.submit_past_guard Hre Hflag).
    split; [reflexivity|].
    intros E. eapply past_guard_not_refusal; [|reflexivity].
    eapply submit_form_past_guard. exact E.
Qed.

Lemma filled_form_can_be_submitted_witness :
  fst (submit (Scenario.env_of Scenario.live)
         (new_process
            (snd (createLabel Scenario.config Scenario.request
                    (Scenario.env_of Scenario.live)
                    (Scenario.resumed false false)))))
  <> Returned form_not_filled.
Proof.
  apply (@filled_form_can_be_submitted Scenario.config Scenario.request
           (Scenario.env_of Scenario.live) (Scenario.resumed false false)
           (snd (createLabel Scenario.config Scenario.request
                   (Scenario.env_of Scenario.live)
                   (Scenario.resumed false false)))
           (match fst (createLabel Scenario.config Scenario.request
                         (Scenario.env_of Scenario.live)
                         (Scenario.resumed false false))
            with Returned r => r | Thrown _ => form_not_filled end)
           (Scenario.session true false) 1%nat 2%nat 3%nat).
  - vm_compute. reflexivity.
  - vm_compute. reflexivity.
  - repeat split; try (vm_compute; reflexivity); eexists; vm_compute; reflexivity.
Defined.

End WorkflowFacts.
